(** * UWEPD: the file-backed conversation memory of the MCP agent clients

    A shallow embedding of the journal store found in [client_v2.py],
    [client_python.py] and [streamlit_mcpclientapp.py]: the helpers
    [_load_memory], [_append_memory], the thread listings, [delete_thread],
    the stamping of a journal with its thread id, and one chat turn of each
    front end.

    Python values are the JSON-shaped values the scripts handle; the
    filesystem, the clock, the remote agent service and the Streamlit session
    are fields of one [world] that a state-and-exception monad threads
    through the code. *)

From Stdlib Require Import ZArith Ascii String List Bool Lia.
From Stdlib Require Import DecimalString DecimalZ DecimalPos DecimalFacts.
From Stdlib Require Import Sorted.
From Stdlib Require OrderedTypeEx.
From stdpp Require Import base tactics option list gmap strings.

Set Warnings "-register-all".
Local Open Scope string_scope.

(** ** Python values *)

(** What [json.load] can return and [json.dump] can write.  A [dict] keeps
    its insertion order and has unique keys, so it is an association list;
    [json_ok] states the uniqueness. *)
Inductive pyval : Type :=
  | PNone
  | PBool (b : bool)
  | PInt (z : Z)
  | PStr (s : string)
  | PList (l : list pyval)
  | PDict (d : list (string * pyval)).

Inductive exn : Type :=
  | AttributeError
  | TypeError
  | KeyError
  | ValueError
  | OSError
  | ServiceError.

(** The outcome of running a piece of Python: a value, or a raised
    exception. *)
Inductive outcome (A : Type) : Type :=
  | Ok (a : A)
  | Raise (e : exn).
Arguments Ok {A} a.
Arguments Raise {A} e.

Definition string_eqb (a b : string) : bool := bool_decide (a = b).

Fixpoint dict_get (d : list (string * pyval)) (k : string) : option pyval :=
  match d with
  | [] => None
  | (k', v) :: d' => if string_eqb k' k then Some v else dict_get d' k
  end.

(** [d[k] = v]: an existing key keeps its place, a new key goes last. *)
Fixpoint dict_set (d : list (string * pyval)) (k : string) (v : pyval)
  : list (string * pyval) :=
  match d with
  | [] => [(k, v)]
  | (k', v') :: d' =>
      if string_eqb k' k then (k', v) :: d' else (k', v') :: dict_set d' k v
  end.

Fixpoint nodup_keys (ks : list string) : bool :=
  match ks with
  | [] => true
  | k :: ks' => negb (existsb (string_eqb k) ks') && nodup_keys ks'
  end.

Fixpoint json_ok (v : pyval) : bool :=
  match v with
  | PList l => forallb json_ok l
  | PDict d => nodup_keys (map fst d) && forallb (fun kv => json_ok (snd kv)) d
  | _ => true
  end.

(** Truthiness, as [if x:] and [x or y] test it. *)
Definition py_truthy (v : pyval) : bool :=
  match v with
  | PNone => false
  | PBool b => b
  | PInt z => negb (Z.eqb z 0)
  | PStr s => negb (string_eqb s EmptyString)
  | PList l => negb (Nat.eqb (length l) 0)
  | PDict d => negb (Nat.eqb (length d) 0)
  end.

(** [data.setdefault(key, default)], returning the dict after the call.
    Only a dict has the method. *)
Definition py_setdefault (data : pyval) (key : string) (default : pyval)
  : outcome pyval :=
  match data with
  | PDict d =>
      match dict_get d key with
      | Some _ => Ok data
      | None => Ok (PDict (d ++ [(key, default)]))
      end
  | _ => Raise AttributeError
  end.

(** [data[key]] with a string key. *)
Definition py_getitem (data : pyval) (key : string) : outcome pyval :=
  match data with
  | PDict d =>
      match dict_get d key with
      | Some v => Ok v
      | None => Raise KeyError
      end
  | _ => Raise TypeError
  end.

(** [data[key] = v] with a string key, returning the container after the
    assignment. *)
Definition py_setitem (data : pyval) (key : string) (v : pyval)
  : outcome pyval :=
  match data with
  | PDict d => Ok (PDict (dict_set d key v))
  | _ => Raise TypeError
  end.

(** [data.get(key, default)]. *)
Definition py_get (data : pyval) (key : string) (default : pyval)
  : outcome pyval :=
  match data with
  | PDict d =>
      match dict_get d key with
      | Some v => Ok v
      | None => Ok default
      end
  | _ => Raise AttributeError
  end.

(** The attribute lookup [x.append]: lists alone have it. *)
Definition py_append_attr (x : pyval) : outcome (list pyval) :=
  match x with
  | PList l => Ok l
  | _ => Raise AttributeError
  end.

(** [l[-n:]] on a list: the last [n] elements, all of them when the list is
    shorter. *)
Definition last_n {A : Type} (n : nat) (l : list A) : list A :=
  drop (length l - n) l.

Definition string_last_n (n : nat) (s : string) : string :=
  substring (String.length s - n) n s.

(** [x[-n:]]. *)
Definition py_slice_last (n : nat) (x : pyval) : outcome pyval :=
  match x with
  | PList l => Ok (PList (last_n n l))
  | PStr s => Ok (PStr (string_last_n n s))
  | _ => Raise TypeError
  end.

Definition py_opt_str (o : option string) : pyval :=
  match o with
  | Some s => PStr s
  | None => PNone
  end.

(** ** The JSON library *)

(** [json.dump(data, f, ensure_ascii=False, indent=2)] and [json.load(f)] are
    library code.  The store needs two facts about them: a dumped value loads
    back as itself, and what loads is a well-formed value.  [json_load] is
    [None] where [json.load] raises. *)
Class JsonCodec : Type := {
  json_dump : pyval -> string;
  json_load : string -> option pyval;
  json_load_dump : forall v, json_ok v = true -> json_load (json_dump v) = Some v;
  json_load_ok : forall s v, json_load s = Some v -> json_ok v = true
}.

(** ** Python's text functions *)

(** [str(x)] as an f-string inserts a value, the methods [upper], [strip]
    and [lower] of a string, and [int(s)] are library code as well; the menu
    of the command-line client uses them.  [py_int] is [None] where [int]
    raises [ValueError]. *)
Class PyText : Type := {
  py_str : pyval -> string;
  str_upper : string -> string;
  str_strip : string -> string;
  str_lower : string -> string;
  py_int : string -> option Z
}.

(** ** The world the scripts run in *)

(** The [memory] directory: whether it exists, the regular files in it keyed
    by path, the largest size the system lets a file grow to ([None]: no
    limit), past which a write fails after the bytes that fit, and the paths
    whose removal the system refuses (a file that another process holds open,
    or one that belongs to another user in a directory with the sticky bit):
    such a file can be read and rewritten, and [unlink] raises on it. *)
Record fsys : Type := {
  dir_exists : bool;
  files : gmap string string;
  fsize_limit : option nat;
  undeletable : gset string
}.

(** The remote agent service, as far as the clients observe it. *)
Record rmsg : Type := {
  m_id : string;
  m_role : string;
  m_text_messages : list string
}.

Record tool_call : Type := {
  tc_id : option string;
  tc_type : option string;
  tc_name : option string
}.

Record run_step : Type := {
  step_id : string;
  step_status : string;
  step_tool_calls : list tool_call
}.

(** What one run does: the record [create_and_process] returns, the messages
    it adds to the thread, and its steps. *)
Record run_result : Type := {
  run_id : string;
  run_status : string;
  run_last_error : string;
  run_replies : list rmsg;
  run_steps : list run_step
}.

(** Threads hold their messages oldest first.  The identifiers the service
    hands out and the course of each run are its own business: [r_ids] and
    [r_runs] give the n-th of each. *)
Record remote : Type := {
  r_threads : gmap string (list rmsg);
  r_steps : gmap string (list run_step);
  r_ids : nat -> string;
  r_issued : nat;
  r_runs : nat -> run_result;
  r_started : nat;
  r_delete_agent_ok : bool
}.

Inductive log_payload : Type :=
  | LogText (s : string)
  | LogSteps (steps : list (string * list (string * string * string))).

(** [st.session_state] of the Streamlit app. *)
Record session : Type := {
  ss_messages : list (string * string);
  ss_selected_chat : string;
  ss_log_messages : list (string * log_payload);
  ss_thread_id : option string
}.

(** What reaches the user: [print], [st.error], [st.warning], [st.toast],
    [st.rerun]. *)
Inductive ui_event : Type :=
  | UiPrint (s : string)
  | UiError (s : string)
  | UiWarning (s : string)
  | UiToast (s : string)
  | UiRerun.

(** [w_clock n] is the ISO-8601 text of the n-th reading of the UTC clock. *)
Record world : Type := {
  w_fs : fsys;
  w_clock : nat -> string;
  w_ticks : nat;
  w_remote : remote;
  w_session : session;
  w_ui : list ui_event
}.

Definition set_files (f : gmap string string -> gmap string string) (w : world)
  : world :=
  {| w_fs := {| dir_exists := dir_exists (w_fs w);
                files := f (files (w_fs w));
                fsize_limit := fsize_limit (w_fs w);
                undeletable := undeletable (w_fs w) |};
     w_clock := w_clock w; w_ticks := w_ticks w; w_remote := w_remote w;
     w_session := w_session w; w_ui := w_ui w |}.

Definition set_dir_exists (b : bool) (w : world) : world :=
  {| w_fs := {| dir_exists := b;
                files := files (w_fs w);
                fsize_limit := fsize_limit (w_fs w);
                undeletable := undeletable (w_fs w) |};
     w_clock := w_clock w; w_ticks := w_ticks w; w_remote := w_remote w;
     w_session := w_session w; w_ui := w_ui w |}.

Definition set_ticks (n : nat) (w : world) : world :=
  {| w_fs := w_fs w; w_clock := w_clock w; w_ticks := n;
     w_remote := w_remote w; w_session := w_session w; w_ui := w_ui w |}.

Definition set_remote (r : remote) (w : world) : world :=
  {| w_fs := w_fs w; w_clock := w_clock w; w_ticks := w_ticks w;
     w_remote := r; w_session := w_session w; w_ui := w_ui w |}.

Definition set_session (s : session) (w : world) : world :=
  {| w_fs := w_fs w; w_clock := w_clock w; w_ticks := w_ticks w;
     w_remote := w_remote w; w_session := s; w_ui := w_ui w |}.

Definition add_ui (e : ui_event) (w : world) : world :=
  {| w_fs := w_fs w; w_clock := w_clock w; w_ticks := w_ticks w;
     w_remote := w_remote w; w_session := w_session w;
     w_ui := w_ui w ++ [e] |}.

(** ** The monad of the scripts: state and exceptions *)

Definition M (A : Type) : Type := world -> outcome A * world.

Definition ret {A : Type} (a : A) : M A := fun w => (Ok a, w).

Definition raise {A : Type} (e : exn) : M A := fun w => (Raise e, w).

Definition bind {A B : Type} (m : M A) (k : A -> M B) : M B :=
  fun w =>
    match m w with
    | (Ok a, w') => k a w'
    | (Raise e, w') => (Raise e, w')
    end.

(** [try: m  except Exception as e: h e]. *)
Definition try_except {A : Type} (m : M A) (h : exn -> M A) : M A :=
  fun w =>
    match m w with
    | (Ok a, w') => (Ok a, w')
    | (Raise e, w') => h e w'
    end.

Definition lift {A : Type} (o : outcome A) : M A := fun w => (o, w).

Definition modify (f : world -> world) : M unit := fun w => (Ok tt, f w).

Definition gets {A : Type} (f : world -> A) : M A := fun w => (Ok (f w), w).

Notation "x <- m ;; k" := (bind m (fun x => k))
  (at level 100, m at next level, right associativity).
Notation "m ;;; k" := (bind m (fun _ => k))
  (at level 100, right associativity).

(** [for x in xs: body x]. *)
Fixpoint for_each {A : Type} (xs : list A) (body : A -> M unit) : M unit :=
  match xs with
  | [] => ret tt
  | x :: xs' => body x ;;; for_each xs' body
  end.

(** *** Filesystem and clock primitives *)

(** [Path.exists()]. *)
Definition path_exists (p : string) : M bool :=
  gets (fun w => bool_decide (is_Some (files (w_fs w) !! p))).

(** [open(p, "r").read()]. *)
Definition read_text (p : string) : M string :=
  fun w =>
    match files (w_fs w) !! p with
    | Some s => (Ok s, w)
    | None => (Raise OSError, w)
    end.

(** [with p.open("w") as f: f.write(s)]: opening truncates the file in
    place, then the text is written into it.  Without the directory the open
    fails; past the size limit the write fails and the file keeps the bytes
    written so far.  The paths of this development are the journals' own,
    files of the [memory] directory itself: a path that leads below it, as
    the one of a thread id with a slash would, has no directory of its own
    here. *)
Definition write_text (p : string) (s : string) : M unit :=
  fun w =>
    if dir_exists (w_fs w) then
      match fsize_limit (w_fs w) with
      | Some lim =>
          if Nat.ltb lim (String.length s)
          then (Raise OSError, set_files (insert p (substring 0 lim s)) w)
          else (Ok tt, set_files (insert p s) w)
      | None => (Ok tt, set_files (insert p s) w)
      end
    else (Raise OSError, w).

(** [Path.unlink()]: [FileNotFoundError] where there is no file, and
    [PermissionError] where the system refuses the removal, both of them
    [OSError]; the file is then left as it was. *)
Definition unlink (p : string) : M unit :=
  fun w =>
    match files (w_fs w) !! p with
    | Some _ =>
        if bool_decide (p ∈ undeletable (w_fs w))
        then (Raise OSError, w)
        else (Ok tt, set_files (delete p) w)
    | None => (Raise OSError, w)
    end.

(** [Path("memory").mkdir(parents=True, exist_ok=True)]. *)
Definition mkdir_memory : M unit := modify (set_dir_exists true).

(** [datetime.utcnow().isoformat()]. *)
Definition utcnow_isoformat : M string :=
  fun w => (Ok (w_clock w (w_ticks w)), set_ticks (S (w_ticks w)) w).

Definition string_ends_with (suffix s : string) : bool :=
  let n := String.length suffix in
  string_eqb (substring (String.length s - n) n s) suffix.

Definition no_slash (s : string) : bool :=
  forallb (fun c => negb (Ascii.eqb c "/"%char)) (list_ascii_of_string s).

(** A path that [Path("memory").glob("conversation_*.json")] yields. *)
Definition glob_match (p : string) : bool :=
  String.prefix "memory/conversation_" p
  && string_ends_with ".json" p
  && Nat.leb 25 (String.length p)
  && no_slash (substring 7 (String.length p - 7) p).

(** The directory is scanned in no particular order. *)
Definition glob_conversations : M (list string) :=
  gets (fun w => filter (fun p => glob_match p = true)
                        (map fst (map_to_list (files (w_fs w))))).

(** [sorted(paths, reverse=True)]. *)
Fixpoint insert_desc (p : string) (l : list string) : list string :=
  match l with
  | [] => [p]
  | q :: l' => if String.ltb p q then q :: insert_desc p l' else p :: l
  end.

Definition sorted_reverse (l : list string) : list string :=
  foldr insert_desc [] l.

(** ** More of Python: hashing, iteration, indexing, ordering *)

(** Dictionary keys as [hash] and [==] identify them: [True] and [1] are the
    same key; lists and dicts cannot be keys. *)
Inductive pykey : Type :=
  | KNone
  | KNum (z : Z)
  | KStr (s : string).

#[global] Instance pykey_eq_dec : EqDecision pykey.
Proof. solve_decision. Defined.

Definition py_hash_key (v : pyval) : outcome pykey :=
  match v with
  | PNone => Ok KNone
  | PBool b => Ok (KNum (if b then 1 else 0))
  | PInt z => Ok (KNum z)
  | PStr s => Ok (KStr s)
  | PList _ | PDict _ => Raise TypeError
  end.

Definition same_key (v : pyval) (hk : pykey) : bool :=
  match py_hash_key v with
  | Ok hk' => bool_decide (hk' = hk)
  | Raise _ => false
  end.

Fixpoint tdict_set_key (d : list (pyval * pyval)) (hk : pykey) (k v : pyval)
  : list (pyval * pyval) :=
  match d with
  | [] => [(k, v)]
  | (k', v') :: d' =>
      if same_key k' hk then (k', v) :: d'
      else (k', v') :: tdict_set_key d' hk k v
  end.

(** [d[k] = v] on a dict whose keys are arbitrary values. *)
Definition tdict_set (d : list (pyval * pyval)) (k v : pyval)
  : outcome (list (pyval * pyval)) :=
  match py_hash_key k with
  | Ok hk => Ok (tdict_set_key d hk k v)
  | Raise e => Raise e
  end.

Fixpoint tdict_get_key (d : list (pyval * pyval)) (hk : pykey) : option pyval :=
  match d with
  | [] => None
  | (k', v') :: d' => if same_key k' hk then Some v' else tdict_get_key d' hk
  end.

(** [x == s] for a string [s]. *)
Definition py_eq_str (x : pyval) (s : string) : bool :=
  match x with
  | PStr s' => string_eqb s' s
  | _ => false
  end.

Definition chars_of (s : string) : list pyval :=
  map (fun c => PStr (String c EmptyString)) (list_ascii_of_string s).

(** The items [for x in v] runs over. *)
Definition py_iter (v : pyval) : outcome (list pyval) :=
  match v with
  | PList l => Ok l
  | PStr s => Ok (chars_of s)
  | PDict d => Ok (map (fun kv => PStr (fst kv)) d)
  | _ => Raise TypeError
  end.

(** [v[0]] and [v[-1]] of a truthy value. *)
Definition py_first (v : pyval) : outcome pyval :=
  match v with
  | PList (x :: _) => Ok x
  | PStr (String c _) => Ok (PStr (String c EmptyString))
  | PDict _ => Raise KeyError
  | _ => Raise TypeError
  end.

Definition py_last (v : pyval) : outcome pyval :=
  match v with
  | PList l =>
      match last l with
      | Some x => Ok x
      | None => Raise TypeError
      end
  | PStr s =>
      match last (list_ascii_of_string s) with
      | Some c => Ok (PStr (String c EmptyString))
      | None => Raise TypeError
      end
  | PDict _ => Raise KeyError
  | _ => Raise TypeError
  end.

(** [len(v)]. *)
Definition py_len (v : pyval) : outcome nat :=
  match v with
  | PStr s => Ok (String.length s)
  | PList l => Ok (length l)
  | PDict d => Ok (length d)
  | _ => Raise TypeError
  end.

(** [v[:n] + s] for a string [s]: only a string can be cut and extended so. *)
Definition py_prefix_plus (n : nat) (v : pyval) (s : string) : outcome pyval :=
  match v with
  | PStr t => Ok (PStr (substring 0 n t +:+ s))
  | _ => Raise TypeError
  end.

(** [a < b] between sort keys.  Strings compare with strings and numbers
    with numbers; the other pairings raise (lists, which Python compares
    element by element, are not ordered here). *)
Definition py_lt (a b : pyval) : outcome bool :=
  match py_hash_key a, py_hash_key b with
  | Ok (KStr s), Ok (KStr t) => Ok (String.ltb s t)
  | Ok (KNum x), Ok (KNum y) => Ok (Z.ltb x y)
  | _, _ => Raise TypeError
  end.

(** ** The remote agent service *)

Record agent : Type := {
  agent_id : string;
  agent_name : string
}.

Definition remote_issue (r : remote) : remote :=
  {| r_threads := r_threads r; r_steps := r_steps r; r_ids := r_ids r;
     r_issued := S (r_issued r); r_runs := r_runs r; r_started := r_started r;
     r_delete_agent_ok := r_delete_agent_ok r |}.

Definition remote_set_thread (tid : string) (ms : list rmsg) (r : remote)
  : remote :=
  {| r_threads := <[tid := ms]> (r_threads r); r_steps := r_steps r;
     r_ids := r_ids r; r_issued := r_issued r; r_runs := r_runs r;
     r_started := r_started r; r_delete_agent_ok := r_delete_agent_ok r |}.

Definition remote_ran (res : run_result) (r : remote) : remote :=
  {| r_threads := r_threads r;
     r_steps := <[run_id res := run_steps res]> (r_steps r);
     r_ids := r_ids r; r_issued := r_issued r; r_runs := r_runs r;
     r_started := S (r_started r);
     r_delete_agent_ok := r_delete_agent_ok r |}.

Definition service_fresh_id : M string :=
  fun w =>
    (Ok (r_ids (w_remote w) (r_issued (w_remote w))),
     set_remote (remote_issue (w_remote w)) w).

(** [agents_client.threads.create()], giving the new thread's id. *)
Definition threads_create : M string :=
  tid <- service_fresh_id ;;
  modify (fun w => set_remote (remote_set_thread tid [] (w_remote w)) w) ;;;
  ret tid.

(** [agents_client.create_agent(model=..., name=..., instructions=...)]. *)
Definition create_agent (model name instructions : string) : M agent :=
  aid <- service_fresh_id ;;
  ret {| agent_id := aid; agent_name := name |}.

(** [agents_client.messages.create(thread_id=..., role=..., content=...)]. *)
Definition messages_create (thread_id role content : string) : M rmsg :=
  ms <- (fun w => match r_threads (w_remote w) !! thread_id with
                  | Some ms => (Ok ms, w)
                  | None => (Raise ServiceError, w)
                  end) ;;
  mid <- service_fresh_id ;;
  let m := {| m_id := mid; m_role := role; m_text_messages := [content] |} in
  modify (fun w => set_remote (remote_set_thread thread_id (ms ++ [m]) (w_remote w)) w) ;;;
  ret m.

(** [agents_client.runs.create_and_process(thread_id=..., agent_id=...,
    toolset=...)]: the run goes its course, leaving its replies in the
    thread, and its record comes back. *)
Definition runs_create_and_process (thread_id aid : string) : M run_result :=
  fun w =>
    match r_threads (w_remote w) !! thread_id with
    | Some ms =>
        let res := r_runs (w_remote w) (r_started (w_remote w)) in
        (Ok res,
         set_remote (remote_ran res
                       (remote_set_thread thread_id (ms ++ run_replies res)
                          (w_remote w))) w)
    | None => (Raise ServiceError, w)
    end.

(** [agents_client.messages.list(thread_id=...,
    order=ListSortOrder.DESCENDING)]: newest first. *)
Definition messages_list_descending (thread_id : string) : M (list rmsg) :=
  fun w =>
    match r_threads (w_remote w) !! thread_id with
    | Some ms => (Ok (rev ms), w)
    | None => (Raise ServiceError, w)
    end.

(** [agents_client.run_steps.list(thread_id=..., run_id=...)]. *)
Definition run_steps_list (thread_id rid : string) : M (list run_step) :=
  gets (fun w => default [] (r_steps (w_remote w) !! rid)).

(** [agents_client.delete_agent(agent.id)]. *)
Definition delete_agent (aid : string) : M unit :=
  ok <- gets (fun w => r_delete_agent_ok (w_remote w)) ;;
  if ok : bool then ret tt else raise ServiceError.

(** The first message of a listing with role [assistant] and some text, and
    the last of its text segments. *)
Fixpoint latest_assistant_text (msgs : list rmsg) : option string :=
  match msgs with
  | [] => None
  | m :: msgs' =>
      if string_eqb (m_role m) "assistant"
      then match last (m_text_messages m) with
           | Some t => Some t
           | None => latest_assistant_text msgs'
           end
      else latest_assistant_text msgs'
  end.

(** The id of the first message of a listing with role [assistant]. *)
Fixpoint first_assistant_id (msgs : list rmsg) : option string :=
  match msgs with
  | [] => None
  | m :: msgs' =>
      if string_eqb (m_role m) "assistant" then Some (m_id m)
      else first_assistant_id msgs'
  end.

Definition print (s : string) : M unit := modify (add_ui (UiPrint s)).

(** [str(e)] where a script puts an exception into a message.  The text
    of an exception is the library's or the system's own; the name of its
    class stands for it here. *)
Definition exn_text (e : exn) : string :=
  match e with
  | AttributeError => "AttributeError"
  | TypeError => "TypeError"
  | KeyError => "KeyError"
  | ValueError => "ValueError"
  | OSError => "OSError"
  | ServiceError => "ServiceError"
  end.

(** ** The memory helpers *)

Section Store.
Context `{JsonCodec}.

Definition fresh_journal : pyval :=
  PDict [("thread_id", PNone); ("messages", PList [])].

Definition _memory_dir : M string :=
  mkdir_memory ;;; ret "memory".

Definition _memory_path_for_thread (thread_id : string) : M string :=
  d <- _memory_dir ;;
  ret (d +:+ "/conversation_" +:+ thread_id +:+ ".json").

(** [with p.open("r", encoding="utf-8") as f: json.load(f)]. *)
Definition json_load_file (p : string) : M pyval :=
  s <- read_text p ;;
  match json_load s with
  | Some v => ret v
  | None => raise ValueError
  end.

(** [with p.open("w", encoding="utf-8") as f:
       json.dump(data, f, ensure_ascii=False, indent=2)]. *)
Definition json_dump_file (p : string) (data : pyval) : M unit :=
  write_text p (json_dump data).

(** The same text in all three scripts. *)
Definition _load_memory (mem_path : string) : M pyval :=
  e <- path_exists mem_path ;;
  r <- (if e : bool
        then try_except (v <- json_load_file mem_path ;; ret (Some v))
                        (fun _ => ret None)
        else ret None) ;;
  match r with
  | Some v => ret v
  | None => ret fresh_journal
  end.

Definition journal_entry (ts role text : string) (message_id : option string)
  : pyval :=
  PDict [("ts", PStr ts); ("role", PStr role); ("text", PStr text);
         ("message_id", py_opt_str message_id)].

End Store.

(** *** client_v2.py *)

Module ClientV2.
Section ClientV2.
Context `{JsonCodec}.

Definition _append_memory (mem_path role text : string)
    (message_id : option string) : M unit :=
  data <- _load_memory mem_path ;;
  data <- lift (py_setdefault data "messages" (PList [])) ;;
  msgs <- lift (py_getitem data "messages") ;;
  l <- lift (py_append_attr msgs) ;;
  now <- utcnow_isoformat ;;
  data <- lift (py_setitem data "messages"
                  (PList (l ++ [journal_entry (now +:+ "Z") role text message_id]))) ;;
  json_dump_file mem_path data.

(** [main], "Prepare file-backed memory for this thread". *)
Definition main_prepare_memory (thread_id : string) : M string :=
  mem_path <- _memory_path_for_thread thread_id ;;
  mem_data <- _load_memory mem_path ;;
  mem_data <- lift (py_setitem mem_data "thread_id" (PStr thread_id)) ;;
  json_dump_file mem_path mem_data ;;;
  ret mem_path.

(** The line of fifty dashes that closes a reply on the terminal, and the
    line break inside a printed text. *)
Definition rule : string := "--------------------------------------------------".

Definition nl : string := String "010"%char EmptyString.

Definition _print_latest_assistant (thread_id : string) : M string :=
  msgs <- messages_list_descending thread_id ;;
  match latest_assistant_text msgs with
  | Some last_text =>
      print (nl +:+ "ASSISTANT:" +:+ nl +:+ last_text +:+ nl +:+ rule) ;;;
      ret last_text
  | None =>
      print (nl +:+ "ASSISTANT: <no text found>" +:+ nl +:+ rule) ;;;
      ret EmptyString
  end.

(** [{call.get('id')}] inside an f-string: the text, or [None]. *)
Definition opt_text (o : option string) : string :=
  match o with
  | Some s => s
  | None => "None"
  end.

Definition _log_run_steps (thread_id rid : string) : M unit :=
  steps <- run_steps_list thread_id rid ;;
  for_each steps (fun step =>
    print ("Step " +:+ step_id step +:+ " status: " +:+ step_status step) ;;;
    (if Nat.eqb (length (step_tool_calls step)) 0
     then ret tt
     else print "  MCP Tool calls:" ;;;
          for_each (step_tool_calls step) (fun call =>
            print ("    Tool Call ID: " +:+ opt_text (tc_id call)) ;;;
            print ("    Type: " +:+ opt_text (tc_type call)) ;;;
            print ("    Name: " +:+ opt_text (tc_name call)))) ;;;
    print EmptyString).

(** The body of the chat loop of [main] for one accepted line of input, on
    the thread [main] created. *)
Definition main_turn (thread_id aid mem_path user_input : string) : M unit :=
  user_msg <- messages_create thread_id "user" user_input ;;
  _append_memory mem_path "user" user_input (Some (m_id user_msg)) ;;;
  run <- runs_create_and_process thread_id aid ;;
  print (nl +:+ "Run ID: " +:+ run_id run) ;;;
  print ("Run completed with status: " +:+ run_status run) ;;;
  (if string_eqb (run_status run) "failed"
   then print ("Run failed: " +:+ run_last_error run)
   else ret tt) ;;;
  _log_run_steps thread_id (run_id run) ;;;
  assistant_text <- _print_latest_assistant thread_id ;;
  if negb (string_eqb assistant_text EmptyString)
  then msgs <- messages_list_descending thread_id ;;
       _append_memory mem_path "assistant" assistant_text (first_assistant_id msgs)
  else ret tt.

End ClientV2.
End ClientV2.

(** *** client_python.py *)

Module ClientPython.
Section ClientPython.
Context `{JsonCodec}.

Definition _append_memory (mem_path role text : string)
    (message_id : option string) : M unit :=
  data <- _load_memory mem_path ;;
  data <- lift (py_setdefault data "messages" (PList [])) ;;
  msgs <- lift (py_getitem data "messages") ;;
  l <- lift (py_append_attr msgs) ;;
  now <- utcnow_isoformat ;;
  data <- lift (py_setitem data "messages"
                  (PList (l ++ [journal_entry (now +:+ "Z") role text message_id]))) ;;
  json_dump_file mem_path data.

(** [main], "Prepare / update local memory file for this thread". *)
Definition main_prepare_memory (thread_id : string) : M string :=
  mem_path <- _memory_path_for_thread thread_id ;;
  mem_data <- _load_memory mem_path ;;
  mem_data <- lift (py_setitem mem_data "thread_id" (PStr thread_id)) ;;
  json_dump_file mem_path mem_data ;;;
  ret mem_path.

(** One row of the resume menu:
    [(thread_id, path, created_ts, last_role, last_text_snippet)]. *)
Record saved_thread : Type := {
  st_tid : pyval;
  st_path : string;
  st_created_ts : pyval;
  st_last_role : pyval;
  st_last_text_snippet : pyval
}.

Definition sort_key (x : saved_thread) : pyval :=
  if py_truthy (st_created_ts x) then st_created_ts x else PStr EmptyString.

(** [items.sort(key=lambda x: x[2] or EmptyString, reverse=True)]: newest
    first, rows with equal keys in their former order. *)
Fixpoint insert_newest_first (x : saved_thread) (l : list saved_thread)
  : outcome (list saved_thread) :=
  match l with
  | [] => Ok [x]
  | y :: l' =>
      match py_lt (sort_key x) (sort_key y) with
      | Raise e => Raise e
      | Ok true =>
          match insert_newest_first x l' with
          | Ok r => Ok (y :: r)
          | Raise e => Raise e
          end
      | Ok false => Ok (x :: l)
      end
  end.

Fixpoint sort_newest_first (l : list saved_thread) : outcome (list saved_thread) :=
  match l with
  | [] => Ok []
  | x :: l' =>
      match sort_newest_first l' with
      | Ok r => insert_newest_first x r
      | Raise e => Raise e
      end
  end.

Definition saved_thread_of (p : string) (data : pyval) : M (option saved_thread) :=
  tid <- lift (py_get data "thread_id" PNone) ;;
  msgs <- lift (py_get data "messages" (PList [])) ;;
  created_ts <- (if py_truthy msgs
                 then m0 <- lift (py_first msgs) ;; lift (py_getitem m0 "ts")
                 else ret PNone) ;;
  last <- (if py_truthy msgs
           then m1 <- lift (py_last msgs) ;;
                r <- lift (py_getitem m1 "role") ;;
                m2 <- lift (py_last msgs) ;;
                t <- lift (py_getitem m2 "text") ;;
                ret (r, t)
           else ret (PNone, PNone)) ;;
  long <- (if py_truthy (snd last)
           then n <- lift (py_len (snd last)) ;; ret (Nat.ltb 60 n)
           else ret false) ;;
  snippet <- (if long : bool
              then lift (py_prefix_plus 57 (snd last) "...")
              else ret (snd last)) ;;
  if py_truthy tid
  then ret (Some {| st_tid := tid; st_path := p; st_created_ts := created_ts;
                    st_last_role := fst last; st_last_text_snippet := snippet |})
  else ret None.

Fixpoint _list_saved_threads_loop (paths : list string) (items : list saved_thread)
  : M (list saved_thread) :=
  match paths with
  | [] => ret items
  | p :: paths' =>
      data <- _load_memory p ;;
      row <- saved_thread_of p data ;;
      _list_saved_threads_loop paths'
        (match row with Some x => items ++ [x] | None => items end)
  end.

Definition _list_saved_threads : M (list saved_thread) :=
  _memory_dir ;;;
  paths <- glob_conversations ;;
  items <- _list_saved_threads_loop paths [] ;;
  lift (sort_newest_first items).

(** The same text as in [client_v2.py]. *)
Definition _print_latest_assistant (thread_id : string) : M string :=
  msgs <- messages_list_descending thread_id ;;
  match latest_assistant_text msgs with
  | Some last_text =>
      print (ClientV2.nl +:+ "ASSISTANT:" +:+ ClientV2.nl +:+ last_text
             +:+ ClientV2.nl +:+ ClientV2.rule) ;;;
      ret last_text
  | None =>
      print (ClientV2.nl +:+ "ASSISTANT: <no text found>" +:+ ClientV2.nl
             +:+ ClientV2.rule) ;;;
      ret EmptyString
  end.

Definition opt_text (o : option string) : string :=
  match o with
  | Some s => s
  | None => "None"
  end.

Definition _log_run_steps (thread_id rid : string) : M unit :=
  steps <- run_steps_list thread_id rid ;;
  for_each steps (fun step =>
    print ("Step " +:+ step_id step +:+ " status: " +:+ step_status step) ;;;
    (if Nat.eqb (length (step_tool_calls step)) 0
     then ret tt
     else print "  MCP Tool calls:" ;;;
          for_each (step_tool_calls step) (fun call =>
            print ("    Tool Call ID: " +:+ opt_text (tc_id call)) ;;;
            print ("    Type: " +:+ opt_text (tc_type call)) ;;;
            print ("    Name: " +:+ opt_text (tc_name call)))) ;;;
    print EmptyString).

(** The body of the chat loop of [main] for one accepted line of input. *)
Definition main_turn (thread_id aid mem_path user_input : string) : M unit :=
  user_msg <- messages_create thread_id "user" user_input ;;
  _append_memory mem_path "user" user_input (Some (m_id user_msg)) ;;;
  run <- runs_create_and_process thread_id aid ;;
  print (ClientV2.nl +:+ "Run ID: " +:+ run_id run) ;;;
  print ("Run completed with status: " +:+ run_status run) ;;;
  (if string_eqb (run_status run) "failed"
   then print ("Run failed: " +:+ run_last_error run)
   else ret tt) ;;;
  _log_run_steps thread_id (run_id run) ;;;
  assistant_text <- _print_latest_assistant thread_id ;;
  if negb (string_eqb assistant_text EmptyString)
  then msgs <- messages_list_descending thread_id ;;
       _append_memory mem_path "assistant" assistant_text (first_assistant_id msgs)
  else ret tt.

Context `{PyText}.

(** [x or t] for a text [t]. *)
Definition py_or (x : pyval) (t : string) : pyval :=
  if py_truthy x then x else PStr t.

(** The line of the menu for the [i]-th saved conversation.  [upper] is a
    method of strings: a role that is truthy and no string has none. *)
Definition menu_line (i : nat) (x : saved_thread) : outcome string :=
  let when := py_or (st_created_ts x) "unknown time" in
  match py_or (st_last_role x) "?" with
  | PStr role =>
      let who := str_upper role in
      let preview := py_or (st_last_text_snippet x) "<empty>" in
      Ok ("[" +:+ py_str (PInt (Z.of_nat i)) +:+ "] thread=" +:+ py_str (st_tid x)
          +:+ "  started=" +:+ py_str when +:+ "  last=" +:+ who +:+ ": "
          +:+ py_str preview)
  | _ => Raise AttributeError
  end.

(** [for i, (...) in enumerate(saved, start=i): ... print(...)]. *)
Fixpoint print_menu (i : nat) (saved : list saved_thread) : M unit :=
  match saved with
  | [] => ret tt
  | x :: saved' =>
      line <- lift (menu_line i x) ;;
      print line ;;;
      print_menu (S i) saved'
  end.

(** [_choose_thread_interactive], for the line [answer] that the user types
    at the prompt.  The last case of the lookup does not arise: the index
    has been checked against the length. *)
Definition _choose_thread_interactive (answer : string) : M (option pyval) :=
  saved <- _list_saved_threads ;;
  if Nat.eqb (length saved) 0 then ret None
  else
    print (String "010"%char "Saved conversations:") ;;;
    print_menu 1 saved ;;;
    print "[N] New conversation" ;;;
    let choice := str_lower (str_strip answer) in
    if string_eqb choice "n" || string_eqb choice EmptyString then ret None
    else
      match py_int choice with
      | Some n =>
          let idx := (n - 1)%Z in
          if (0 <=? idx)%Z && (idx <? Z.of_nat (length saved))%Z
          then match saved !! Z.to_nat idx with
               | Some x => ret (Some (st_tid x))
               | None => ret None
               end
          else print "Invalid choice; starting a new conversation." ;;; ret None
      | None =>
          print "Invalid choice; starting a new conversation." ;;; ret None
      end.

End ClientPython.
End ClientPython.

(** *** streamlit_mcpclientapp.py *)

Module StreamlitApp.
Section StreamlitApp.
Context `{JsonCodec}.

Definition session_log (kind : string) (payload : log_payload) (w : world)
  : world :=
  set_session
    {| ss_messages := ss_messages (w_session w);
       ss_selected_chat := ss_selected_chat (w_session w);
       ss_log_messages := ss_log_messages (w_session w) ++ [(kind, payload)];
       ss_thread_id := ss_thread_id (w_session w) |} w.

Definition session_clear_log (w : world) : world :=
  set_session
    {| ss_messages := ss_messages (w_session w);
       ss_selected_chat := ss_selected_chat (w_session w);
       ss_log_messages := [];
       ss_thread_id := ss_thread_id (w_session w) |} w.

Definition session_say (role content : string) (w : world) : world :=
  set_session
    {| ss_messages := ss_messages (w_session w) ++ [(role, content)];
       ss_selected_chat := ss_selected_chat (w_session w);
       ss_log_messages := ss_log_messages (w_session w);
       ss_thread_id := ss_thread_id (w_session w) |} w.

Definition session_set_thread (tid : string) (w : world) : world :=
  set_session
    {| ss_messages := ss_messages (w_session w);
       ss_selected_chat := ss_selected_chat (w_session w);
       ss_log_messages := ss_log_messages (w_session w);
       ss_thread_id := Some tid |} w.

(** [st.session_state.log_messages.append((kind, text))].  The script
    begins most of its log texts with a pictograph and a blank; a pictograph
    is no character that a [string] holds, and the texts stand here without
    the two.  The marks of markdown in them are kept. *)
Definition log (kind text : string) : M unit :=
  modify (session_log kind (LogText text)).

Definition _append_memory (mem_path role text : string)
    (message_id : option string) : M unit :=
  data <- _load_memory mem_path ;;
  data <- lift (py_setdefault data "messages" (PList [])) ;;
  msgs <- lift (py_getitem data "messages") ;;
  l <- lift (py_append_attr msgs) ;;
  now <- utcnow_isoformat ;;
  data <- lift (py_setitem data "messages"
                  (PList (l ++ [journal_entry (now +:+ "+00:00") role text message_id]))) ;;
  msgs <- lift (py_getitem data "messages") ;;
  kept <- lift (py_slice_last 20 msgs) ;;
  data <- lift (py_setitem data "messages" kept) ;;
  json_dump_file mem_path data.

Definition _print_latest_assistant (thread_id : string) : M string :=
  log "info" "...Retrieving assistant's response." ;;;
  msgs <- messages_list_descending thread_id ;;
  match latest_assistant_text msgs with
  | Some last_text =>
      log "success" "Response received." ;;;
      ret last_text
  | None =>
      log "warning" "No assistant response found." ;;;
      ret EmptyString
  end.

Definition na (o : option string) : string :=
  match o with
  | Some s => s
  | None => "N/A"
  end.

Definition _log_run_steps (thread_id rid : string) : M unit :=
  log "subheader" "Run Steps & Tool Calls" ;;;
  steps <- run_steps_list thread_id rid ;;
  modify (session_log "run_steps"
            (LogSteps (map (fun step =>
                              (step_id step,
                               map (fun call => (na (tc_id call), na (tc_type call),
                                                 na (tc_name call)))
                                   (step_tool_calls step)))
                           steps))).

(** The generator [(msg["text"] for msg in msgs if msg["role"] == "user")]
    asked for its first item, ["Chat"] when it has none. *)
Fixpoint first_user_message (msgs : list pyval) : outcome pyval :=
  match msgs with
  | [] => Ok (PStr "Chat")
  | msg :: msgs' =>
      match py_getitem msg "role" with
      | Raise e => Raise e
      | Ok r =>
          if py_eq_str r "user" then py_getitem msg "text"
          else first_user_message msgs'
      end
  end.

Fixpoint get_all_threads_loop (paths : list string) (threads : list (pyval * pyval))
  : M (list (pyval * pyval)) :=
  match paths with
  | [] => ret threads
  | mem_file :: paths' =>
      mem_data <- _load_memory mem_file ;;
      thread_id <- lift (py_get mem_data "thread_id" PNone) ;;
      listed <- (if py_truthy thread_id
                 then msgs <- lift (py_get mem_data "messages" PNone) ;;
                      ret (py_truthy msgs)
                 else ret false) ;;
      if listed : bool
      then msgs <- lift (py_getitem mem_data "messages") ;;
           items <- lift (py_iter msgs) ;;
           label <- lift (first_user_message items) ;;
           threads' <- lift (tdict_set threads thread_id label) ;;
           get_all_threads_loop paths' threads'
      else get_all_threads_loop paths' threads
  end.

Definition get_all_threads : M (list (pyval * pyval)) :=
  _memory_dir ;;;
  paths <- glob_conversations ;;
  get_all_threads_loop (sorted_reverse paths) [].

Definition start_new_chat : M unit :=
  modify (set_session
            {| ss_messages := [];
               ss_selected_chat := "--- Start a new chat ---";
               ss_log_messages := [];
               ss_thread_id := None |}).

Definition delete_thread (thread_id : string) : M unit :=
  mem_path <- _memory_path_for_thread thread_id ;;
  try_except
    (e <- path_exists mem_path ;;
     (if e : bool then unlink mem_path else ret tt) ;;;
     cur <- gets (fun w => ss_thread_id (w_session w)) ;;
     if bool_decide (cur = Some thread_id) then start_new_chat else ret tt)
    (fun e => modify (add_ui (UiError ("Error deleting thread: " +:+ exn_text e)))).

(** [str(k)] of a dictionary key, as an f-string inserts it.  A list or a
    dict is not hashable, so it is no key of any dictionary. *)
Definition py_str_key (k : pyval) : outcome string :=
  match k with
  | PNone => Ok "None"
  | PBool b => Ok (if b then "True" else "False")
  | PInt z => Ok (DecimalString.NilEmpty.string_of_int (Z.to_int z))
  | PStr s => Ok s
  | PList _ | PDict _ => Raise TypeError
  end.

(** [st.session_state.get("thread_id") == k]. *)
Definition session_thread_is (cur : option string) (k : pyval) : bool :=
  match cur, k with
  | Some s, PStr t => string_eqb s t
  | None, PNone => true
  | _, _ => false
  end.

(** [delete_thread] as the callbacks call it, with a key of the listing,
    which is a string for the journals the clients stamp. *)
Definition delete_thread_key (thread_id : pyval) : M unit :=
  d <- _memory_dir ;;
  name <- lift (py_str_key thread_id) ;;
  let mem_path := d +:+ "/conversation_" +:+ name +:+ ".json" in
  try_except
    (e <- path_exists mem_path ;;
     (if e : bool then unlink mem_path else ret tt) ;;;
     cur <- gets (fun w => ss_thread_id (w_session w)) ;;
     if session_thread_is cur thread_id then start_new_chat else ret tt)
    (fun e => modify (add_ui (UiError ("Error deleting thread: " +:+ exn_text e)))).

(** The one exception of the callbacks that the store never raises: [[0]]
    of an empty list.  A callback returns it in place of its result. *)
Inductive lookup_failure : Type :=
  | IndexError.

(** [[tid for tid, msg in saved_threads.items() if msg == selected]]. *)
Definition thread_ids_labelled (saved_threads : list (pyval * pyval))
    (selected : string) : list pyval :=
  map fst (List.filter (fun kv => py_eq_str (snd kv) selected) saved_threads).

Definition delete_selected_chat_callback : M (lookup_failure + unit) :=
  selected_chat_message <- gets (fun w => ss_selected_chat (w_session w)) ;;
  if string_eqb selected_chat_message "--- Start a new chat ---"
  then modify (add_ui (UiToast "No chat selected to delete.")) ;;;
       ret (inr tt)
  else saved_threads <- get_all_threads ;;
       match thread_ids_labelled saved_threads selected_chat_message with
       | [] => ret (inl IndexError)
       | thread_id_to_delete :: _ =>
           delete_thread_key thread_id_to_delete ;;;
           ret (inr tt)
       end.

(** A value as the session holds it.  The session of this development keeps
    texts: its thread id, its selected label and the roles and contents of
    its messages are strings, as they are for every journal the clients
    write.  A value that is no string has no place in it. *)
Definition as_text (v : pyval) : option string :=
  match v with
  | PStr s => Some s
  | _ => None
  end.

Fixpoint as_texts (pairs : list (pyval * pyval)) : option (list (string * string)) :=
  match pairs with
  | [] => Some []
  | (r, t) :: pairs' =>
      match as_text r, as_text t, as_texts pairs' with
      | Some r', Some t', Some l => Some ((r', t') :: l)
      | _, _, _ => None
      end
  end.

(** [[{"role": msg["role"], "content": msg["text"]} for msg in msgs]], each
    message as its pair of role and content. *)
Fixpoint role_and_content (msgs : list pyval) : outcome (list (pyval * pyval)) :=
  match msgs with
  | [] => Ok []
  | msg :: msgs' =>
      match py_getitem msg "role" with
      | Raise e => Raise e
      | Ok r =>
          match py_getitem msg "text" with
          | Raise e => Raise e
          | Ok t =>
              match role_and_content msgs' with
              | Ok l => Ok ((r, t) :: l)
              | Raise e => Raise e
              end
          end
      end
  end.

Definition session_set_messages (ms : list (string * string)) (w : world) : world :=
  set_session
    {| ss_messages := ms;
       ss_selected_chat := ss_selected_chat (w_session w);
       ss_log_messages := ss_log_messages (w_session w);
       ss_thread_id := ss_thread_id (w_session w) |} w.

Definition session_select (label : string) (w : world) : world :=
  set_session
    {| ss_messages := ss_messages (w_session w);
       ss_selected_chat := label;
       ss_log_messages := ss_log_messages (w_session w);
       ss_thread_id := ss_thread_id (w_session w) |} w.

(** [threads.get(thread_id, default)]. *)
Definition tdict_get (d : list (pyval * pyval)) (k default : pyval) : outcome pyval :=
  match py_hash_key k with
  | Ok hk => Ok (match tdict_get_key d hk with Some v => v | None => default end)
  | Raise e => Raise e
  end.

(** [set_active_thread], called with a key of the listing.  It returns
    [None], and the state is then not described, where the session would
    have to hold a value that is no string. *)
Definition set_active_thread (thread_id : pyval) : M (option unit) :=
  match as_text thread_id with
  | None => ret None
  | Some tid =>
      modify (session_set_thread tid) ;;;
      mem_path <- _memory_path_for_thread tid ;;
      mem_data <- _load_memory mem_path ;;
      msgs <- lift (py_get mem_data "messages" (PList [])) ;;
      items <- lift (py_iter msgs) ;;
      pairs <- lift (role_and_content items) ;;
      match as_texts pairs with
      | None => ret None
      | Some ms =>
          modify (session_set_messages ms) ;;;
          threads <- get_all_threads ;;
          label <- lift (tdict_get threads thread_id (PStr "--- Start a new chat ---")) ;;
          match as_text label with
          | None => ret None
          | Some s => modify (session_select s) ;;; ret (Some tt)
          end
      end
  end.

Definition handle_chat_selection : M (lookup_failure + option unit) :=
  selected_chat_message <- gets (fun w => ss_selected_chat (w_session w)) ;;
  if string_eqb selected_chat_message "--- Start a new chat ---"
  then start_new_chat ;;; ret (inr (Some tt))
  else saved_threads <- get_all_threads ;;
       match thread_ids_labelled saved_threads selected_chat_message with
       | [] => ret (inl IndexError)
       | thread_id_to_load :: _ =>
           r <- set_active_thread thread_id_to_load ;;
           ret (inr r)
       end.

Definition agent_instructions : string :=
  "You are a helpful AI Agent for Tony, specializing in Microsoft documentation."
  +:+ ClientV2.nl +:+
  "Your **primary directive** is to use the `mslearn` MCP tool to answer any questions related to Microsoft products, services, technologies, or documentation."
  +:+ ClientV2.nl +:+
  "You **must not** answer these questions from your own pre-existing knowledge. Always prioritize fetching the most current information from the MCP tool."
  +:+ ClientV2.nl +:+
  "When the MCP tool is used, your response **must** begin with 'Hello Tony, I am using the MCP to fetch this information.'".

(** The script's reaction to a line typed into [st.chat_input]. *)
Definition chat_turn (prompt model_deployment : string) : M unit :=
  modify session_clear_log ;;;
  modify (session_say "user" prompt) ;;;
  known <- gets (fun w => ss_thread_id (w_session w)) ;;
  thread_id <- (match known with
                | Some tid => ret tid
                | None =>
                    log "info" "Creating a new thread..." ;;;
                    tid <- threads_create ;;
                    modify (session_set_thread tid) ;;;
                    log "success" ("New thread: `" +:+ tid +:+ "`") ;;;
                    ret tid
                end) ;;
  mem_path <- _memory_path_for_thread thread_id ;;
  log "info" "Creating agent..." ;;;
  ag <- create_agent model_deployment "my-mcp-agent" agent_instructions ;;
  log "success" ("Agent created: `" +:+ agent_name ag +:+ "`") ;;;
  log "info" "Sending message..." ;;;
  user_msg <- messages_create thread_id "user" prompt ;;
  _append_memory mem_path "user" prompt (Some (m_id user_msg)) ;;;
  log "success" "Message sent." ;;;
  log "info" "Starting run..." ;;;
  run <- runs_create_and_process thread_id (agent_id ag) ;;
  (if string_eqb (run_status run) "failed"
   then modify (add_ui (UiError ("Run failed: " +:+ run_last_error run))) ;;;
        log "error" ("Run `" +:+ run_id run +:+ "` failed.")
   else log "success" ("Run `" +:+ run_id run +:+ "`: **" +:+ run_status run
                       +:+ "**") ;;;
        _log_run_steps thread_id (run_id run) ;;;
        assistant_text <- _print_latest_assistant thread_id ;;
        modify (session_say "assistant" assistant_text) ;;;
        msgs <- messages_list_descending thread_id ;;
        _append_memory mem_path "assistant" assistant_text (first_assistant_id msgs)) ;;;
  log "info" ("Deleting agent `" +:+ agent_id ag +:+ "`...") ;;;
  try_except
    (delete_agent (agent_id ag) ;;;
     log "success" "Agent deleted.")
    (fun e =>
       modify (add_ui (UiWarning ("Could not delete agent: " +:+ exn_text e))) ;;;
       log "warning" ("Could not delete agent: " +:+ exn_text e)) ;;;
  modify (add_ui UiRerun).

End StreamlitApp.
End StreamlitApp.

(** ** A JSON codec *)

(** The JSON text format as Python's [json] module writes it with
    [ensure_ascii=False, indent=2] and reads it back, over the values of
    [pyval]: [null], [true], [false], integers, strings, arrays, objects.
    A character is one [ascii]; a number with a fraction or an exponent,
    [NaN], [Infinity] and an escape for a character past 255 are outside
    [pyval] and do not load here, though [json.load] reads them. *)
Module PyJson.

Definition dquote : ascii := "034"%char.
Definition bslash : ascii := "092"%char.
Definition newline : ascii := "010"%char.

Definition hex_char (n : nat) : ascii :=
  nth n (list_ascii_of_string "0123456789abcdef") "0"%char.

(** [ESCAPE_DCT] of [json.encoder]. *)
Definition escape_char (c : ascii) : string :=
  if Ascii.eqb c dquote then String bslash (String dquote EmptyString)
  else if Ascii.eqb c bslash then String bslash (String bslash EmptyString)
  else if Ascii.eqb c "008"%char then String bslash "b"
  else if Ascii.eqb c "012"%char then String bslash "f"
  else if Ascii.eqb c newline then String bslash "n"
  else if Ascii.eqb c "013"%char then String bslash "r"
  else if Ascii.eqb c "009"%char then String bslash "t"
  else if Nat.ltb (nat_of_ascii c) 32
       then String bslash
              (String "u" (String "0" (String "0"
                 (String (hex_char (nat_of_ascii c / 16))
                    (String (hex_char (nat_of_ascii c mod 16)) EmptyString)))))
  else String c EmptyString.

Fixpoint escape (s : string) : string :=
  match s with
  | EmptyString => EmptyString
  | String c s' => escape_char c +:+ escape s'
  end.

(** [py_encode_basestring]. *)
Definition encode_string (s : string) : string :=
  String dquote (escape s +:+ String dquote EmptyString).

Definition encode_int (z : Z) : string :=
  DecimalString.NilEmpty.string_of_int (Z.to_int z).

Fixpoint spaces (n : nat) : string :=
  match n with
  | 0 => EmptyString
  | S n' => String " " (spaces n')
  end.

(** A line break and the indentation of nesting level [lvl]. *)
Definition newline_indent (lvl : nat) : string :=
  String newline (spaces (2 * lvl)).

(** The encoder at nesting level [lvl]: items one per line, [","] between
    them, [": "] after a key. *)
Fixpoint dumps_at (lvl : nat) (v : pyval) : string :=
  match v with
  | PNone => "null"
  | PBool true => "true"
  | PBool false => "false"
  | PInt z => encode_int z
  | PStr s => encode_string s
  | PList [] => "[]"
  | PList (x :: xs) =>
      "[" +:+ newline_indent (S lvl) +:+ dumps_at (S lvl) x
      +:+ (fix items (l : list pyval) : string :=
             match l with
             | [] => EmptyString
             | y :: l' =>
                 "," +:+ newline_indent (S lvl) +:+ dumps_at (S lvl) y +:+ items l'
             end) xs
      +:+ newline_indent lvl +:+ "]"
  | PDict [] => "{}"
  | PDict ((k, x) :: kxs) =>
      "{" +:+ newline_indent (S lvl) +:+ encode_string k +:+ ": "
      +:+ dumps_at (S lvl) x
      +:+ (fix members (l : list (string * pyval)) : string :=
             match l with
             | [] => EmptyString
             | (k', y) :: l' =>
                 "," +:+ newline_indent (S lvl) +:+ encode_string k' +:+ ": "
                 +:+ dumps_at (S lvl) y +:+ members l'
             end) kxs
      +:+ newline_indent lvl +:+ "}"
  end.

Definition dumps (v : pyval) : string := dumps_at 0 v.

(** *** Decoding *)

Definition is_ws (c : ascii) : bool :=
  Ascii.eqb c " "%char || Ascii.eqb c "009"%char
  || Ascii.eqb c newline || Ascii.eqb c "013"%char.

Fixpoint skip_ws (s : string) : string :=
  match s with
  | String c s' => if is_ws c then skip_ws s' else s
  | EmptyString => s
  end.

Definition hex_val (c : ascii) : option nat :=
  let n := nat_of_ascii c in
  if Nat.leb 48 n && Nat.leb n 57 then Some (n - 48)
  else if Nat.leb 97 n && Nat.leb n 102 then Some (n - 87)
  else if Nat.leb 65 n && Nat.leb n 70 then Some (n - 55)
  else None.

Definition hex4 (a b c d : ascii) : option ascii :=
  match hex_val a, hex_val b, hex_val c, hex_val d with
  | Some x, Some y, Some z, Some t =>
      let n := ((x * 16 + y) * 16 + z) * 16 + t in
      if Nat.ltb n 256 then Some (ascii_of_nat n) else None
  | _, _, _, _ => None
  end.

(** [BACKSLASH] of [json.decoder]. *)
Definition unescape_char (c : ascii) : option ascii :=
  if Ascii.eqb c dquote then Some dquote
  else if Ascii.eqb c bslash then Some bslash
  else if Ascii.eqb c "/"%char then Some "/"%char
  else if Ascii.eqb c "b"%char then Some "008"%char
  else if Ascii.eqb c "f"%char then Some "012"%char
  else if Ascii.eqb c "n"%char then Some newline
  else if Ascii.eqb c "r"%char then Some "013"%char
  else if Ascii.eqb c "t"%char then Some "009"%char
  else None.

Definition cons_char (c : ascii) (r : option (string * string))
  : option (string * string) :=
  match r with
  | Some (s, rest) => Some (String c s, rest)
  | None => None
  end.

(** [py_scanstring] in strict mode, from just after the opening quote: the
    string and what follows its closing quote. *)
Fixpoint scan_string (s : string) : option (string * string) :=
  match s with
  | EmptyString => None
  | String c s' =>
      if Ascii.eqb c dquote then Some (EmptyString, s')
      else if Ascii.eqb c bslash then
        match s' with
        | EmptyString => None
        | String e s'' =>
            if Ascii.eqb e "u"%char then
              match s'' with
              | String h1 (String h2 (String h3 (String h4 s3))) =>
                  match hex4 h1 h2 h3 h4 with
                  | Some ch => cons_char ch (scan_string s3)
                  | None => None
                  end
              | _ => None
              end
            else
              match unescape_char e with
              | Some ch => cons_char ch (scan_string s'')
              | None => None
              end
        end
      else if Nat.ltb (nat_of_ascii c) 32 then None
      else cons_char c (scan_string s')
  end.

Definition digit_of (c : ascii) : option (Decimal.uint -> Decimal.uint) :=
  if Ascii.eqb c "0"%char then Some Decimal.D0
  else if Ascii.eqb c "1"%char then Some Decimal.D1
  else if Ascii.eqb c "2"%char then Some Decimal.D2
  else if Ascii.eqb c "3"%char then Some Decimal.D3
  else if Ascii.eqb c "4"%char then Some Decimal.D4
  else if Ascii.eqb c "5"%char then Some Decimal.D5
  else if Ascii.eqb c "6"%char then Some Decimal.D6
  else if Ascii.eqb c "7"%char then Some Decimal.D7
  else if Ascii.eqb c "8"%char then Some Decimal.D8
  else if Ascii.eqb c "9"%char then Some Decimal.D9
  else None.

(** The longest run of digits at the head of [s], and the rest. *)
Fixpoint scan_digits (s : string) : Decimal.uint * string :=
  match s with
  | EmptyString => (Decimal.Nil, s)
  | String c s' =>
      match digit_of c with
      | Some D => (D (fst (scan_digits s')), snd (scan_digits s'))
      | None => (Decimal.Nil, s)
      end
  end.

Definition uint_eqb (a b : Decimal.uint) : bool :=
  if Decimal.uint_eq_dec a b then true else false.

(** An integer literal at the head of [s]: an optional minus sign, then
    either a lone zero or digits that start with a nonzero one. *)
Definition scan_unsigned (s : string) : option (Z * string) :=
  let d := fst (scan_digits s) in
  if uint_eqb d Decimal.Nil then None
  else if uint_eqb (Decimal.unorm d) d
       then Some (Z.of_uint d, snd (scan_digits s))
       else None.

Definition scan_int (s : string) : option (Z * string) :=
  match s with
  | EmptyString => None
  | String c s' =>
      if Ascii.eqb c "-"%char
      then match scan_unsigned s' with
           | Some (z, rest) => Some (Z.opp z, rest)
           | None => None
           end
      else scan_unsigned s
  end.

Fixpoint string_drop (n : nat) (s : string) : string :=
  match n, s with
  | S n', String _ s' => string_drop n' s'
  | _, _ => s
  end.

Definition starts_number_tail (s : string) : bool :=
  match s with
  | String c _ =>
      Ascii.eqb c "."%char || Ascii.eqb c "e"%char || Ascii.eqb c "E"%char
  | EmptyString => false
  end.

(** Whether [s] starts with the text [p]. *)
Fixpoint has_prefix (p s : string) : bool :=
  match p, s with
  | EmptyString, _ => true
  | String a p', String b s' => Ascii.eqb a b && has_prefix p' s'
  | String _ _, EmptyString => false
  end.

(** Whether [s] starts with the character [c]. *)
Definition starts_with (c : ascii) (s : string) : bool :=
  match s with
  | String c' _ => Ascii.eqb c' c
  | EmptyString => false
  end.

(** [scan_once] with its array and object readers.  Each call reads at
    least one character, so [fuel] beyond the length of the text is never
    used up. *)
Fixpoint scan_once (fuel : nat) (s : string) : option (pyval * string) :=
  match fuel with
  | 0 => None
  | S n =>
      match s with
      | EmptyString => None
      | String c s' =>
          if Ascii.eqb c dquote then
            match scan_string s' with
            | Some (str, rest) => Some (PStr str, rest)
            | None => None
            end
          else if Ascii.eqb c "["%char then
            if starts_with "]"%char (skip_ws s')
            then Some (PList [], string_drop 1 (skip_ws s'))
            else match scan_items n (skip_ws s') with
                 | Some (l, rest) => Some (PList l, rest)
                 | None => None
                 end
          else if Ascii.eqb c "{"%char then
            if starts_with "}"%char (skip_ws s')
            then Some (PDict [], string_drop 1 (skip_ws s'))
            else match scan_members n (skip_ws s') [] with
                 | Some (d, rest) => Some (PDict d, rest)
                 | None => None
                 end
          else if has_prefix "null" s then Some (PNone, string_drop 4 s)
          else if has_prefix "true" s then Some (PBool true, string_drop 4 s)
          else if has_prefix "false" s then Some (PBool false, string_drop 5 s)
          else
            match scan_int s with
            | Some (z, rest) =>
                if starts_number_tail rest then None else Some (PInt z, rest)
            | None => None
            end
      end
  end

(** The items of an array from the first character of an item. *)
with scan_items (fuel : nat) (s : string) : option (list pyval * string) :=
  match fuel with
  | 0 => None
  | S n =>
      match scan_once n s with
      | None => None
      | Some (v, rest) =>
          if starts_with "]"%char (skip_ws rest)
          then Some ([v], string_drop 1 (skip_ws rest))
          else if starts_with ","%char (skip_ws rest)
          then match scan_items n (skip_ws (string_drop 1 (skip_ws rest))) with
               | Some (l, rest') => Some (v :: l, rest')
               | None => None
               end
          else None
      end
  end

(** The members of an object from the opening quote of a key; [acc] is the
    dict built so far, where a key that comes again takes the later
    value. *)
with scan_members (fuel : nat) (s : string) (acc : list (string * pyval))
  : option (list (string * pyval) * string) :=
  match fuel with
  | 0 => None
  | S n =>
      if starts_with dquote s then
        match scan_string (string_drop 1 s) with
        | None => None
        | Some (k, rest) =>
            if starts_with ":"%char (skip_ws rest) then
              match scan_once n (skip_ws (string_drop 1 (skip_ws rest))) with
              | None => None
              | Some (v, rest') =>
                  if starts_with "}"%char (skip_ws rest')
                  then Some (dict_set acc k v, string_drop 1 (skip_ws rest'))
                  else if starts_with ","%char (skip_ws rest')
                  then scan_members n (skip_ws (string_drop 1 (skip_ws rest')))
                         (dict_set acc k v)
                  else None
              end
            else None
        end
      else None
  end.

(** [json.loads]: one value, white space around it, nothing else. *)
Definition loads (s : string) : option pyval :=
  match scan_once (S (String.length s)) (skip_ws s) with
  | Some (v, rest) =>
      match skip_ws rest with
      | EmptyString => Some v
      | _ => None
      end
  | None => None
  end.

(** The items and members after the first, as [dumps_at] writes them. *)
Fixpoint dump_items (lvl : nat) (l : list pyval) : string :=
  match l with
  | [] => EmptyString
  | y :: l' => "," +:+ newline_indent lvl +:+ dumps_at lvl y +:+ dump_items lvl l'
  end.

Fixpoint dump_members (lvl : nat) (l : list (string * pyval)) : string :=
  match l with
  | [] => EmptyString
  | (k, y) :: l' =>
      "," +:+ newline_indent lvl +:+ encode_string k +:+ ": "
      +:+ dumps_at lvl y +:+ dump_members lvl l'
  end.

End PyJson.

(** * Properties *)

Local Open Scope list_scope.

(** ** Dictionaries *)

Lemma string_eqb_true (a b : string) : string_eqb a b = true <-> a = b.
Proof. unfold string_eqb. apply bool_decide_eq_true. Qed.

Lemma string_eqb_refl (a : string) : string_eqb a a = true.
Proof. by apply string_eqb_true. Qed.

Lemma string_eqb_false (a b : string) : string_eqb a b = false <-> a <> b.
Proof. unfold string_eqb. apply bool_decide_eq_false. Qed.

Lemma dict_get_set_eq d k v : dict_get (dict_set d k v) k = Some v.
Proof.
  induction d as [|[k' v'] d IH]; simpl.
  - by rewrite string_eqb_refl.
  - destruct (string_eqb k' k) eqn:E; simpl; rewrite E; [done | exact IH].
Qed.

Lemma dict_get_set_ne d k k' v :
  k <> k' -> dict_get (dict_set d k v) k' = dict_get d k'.
Proof.
  intros Hne. induction d as [|[k0 v0] d IH]; simpl.
  - by apply string_eqb_false in Hne as ->.
  - destruct (string_eqb k0 k) eqn:E; simpl.
    + apply string_eqb_true in E as ->.
      by apply string_eqb_false in Hne as ->.
    + by rewrite IH.
Qed.

Lemma dict_set_set d k v v' : dict_set (dict_set d k v) k v' = dict_set d k v'.
Proof.
  induction d as [|[k0 v0] d IH]; simpl.
  - by rewrite string_eqb_refl.
  - destruct (string_eqb k0 k) eqn:E; simpl; rewrite E; [done | by rewrite IH].
Qed.

Lemma dict_set_new d k v : dict_get d k = None -> dict_set d k v = d ++ [(k, v)].
Proof.
  induction d as [|[k0 v0] d IH]; simpl; [done |].
  destruct (string_eqb k0 k); [done |]. intros Hn. by rewrite IH.
Qed.

Lemma dict_get_keys d k :
  existsb (string_eqb k) (map fst d) = false <-> dict_get d k = None.
Proof.
  induction d as [|[k0 v0] d IH]; simpl; [done |].
  destruct (string_eqb k k0) eqn:E.
  - apply string_eqb_true in E as ->. rewrite string_eqb_refl. simpl.
    split; discriminate.
  - assert (string_eqb k0 k = false) as ->.
    { apply string_eqb_false. apply string_eqb_false in E. congruence. }
    exact IH.
Qed.

Lemma dict_set_keys d k v :
  map fst (dict_set d k v) =
  match dict_get d k with
  | Some _ => map fst d
  | None => map fst d ++ [k]
  end.
Proof.
  induction d as [|[k0 v0] d IH]; simpl; [done |].
  destruct (string_eqb k0 k) eqn:E; simpl; [done |].
  rewrite IH. by destruct (dict_get d k).
Qed.

Lemma existsb_app_single (k k' : string) ks :
  existsb (string_eqb k) (ks ++ [k']) = existsb (string_eqb k) ks || string_eqb k k'.
Proof. rewrite existsb_app. simpl. by rewrite orb_false_r. Qed.

Lemma nodup_keys_snoc ks k :
  nodup_keys ks = true -> existsb (string_eqb k) ks = false ->
  nodup_keys (ks ++ [k]) = true.
Proof.
  induction ks as [|k0 ks IH]; simpl; [done |].
  intros [Hk0 Hks]%andb_true_iff Hk.
  apply orb_false_iff in Hk as [Hkk0 Hk].
  rewrite existsb_app_single, IH by done.
  apply negb_true_iff in Hk0. rewrite Hk0. simpl.
  assert (string_eqb k0 k = false) as ->; [|done].
  apply string_eqb_false. apply string_eqb_false in Hkk0. congruence.
Qed.

Lemma nodup_keys_dict_set d k v :
  nodup_keys (map fst d) = true -> nodup_keys (map fst (dict_set d k v)) = true.
Proof.
  intros Hd. rewrite dict_set_keys.
  destruct (dict_get d k) eqn:E; [done |].
  apply nodup_keys_snoc; [done |]. by apply dict_get_keys.
Qed.

Lemma forallb_dict_set (P : pyval -> bool) d k v :
  forallb (fun kv => P (snd kv)) d = true -> P v = true ->
  forallb (fun kv => P (snd kv)) (dict_set d k v) = true.
Proof.
  intros Hd Hv. induction d as [|[k0 v0] d IH]; simpl in *.
  - by rewrite Hv.
  - apply andb_true_iff in Hd as [H0 Hd].
    destruct (string_eqb k0 k); simpl.
    + by rewrite Hv, Hd.
    + by rewrite H0, IH.
Qed.

Lemma json_ok_dict_set d k v :
  json_ok (PDict d) = true -> json_ok v = true ->
  json_ok (PDict (dict_set d k v)) = true.
Proof.
  simpl. intros [Hk Hd]%andb_true_iff Hv.
  rewrite nodup_keys_dict_set by done. simpl.
  by apply (forallb_dict_set json_ok).
Qed.

Lemma json_ok_dict_get d k v :
  json_ok (PDict d) = true -> dict_get d k = Some v -> json_ok v = true.
Proof.
  simpl. intros [_ Hd]%andb_true_iff.
  induction d as [|[k0 v0] d IH]; simpl in *; [done |].
  apply andb_true_iff in Hd as [H0 Hd].
  destruct (string_eqb k0 k); [congruence | by apply IH].
Qed.

Lemma json_ok_snoc l e :
  json_ok (PList l) = true -> json_ok e = true -> json_ok (PList (l ++ [e])) = true.
Proof. simpl. intros Hl He. rewrite forallb_app, Hl. simpl. by rewrite He. Qed.

Lemma forallb_drop {A} (P : A -> bool) n l :
  forallb P l = true -> forallb P (drop n l) = true.
Proof.
  revert n. induction l as [|x l IH]; intros [|n]; simpl; try done.
  intros [_ Hl]%andb_true_iff. by apply IH.
Qed.

Lemma json_ok_last_n n l :
  json_ok (PList l) = true -> json_ok (PList (last_n n l)) = true.
Proof. simpl. apply forallb_drop. Qed.

Lemma json_ok_journal_entry ts role text mid :
  json_ok (journal_entry ts role text mid) = true.
Proof. by destruct mid. Qed.

(** ** Keeping the last entries *)

Lemma last_n_length {A} n (l : list A) : length (last_n n l) = Nat.min (length l) n.
Proof. unfold last_n. rewrite length_drop. lia. Qed.

Lemma last_n_all {A} n (l : list A) : length l <= n -> last_n n l = l.
Proof. intros Hl. unfold last_n. by replace (length l - n) with 0 by lia. Qed.

Lemma last_n_app_r {A} n (l l' : list A) :
  n <= length l' -> last_n n (l ++ l') = last_n n l'.
Proof.
  intros Hn. unfold last_n. rewrite length_app.
  rewrite drop_app_ge by lia. f_equal. lia.
Qed.

Lemma last_n_app {A} n (l l' : list A) : last_n n (last_n n l ++ l') = last_n n (l ++ l').
Proof.
  destruct (decide (length l <= n)) as [Hl|Hl].
  { by rewrite (last_n_all n l). }
  destruct (decide (n <= length l')) as [Hl'|Hl'].
  { by rewrite !last_n_app_r. }
  unfold last_n. rewrite !length_app, length_drop.
  rewrite !drop_app_le by (rewrite ?length_drop; lia).
  rewrite drop_drop. f_equal. f_equal. lia.
Qed.

Lemma last_n_suffix {A} n (l : list A) : exists k, last_n n l = drop k l.
Proof. by exists (length l - n). Qed.

(** ** Running the memory helpers *)

Section StoreFacts.
Context `{JsonCodec}.

(** What [_load_memory] makes of the files: the parsed text of the file, the
    fresh journal when the file is missing or does not parse. *)
Definition load_of (fs : gmap string string) (p : string) : pyval :=
  match fs !! p with
  | Some s =>
      match json_load s with
      | Some v => v
      | None => fresh_journal
      end
  | None => fresh_journal
  end.

(** A world where a write goes through: the directory is there and no size
    limit is in force. *)
Definition writable (w : world) : Prop :=
  dir_exists (w_fs w) = true /\ fsize_limit (w_fs w) = None.

Lemma _load_memory_run p w :
  _load_memory p w = (Ok (load_of (files (w_fs w)) p), w).
Proof.
  unfold _load_memory, load_of, bind, path_exists, gets, try_except,
    json_load_file, read_text, bind, ret, raise.
  destruct (files (w_fs w) !! p) as [s|] eqn:E; simpl.
  - rewrite E. by destruct (json_load s).
  - done.
Qed.

Lemma json_ok_fresh_journal : json_ok fresh_journal = true.
Proof. reflexivity. Qed.

Lemma json_ok_load_of fs p : json_ok (load_of fs p) = true.
Proof.
  unfold load_of. destruct (fs !! p) as [s|]; [|done].
  destruct (json_load s) as [v|] eqn:E; [|done]. by eapply json_load_ok.
Qed.

Lemma load_of_insert_dump fs p v :
  json_ok v = true -> load_of (<[p := json_dump v]> fs) p = v.
Proof.
  intros Hv. unfold load_of. rewrite lookup_insert_eq.
  by rewrite json_load_dump.
Qed.

Lemma load_of_insert_ne fs p q s :
  p <> q -> load_of (<[p := s]> fs) q = load_of fs q.
Proof. intros Hne. unfold load_of. by rewrite lookup_insert_ne. Qed.



(** The message list of a journal as [_append_memory] finds it: the list
    under ["messages"], the empty list that [setdefault] puts there when the
    key is missing, nothing when the value cannot be appended to. *)
Definition messages_of (data : pyval) : option (list pyval) :=
  match data with
  | PDict d =>
      match dict_get d "messages" with
      | Some (PList l) => Some l
      | Some _ => None
      | None => Some []
      end
  | _ => None
  end.

(** The journal [data] with [l] as its message list. *)
Definition with_messages (data : pyval) (l : list pyval) : pyval :=
  match data with
  | PDict d => PDict (dict_set d "messages" (PList l))
  | _ => data
  end.

Lemma messages_of_with_messages data l l' :
  messages_of data = Some l -> messages_of (with_messages data l') = Some l'.
Proof.
  destruct data as [| | | | |d]; try done. simpl. intros _.
  by rewrite dict_get_set_eq.
Qed.

Lemma with_messages_twice data l l' :
  with_messages (with_messages data l) l' = with_messages data l'.
Proof. destruct data; try done. simpl. by rewrite dict_set_set. Qed.

Lemma json_ok_with_messages data l :
  json_ok data = true -> json_ok (PList l) = true ->
  json_ok (with_messages data l) = true.
Proof. destruct data; try done. apply json_ok_dict_set. Qed.

Lemma json_ok_messages_of data l :
  json_ok data = true -> messages_of data = Some l -> json_ok (PList l) = true.
Proof.
  destruct data as [| | | | |d]; try done. simpl messages_of.
  destruct (dict_get d "messages") as [[]|] eqn:E; try done.
  - intros Hd [= <-]. by eapply (json_ok_dict_get d "messages" (PList _)).
  - by intros _ [= <-].
Qed.

(** The world after a write of [s] to [p] went through. *)
Definition wrote (p s : string) (w : world) : world :=
  set_files (insert p s) w.

Lemma write_text_run p s w :
  writable w -> write_text p s w = (Ok tt, wrote p s w).
Proof. intros [Hd Hl]. unfold write_text. by rewrite Hd, Hl. Qed.

(** An append comes down to one write: of the journal with the new entry
    at the end of its messages, after one reading of the clock. *)
Lemma client_append_writes p role text mid w l :
  messages_of (load_of (files (w_fs w)) p) = Some l ->
  ClientV2._append_memory p role text mid w =
  write_text p
    (json_dump (with_messages (load_of (files (w_fs w)) p)
       (l ++ [journal_entry (w_clock w (w_ticks w) +:+ "Z") role text mid])))
    (set_ticks (S (w_ticks w)) w).
Proof.
  intros Hl. unfold ClientV2._append_memory.
  unfold bind at 1. rewrite _load_memory_run.
  destruct (load_of (files (w_fs w)) p) as [| | | | |d] eqn:Hd; try done.
  simpl in Hl. unfold py_setdefault, lift, bind, utcnow_isoformat, json_dump_file.
  destruct (dict_get d "messages") as [[]|] eqn:E; try done.
  - injection Hl as <-. simpl. by rewrite E.
  - injection Hl as <-. simpl.
    rewrite <- (dict_set_new d "messages" (PList [])) by done.
    rewrite dict_get_set_eq. simpl. by rewrite dict_set_set.
Qed.

Lemma client_append_run p role text mid w l :
  writable w ->
  messages_of (load_of (files (w_fs w)) p) = Some l ->
  ClientV2._append_memory p role text mid w =
  (Ok tt,
   wrote p (json_dump (with_messages (load_of (files (w_fs w)) p)
              (l ++ [journal_entry (w_clock w (w_ticks w) +:+ "Z") role text mid])))
     (set_ticks (S (w_ticks w)) w)).
Proof.
  intros Hw Hl. rewrite (client_append_writes p role text mid w l Hl).
  by apply write_text_run.
Qed.

End StoreFacts.

Section AppendFacts.
Context `{JsonCodec}.

Lemma client_python_append_same :
  ClientPython._append_memory = ClientV2._append_memory.
Proof. reflexivity. Qed.

Lemma client_python_prepare_same :
  ClientPython.main_prepare_memory = ClientV2.main_prepare_memory.
Proof. reflexivity. Qed.

Lemma streamlit_append_writes p role text mid w l :
  messages_of (load_of (files (w_fs w)) p) = Some l ->
  StreamlitApp._append_memory p role text mid w =
  write_text p
    (json_dump (with_messages (load_of (files (w_fs w)) p)
       (last_n 20
          (l ++ [journal_entry (w_clock w (w_ticks w) +:+ "+00:00")
                   role text mid]))))
    (set_ticks (S (w_ticks w)) w).
Proof.
  intros Hl. unfold StreamlitApp._append_memory.
  unfold bind at 1. rewrite _load_memory_run.
  destruct (load_of (files (w_fs w)) p) as [| | | | |d] eqn:Hd; try done.
  simpl in Hl. unfold py_setdefault, lift, bind, utcnow_isoformat, json_dump_file.
  destruct (dict_get d "messages") as [[]|] eqn:E; try done.
  - injection Hl as <-. simpl. rewrite E. simpl.
    rewrite dict_get_set_eq. simpl. by rewrite dict_set_set.
  - injection Hl as <-. simpl.
    rewrite <- (dict_set_new d "messages" (PList [])) by done.
    rewrite dict_get_set_eq. simpl. rewrite dict_set_set.
    rewrite dict_get_set_eq. simpl. by rewrite dict_set_set.
Qed.

Lemma streamlit_append_run p role text mid w l :
  writable w ->
  messages_of (load_of (files (w_fs w)) p) = Some l ->
  StreamlitApp._append_memory p role text mid w =
  (Ok tt,
   wrote p (json_dump (with_messages (load_of (files (w_fs w)) p)
              (last_n 20
                 (l ++ [journal_entry (w_clock w (w_ticks w) +:+ "+00:00")
                          role text mid]))))
     (set_ticks (S (w_ticks w)) w)).
Proof.
  intros Hw Hl. rewrite (streamlit_append_writes p role text mid w l Hl).
  by apply write_text_run.
Qed.

(** What a later load sees after a write of a dumped journal. *)
Lemma load_of_wrote p v w :
  json_ok v = true -> load_of (files (w_fs (wrote p (json_dump v) w))) p = v.
Proof. intros Hv. simpl. by apply load_of_insert_dump. Qed.

Lemma writable_wrote p s w : writable w -> writable (wrote p s w).
Proof. done. Qed.

Lemma writable_set_ticks n w : writable w -> writable (set_ticks n w).
Proof. done. Qed.

End AppendFacts.

(** ** Sequences of appends *)

(** The arguments of one call of [_append_memory]. *)
Record append_args : Type := {
  a_role : string;
  a_text : string;
  a_message_id : option string
}.

(** The entries that appends with the arguments [ops] store when the clock
    is read for the [n]-th time at the first of them; [zone] is what the
    script puts after the clock's text. *)
Fixpoint stamped (clock : nat -> string) (zone : string) (n : nat)
    (ops : list append_args) : list pyval :=
  match ops with
  | [] => []
  | op :: ops' =>
      journal_entry (clock n +:+ zone) (a_role op) (a_text op) (a_message_id op)
      :: stamped clock zone (S n) ops'
  end.

Lemma stamped_length clock zone n ops :
  length (stamped clock zone n ops) = length ops.
Proof. revert n. induction ops as [|op ops IH]; intros n; simpl; [done | by rewrite IH]. Qed.

Lemma stamped_lookup clock zone n ops i op :
  ops !! i = Some op ->
  stamped clock zone n ops !! i =
  Some (journal_entry (clock (n + i) +:+ zone) (a_role op) (a_text op)
          (a_message_id op)).
Proof.
  revert n i. induction ops as [|op0 ops IH]; intros n [|i]; simpl; try done.
  - intros [= ->]. by rewrite Nat.add_0_r.
  - intros Hi. rewrite (IH (S n) i Hi). do 3 f_equal. f_equal. lia.
Qed.

Lemma json_ok_stamped clock zone n ops :
  json_ok (PList (stamped clock zone n ops)) = true.
Proof.
  revert n. induction ops as [|op ops IH]; intros n; [done |].
  exact (andb_true_intro
           (conj (json_ok_journal_entry (clock n +:+ zone) (a_role op) (a_text op)
                    (a_message_id op))
                 (IH (S n)))).
Qed.

Section Appends.
Context `{JsonCodec}.

(** One store: its [_append_memory], the zone text of its time stamps, and
    what an append makes of the message list. *)
Variable append : string -> string -> string -> option string -> M unit.
Variable zone : string.
Variable step : list pyval -> pyval -> list pyval.

Hypothesis step_ok : forall l e,
  json_ok (PList l) = true -> json_ok e = true -> json_ok (PList (step l e)) = true.

Hypothesis append_run : forall p role text mid w l,
  writable w ->
  messages_of (load_of (files (w_fs w)) p) = Some l ->
  append p role text mid w =
  (Ok tt,
   wrote p (json_dump (with_messages (load_of (files (w_fs w)) p)
              (step l (journal_entry (w_clock w (w_ticks w) +:+ zone)
                         role text mid))))
     (set_ticks (S (w_ticks w)) w)).

Definition run_appends (p : string) (ops : list append_args) : M unit :=
  for_each ops (fun op => append p (a_role op) (a_text op) (a_message_id op)).

(** The world appends leave behind: the journal holds the former messages
    with the steps of the new entries applied in turn. *)
Lemma run_appends_spec p ops : forall w l,
  writable w ->
  messages_of (load_of (files (w_fs w)) p) = Some l ->
  exists w',
    run_appends p ops w = (Ok tt, w') /\
    writable w' /\
    w_clock w' = w_clock w /\
    w_ticks w' = w_ticks w + length ops /\
    (forall q, q <> p -> files (w_fs w') !! q = files (w_fs w) !! q) /\
    messages_of (load_of (files (w_fs w')) p) =
      Some (foldl step l (stamped (w_clock w) zone (w_ticks w) ops)) /\
    (ops <> [] ->
     load_of (files (w_fs w')) p =
       with_messages (load_of (files (w_fs w)) p)
         (foldl step l (stamped (w_clock w) zone (w_ticks w) ops))).
Proof.
  induction ops as [|op ops IH]; intros w l Hw Hl.
  - exists w. simpl. split; [done |]. split; [done |]. split; [done |].
    split; [lia |]. split; [done |]. split; [done |]. by intros [].
  - set (e := journal_entry (w_clock w (w_ticks w) +:+ zone) (a_role op)
                (a_text op) (a_message_id op)).
    set (data := load_of (files (w_fs w)) p) in *.
    set (w1 := wrote p (json_dump (with_messages data (step l e)))
                 (set_ticks (S (w_ticks w)) w)).
    assert (Hok : json_ok (with_messages data (step l e)) = true).
    { apply json_ok_with_messages; [apply json_ok_load_of |].
      apply step_ok; [| apply json_ok_journal_entry].
      eapply json_ok_messages_of; [apply json_ok_load_of | exact Hl]. }
    assert (Hload1 : load_of (files (w_fs w1)) p = with_messages data (step l e)).
    { unfold w1. by rewrite load_of_wrote. }
    destruct (IH w1 (step l e)) as (w' & Hrun & Hw' & Hc & Ht & Hq & Hm & Hd).
    { done. }
    { rewrite Hload1. by eapply messages_of_with_messages. }
    exists w'. unfold run_appends in *. simpl for_each.
    unfold bind at 1. rewrite (append_run p _ _ _ w l Hw Hl). fold e data w1.
    split; [exact Hrun |]. split; [exact Hw' |]. split; [by rewrite Hc |].
    split; [rewrite Ht; simpl; lia |]. split.
    { intros q Hqp. rewrite (Hq q Hqp). simpl. by rewrite lookup_insert_ne. }
    simpl stamped. simpl foldl. fold e. split; [exact Hm |].
    intros _. destruct ops as [|op' ops].
    + simpl in *. injection Hrun as <-. exact Hload1.
    + rewrite Hd by done. rewrite Hload1. apply with_messages_twice.
Qed.

End Appends.

Definition keep_all (l : list pyval) (e : pyval) : list pyval := l ++ [e].

Definition keep_20 (l : list pyval) (e : pyval) : list pyval := last_n 20 (l ++ [e]).

Lemma foldl_keep_all l es : foldl keep_all l es = l ++ es.
Proof.
  revert l. induction es as [|e es IH]; intros l; simpl.
  - by rewrite app_nil_r.
  - rewrite IH. unfold keep_all. by rewrite <- app_assoc.
Qed.

Lemma foldl_keep_20 l e es : foldl keep_20 l (e :: es) = last_n 20 (l ++ e :: es).
Proof.
  revert l e. induction es as [|e' es IH]; intros l e.
  - done.
  - change (foldl keep_20 l (e :: e' :: es))
      with (foldl keep_20 (keep_20 l e) (e' :: es)).
    rewrite IH. unfold keep_20. rewrite last_n_app.
    by rewrite <- app_assoc.
Qed.

Lemma foldl_keep_20_short l es :
  length l <= 20 -> foldl keep_20 l es = last_n 20 (l ++ es).
Proof.
  intros Hl. destruct es as [|e es]; [| apply foldl_keep_20].
  simpl. rewrite app_nil_r. by rewrite last_n_all.
Qed.

Section AppendClaims.
Context `{JsonCodec}.

Lemma keep_all_ok l e :
  json_ok (PList l) = true -> json_ok e = true -> json_ok (PList (keep_all l e)) = true.
Proof. apply json_ok_snoc. Qed.

Lemma keep_20_ok l e :
  json_ok (PList l) = true -> json_ok e = true -> json_ok (PList (keep_20 l e)) = true.
Proof. intros Hl He. apply json_ok_last_n. by apply json_ok_snoc. Qed.

Lemma load_of_absent fs p : fs !! p = None -> load_of fs p = fresh_journal.
Proof. intros Hp. unfold load_of. by rewrite Hp. Qed.

(** Appends of the command-line clients to any journal they can append
    to. *)
Lemma client_appends p ops w l :
  writable w ->
  messages_of (load_of (files (w_fs w)) p) = Some l ->
  exists w',
    run_appends ClientV2._append_memory p ops w = (Ok tt, w') /\
    writable w' /\
    messages_of (load_of (files (w_fs w')) p) =
      Some (l ++ stamped (w_clock w) "Z" (w_ticks w) ops) /\
    (ops <> [] ->
     load_of (files (w_fs w')) p =
       with_messages (load_of (files (w_fs w)) p)
         (l ++ stamped (w_clock w) "Z" (w_ticks w) ops)).
Proof.
  intros Hw Hl.
  destruct (run_appends_spec ClientV2._append_memory "Z" keep_all keep_all_ok
              client_append_run p ops w l Hw Hl)
    as (w' & Hrun & Hw' & _ & _ & _ & Hm & Hd).
  rewrite foldl_keep_all in Hm, Hd. by exists w'.
Qed.

(** Appends of the Streamlit app. *)
Lemma streamlit_appends p op ops w l :
  writable w ->
  messages_of (load_of (files (w_fs w)) p) = Some l ->
  exists w',
    run_appends StreamlitApp._append_memory p (op :: ops) w = (Ok tt, w') /\
    writable w' /\
    load_of (files (w_fs w')) p =
      with_messages (load_of (files (w_fs w)) p)
        (last_n 20 (l ++ stamped (w_clock w) "+00:00" (w_ticks w) (op :: ops))).
Proof.
  intros Hw Hl.
  destruct (run_appends_spec StreamlitApp._append_memory "+00:00" keep_20 keep_20_ok
              streamlit_append_run p (op :: ops) w l Hw Hl)
    as (w' & Hrun & Hw' & _ & _ & _ & _ & Hd).
  exists w'. split; [done |]. split; [done |].
  rewrite Hd by done. f_equal. apply foldl_keep_20.
Qed.

(** C1. For every location and every sequence of N appends that starts with
    no journal file there, a load afterwards returns a journal whose messages
    are N entries in the order of the appends, the i-th holding the role,
    the text and the message id that the i-th append was given (a missing
    message id as [None]) and the time read at that append; under the
    Streamlit app's limit of 20 the messages are min(N, 20) entries, those of
    the last appends. *)
Theorem C1_load_after_appends p ops w :
  writable w ->
  files (w_fs w) !! p = None ->
  (exists w' msgs,
     run_appends ClientPython._append_memory p ops w = (Ok tt, w') /\
     _load_memory p w' =
       (Ok (PDict [("thread_id", PNone); ("messages", PList msgs)]), w') /\
     length msgs = length ops /\
     forall i op,
       ops !! i = Some op ->
       msgs !! i =
         Some (PDict [("ts", PStr (w_clock w (w_ticks w + i) +:+ "Z"));
                      ("role", PStr (a_role op));
                      ("text", PStr (a_text op));
                      ("message_id",
                       match a_message_id op with
                       | Some mid => PStr mid
                       | None => PNone
                       end)])) /\
  (exists w' msgs,
     run_appends StreamlitApp._append_memory p ops w = (Ok tt, w') /\
     _load_memory p w' =
       (Ok (PDict [("thread_id", PNone); ("messages", PList msgs)]), w') /\
     length msgs = Nat.min (length ops) 20 /\
     forall i op,
       ops !! i = Some op ->
       length ops - 20 <= i ->
       msgs !! (i - (length ops - 20)) =
         Some (PDict [("ts", PStr (w_clock w (w_ticks w + i) +:+ "+00:00"));
                      ("role", PStr (a_role op));
                      ("text", PStr (a_text op));
                      ("message_id",
                       match a_message_id op with
                       | Some mid => PStr mid
                       | None => PNone
                       end)])).
Proof.
  intros Hw Hp.
  assert (Hfresh : load_of (files (w_fs w)) p = fresh_journal)
    by by apply load_of_absent.
  assert (Hl : messages_of (load_of (files (w_fs w)) p) = Some [])
    by by rewrite Hfresh.
  split.
  - destruct (client_appends p ops w [] Hw Hl) as (w' & Hrun & _ & _ & Hd).
    exists w', (stamped (w_clock w) "Z" (w_ticks w) ops).
    rewrite client_python_append_same. split; [exact Hrun |].
    split; [| split; [apply stamped_length |]].
    + rewrite _load_memory_run. destruct ops as [|op ops].
      * simpl in Hrun. injection Hrun as <-. by rewrite Hfresh.
      * rewrite Hd by done. by rewrite Hfresh.
    + intros i op Hop. by rewrite (stamped_lookup _ _ _ _ _ _ Hop).
  - exists (match ops with
            | [] => w
            | op :: ops' =>
                snd (run_appends StreamlitApp._append_memory p ops w)
            end),
           (last_n 20 (stamped (w_clock w) "+00:00" (w_ticks w) ops)).
    assert (Hlook : forall i op,
      ops !! i = Some op -> length ops - 20 <= i ->
      last_n 20 (stamped (w_clock w) "+00:00" (w_ticks w) ops)
        !! (i - (length ops - 20))
      = stamped (w_clock w) "+00:00" (w_ticks w) ops !! i).
    { intros i op Hop Hi. unfold last_n. rewrite lookup_drop, stamped_length.
      f_equal. lia. }
    destruct ops as [|op ops].
    + split; [done |]. split; [| split; [done | by intros [|i] ?]].
      rewrite _load_memory_run. by rewrite Hfresh.
    + destruct (streamlit_appends p op ops w [] Hw Hl) as (w' & Hrun & _ & Hd).
      rewrite Hrun. cbn [snd]. split; [done |].
      split; [| split; [by rewrite last_n_length, stamped_length |]].
      * rewrite _load_memory_run, Hd. by rewrite Hfresh.
      * intros i a Ha Hi. rewrite (Hlook i a Ha Hi).
        by rewrite (stamped_lookup _ _ _ _ _ _ Ha).
Qed.

(** C3. The Streamlit app trims on every append.  After one or more appends
    to a journal that held the messages [l], the journal holds the list of
    [l] followed by the appended entries without its oldest entries: as many
    are dropped from the front as the list has beyond 20, so
    min(20, length) entries stay, in their order; after 20 appends or more
    they are the entries of the last 20 appends. *)
Theorem C3_trim_keeps_last_20 p op ops w l :
  writable w ->
  messages_of (load_of (files (w_fs w)) p) = Some l ->
  exists w' data new kept,
    run_appends StreamlitApp._append_memory p (op :: ops) w = (Ok tt, w') /\
    _load_memory p w' = (Ok data, w') /\
    messages_of data = Some kept /\
    length new = length (op :: ops) /\
    (forall i a,
       (op :: ops) !! i = Some a ->
       new !! i =
         Some (PDict [("ts", PStr (w_clock w (w_ticks w + i) +:+ "+00:00"));
                      ("role", PStr (a_role a));
                      ("text", PStr (a_text a));
                      ("message_id",
                       match a_message_id a with
                       | Some mid => PStr mid
                       | None => PNone
                       end)])) /\
    kept = drop (length (l ++ new) - 20) (l ++ new) /\
    length kept = Nat.min 20 (length l + length (op :: ops)) /\
    (20 <= length (op :: ops) -> kept = drop (length new - 20) new).
Proof.
  intros Hw Hl.
  destruct (streamlit_appends p op ops w l Hw Hl) as (w' & Hrun & _ & Hd).
  set (new := stamped (w_clock w) "+00:00" (w_ticks w) (op :: ops)) in *.
  assert (Hnew : length new = length (op :: ops)) by apply stamped_length.
  exists w', (load_of (files (w_fs w')) p), new, (last_n 20 (l ++ new)).
  split; [exact Hrun |]. split; [apply _load_memory_run |].
  split; [rewrite Hd; by eapply messages_of_with_messages |].
  split; [exact Hnew |].
  split; [intros i a Ha; unfold new; by rewrite (stamped_lookup _ _ _ _ _ _ Ha) |].
  split; [done |].
  split; [rewrite last_n_length, length_app, Hnew; lia |].
  intros Hn. apply last_n_app_r. by rewrite Hnew.
Qed.

End AppendClaims.

(** ** Locations, deletion, stamping *)

(** The path [_memory_path_for_thread] gives a thread. *)
Definition journal_path (thread_id : string) : string :=
  "memory" +:+ "/conversation_" +:+ thread_id +:+ ".json".

(** The session as [start_new_chat] leaves it. *)
Definition new_chat_session : session :=
  {| ss_messages := []; ss_selected_chat := "--- Start a new chat ---";
     ss_log_messages := []; ss_thread_id := None |}.

(** There is a file at [p] and the system refuses to remove it. *)
Definition removal_refused (p : string) (w : world) : bool :=
  bool_decide (is_Some (files (w_fs w) !! p))
  && bool_decide (p ∈ undeletable (w_fs w)).

(** The value under ["messages"] in a journal, whatever it is. *)
Definition stored_messages (data : pyval) : option pyval :=
  match data with
  | PDict d => dict_get d "messages"
  | _ => None
  end.

Section LocationFacts.
Context `{JsonCodec}.

Lemma _memory_path_for_thread_run tid w :
  _memory_path_for_thread tid w = (Ok (journal_path tid), set_dir_exists true w).
Proof. reflexivity. Qed.

Lemma delete_thread_world tid w :
  StreamlitApp.delete_thread tid w =
  (Ok tt,
   if removal_refused (journal_path tid) w
   then add_ui (UiError ("Error deleting thread: " +:+ exn_text OSError))
          (set_dir_exists true w)
   else set_session
          (if bool_decide (ss_thread_id (w_session w) = Some tid)
           then new_chat_session else w_session w)
          (set_files (delete (journal_path tid)) (set_dir_exists true w))).
Proof.
  unfold StreamlitApp.delete_thread. unfold bind at 1.
  rewrite _memory_path_for_thread_run.
  unfold try_except, bind, path_exists, gets, unlink, StreamlitApp.start_new_chat,
    modify, ret, removal_refused.
  destruct w as [[dir fs lim und] clock ticks rem sess ui].
  cbn [w_fs w_session files set_dir_exists undeletable].
  destruct (fs !! journal_path tid) as [s|] eqn:E; simpl.
  - rewrite E. simpl. case_bool_decide; simpl; [done |]. by case_bool_decide.
  - unfold set_files, set_session. simpl. rewrite delete_id by done.
    by case_bool_decide.
Qed.

Lemma removal_refused_false p w :
  files (w_fs w) !! p = None \/ p ∉ undeletable (w_fs w) ->
  removal_refused p w = false.
Proof.
  unfold removal_refused. intros [Hp | Hp].
  - by rewrite Hp.
  - rewrite (bool_decide_eq_false_2 _ Hp). apply andb_false_r.
Qed.

Lemma removal_refused_true p w s :
  files (w_fs w) !! p = Some s -> p ∈ undeletable (w_fs w) ->
  removal_refused p w = true.
Proof.
  unfold removal_refused. intros Hs Hp. rewrite Hs.
  by rewrite (bool_decide_eq_true_2 _ Hp).
Qed.

Lemma prepare_memory_run tid w d :
  fsize_limit (w_fs w) = None ->
  load_of (files (w_fs w)) (journal_path tid) = PDict d ->
  ClientV2.main_prepare_memory tid w =
  (Ok (journal_path tid),
   wrote (journal_path tid) (json_dump (PDict (dict_set d "thread_id" (PStr tid))))
     (set_dir_exists true w)).
Proof.
  intros Hlim Hd. unfold ClientV2.main_prepare_memory.
  unfold bind at 1. rewrite _memory_path_for_thread_run.
  unfold bind at 1. rewrite _load_memory_run.
  cbn [w_fs set_dir_exists files]. rewrite Hd.
  unfold lift, bind, json_dump_file, write_text, ret. simpl. by rewrite Hlim.
Qed.

Lemma prepare_memory_raises tid w :
  (forall d, load_of (files (w_fs w)) (journal_path tid) <> PDict d) ->
  ClientV2.main_prepare_memory tid w = (Raise TypeError, set_dir_exists true w).
Proof.
  intros Hd. unfold ClientV2.main_prepare_memory.
  unfold bind at 1. rewrite _memory_path_for_thread_run.
  unfold bind at 1. rewrite _load_memory_run.
  cbn [w_fs set_dir_exists files].
  destruct (load_of (files (w_fs w)) (journal_path tid)); try done.
  by destruct (Hd d).
Qed.

(** C2, as the code has it.  A load returns the fresh journal when the file
    is missing or [json.load] raises on it, and whatever document the file
    holds when it parses, journal or not; it raises nothing and changes
    nothing. *)
Theorem C2_load_falls_back_when_parsing_fails p w :
  (files (w_fs w) !! p = None -> _load_memory p w = (Ok fresh_journal, w)) /\
  (forall s, files (w_fs w) !! p = Some s -> json_load s = None ->
             _load_memory p w = (Ok fresh_journal, w)) /\
  (forall s v, files (w_fs w) !! p = Some s -> json_load s = Some v ->
               _load_memory p w = (Ok v, w)).
Proof.
  rewrite _load_memory_run. unfold load_of. split; [| split].
  - by intros ->.
  - by intros s -> ->.
  - by intros s v -> ->.
Qed.

(** C4, as the code has it.  An append writes the new journal into the
    journal file itself, which opening truncates.  When the write goes
    through, the file holds the whole new text; when it fails because the
    text is longer than the file may grow, the file is left with the part
    that fitted, and the error goes to the caller. *)
Theorem C4_append_rewrites_file_in_place p role text mid w l :
  dir_exists (w_fs w) = true ->
  messages_of (load_of (files (w_fs w)) p) = Some l ->
  (exists w' new,
     ClientPython._append_memory p role text mid w =
       (match fsize_limit (w_fs w) with
        | Some lim => if Nat.ltb lim (String.length new) then Raise OSError else Ok tt
        | None => Ok tt
        end, w') /\
     json_load new =
       Some (with_messages (load_of (files (w_fs w)) p)
               (l ++ [journal_entry (w_clock w (w_ticks w) +:+ "Z") role text mid])) /\
     files (w_fs w') !! p =
       Some (match fsize_limit (w_fs w) with
             | Some lim =>
                 if Nat.ltb lim (String.length new) then substring 0 lim new else new
             | None => new
             end)) /\
  (exists w' new,
     StreamlitApp._append_memory p role text mid w =
       (match fsize_limit (w_fs w) with
        | Some lim => if Nat.ltb lim (String.length new) then Raise OSError else Ok tt
        | None => Ok tt
        end, w') /\
     json_load new =
       Some (with_messages (load_of (files (w_fs w)) p)
               (last_n 20
                  (l ++ [journal_entry (w_clock w (w_ticks w) +:+ "+00:00")
                           role text mid]))) /\
     files (w_fs w') !! p =
       Some (match fsize_limit (w_fs w) with
             | Some lim =>
                 if Nat.ltb lim (String.length new) then substring 0 lim new else new
             | None => new
             end)).
Proof.
  intros Hdir Hl.
  assert (Hold : json_ok (PList l) = true).
  { eapply json_ok_messages_of; [apply json_ok_load_of | exact Hl]. }
  split.
  - rewrite client_python_append_same, (client_append_writes p role text mid w l Hl).
    match goal with |- context [write_text p ?s ?w0] =>
      exists (snd (write_text p s w0)), s end.
    split; [| split].
    + unfold write_text. cbn [w_fs set_ticks]. rewrite Hdir.
      destruct (fsize_limit (w_fs w)) as [lim|]; [| reflexivity].
      destruct (Nat.ltb lim _); reflexivity.
    + apply json_load_dump, json_ok_with_messages; [apply json_ok_load_of |].
      apply json_ok_snoc; [done | apply json_ok_journal_entry].
    + unfold write_text. cbn [w_fs set_ticks]. rewrite Hdir.
      destruct (fsize_limit (w_fs w)) as [lim|]; [destruct (Nat.ltb lim _) |];
        simpl; by rewrite lookup_insert_eq.
  - rewrite (streamlit_append_writes p role text mid w l Hl).
    match goal with |- context [write_text p ?s ?w0] =>
      exists (snd (write_text p s w0)), s end.
    split; [| split].
    + unfold write_text. cbn [w_fs set_ticks]. rewrite Hdir.
      destruct (fsize_limit (w_fs w)) as [lim|]; [| reflexivity].
      destruct (Nat.ltb lim _); reflexivity.
    + apply json_load_dump, json_ok_with_messages; [apply json_ok_load_of |].
      apply json_ok_last_n, json_ok_snoc; [done | apply json_ok_journal_entry].
    + unfold write_text. cbn [w_fs set_ticks]. rewrite Hdir.
      destruct (fsize_limit (w_fs w)) as [lim|]; [destruct (Nat.ltb lim _) |];
        simpl; by rewrite lookup_insert_eq.
Qed.


(** C9. Stamping a journal with its thread id rewrites it with only the
    value under [thread_id] changed: what is stored under [messages], and
    under every other key, is as before.  (Where the file holds a document
    that is no object, nothing is written at all.) *)
Theorem C9_stamp_changes_only_thread_id tid w :
  fsize_limit (w_fs w) = None ->
  exists r w',
    ClientPython.main_prepare_memory tid w = (r, w') /\
    ClientV2.main_prepare_memory tid w = (r, w') /\
    stored_messages (load_of (files (w_fs w')) (journal_path tid)) =
      stored_messages (load_of (files (w_fs w)) (journal_path tid)) /\
    (forall d, load_of (files (w_fs w)) (journal_path tid) = PDict d ->
       r = Ok (journal_path tid) /\
       load_of (files (w_fs w')) (journal_path tid) =
         PDict (dict_set d "thread_id" (PStr tid)) /\
       forall k, k <> "thread_id" ->
         dict_get (dict_set d "thread_id" (PStr tid)) k = dict_get d k).
Proof.
  intros Hlim. rewrite client_python_prepare_same.
  destruct (load_of (files (w_fs w)) (journal_path tid)) as [| | | | |d] eqn:Hd.
  1-5: eexists _, _; split; [by apply prepare_memory_raises; rewrite Hd |];
       split; [by apply prepare_memory_raises; rewrite Hd |];
       split; [cbn [w_fs set_dir_exists files]; by rewrite Hd | done].
  assert (Hok : json_ok (PDict (dict_set d "thread_id" (PStr tid))) = true).
  { apply json_ok_dict_set; [| done]. rewrite <- Hd. apply json_ok_load_of. }
  eexists _, _. split; [by apply prepare_memory_run |].
  split; [by apply prepare_memory_run |].
  rewrite load_of_wrote by done. split.
  - simpl. by rewrite dict_get_set_ne.
  - intros d' [= <-]. split; [done |]. split; [done |].
    intros k Hk. by rewrite dict_get_set_ne.
Qed.

End LocationFacts.

(** ** What leaves the journal files alone *)

(** A computation that changes no file, whatever else it does to the
    world. *)
Definition keeps_files {A : Type} (m : M A) : Prop :=
  forall w, files (w_fs (snd (m w))) = files (w_fs w).

(** The world after [n] calls of [m] in a row, whatever they returned. *)
Definition after_calls {A : Type} (m : M A) (n : nat) (w : world) : world :=
  Nat.iter n (fun w' => snd (m w')) w.

Lemma keeps_files_ret {A} (a : A) : keeps_files (ret a).
Proof. by intros w. Qed.

Lemma keeps_files_raise {A} e : keeps_files (@raise A e).
Proof. by intros w. Qed.

Lemma keeps_files_lift {A} (o : outcome A) : keeps_files (lift o).
Proof. by intros w. Qed.

Lemma keeps_files_gets {A} (f : world -> A) : keeps_files (gets f).
Proof. by intros w. Qed.

Lemma keeps_files_bind {A B} (m : M A) (k : A -> M B) :
  keeps_files m -> (forall a, keeps_files (k a)) -> keeps_files (bind m k).
Proof.
  intros Hm Hk w. unfold bind. specialize (Hm w).
  destruct (m w) as [[a|e] w1]; simpl in *; [| exact Hm].
  rewrite <- Hm. apply Hk.
Qed.

Lemma keeps_files_after_calls {A} (m : M A) n w :
  keeps_files m -> files (w_fs (after_calls m n w)) = files (w_fs w).
Proof.
  intros Hm. induction n as [|n IH]; [done |].
  unfold after_calls in *. simpl. by rewrite Hm.
Qed.

Create HintDb keeps.

#[local] Hint Resolve keeps_files_ret keeps_files_raise keeps_files_lift
  keeps_files_gets : keeps.

Ltac keeps_step :=
  first
    [ solve [ auto with keeps ]
    | match goal with
      | |- keeps_files (bind _ _) => apply keeps_files_bind; [| intros ? ]
      | |- keeps_files (if ?b then _ else _) => destruct b
      | |- keeps_files (match ?x with _ => _ end) => destruct x
      end ].

Section ReadOnly.
Context `{JsonCodec}.

Lemma keeps_files_load p : keeps_files (_load_memory p).
Proof. intros w. by rewrite _load_memory_run. Qed.

Lemma keeps_files_memory_dir : keeps_files _memory_dir.
Proof. by intros w. Qed.

Lemma keeps_files_glob : keeps_files glob_conversations.
Proof. by intros w. Qed.

#[local] Hint Resolve keeps_files_load keeps_files_memory_dir keeps_files_glob
  : keeps.

Lemma keeps_files_get_all_threads_loop paths : forall threads,
  keeps_files (StreamlitApp.get_all_threads_loop paths threads).
Proof.
  induction paths as [|p paths IH]; intros threads; simpl.
  - auto with keeps.
  - repeat keeps_step; apply IH.
Qed.

Lemma keeps_files_get_all_threads : keeps_files StreamlitApp.get_all_threads.
Proof.
  unfold StreamlitApp.get_all_threads. repeat keeps_step.
  apply keeps_files_get_all_threads_loop.
Qed.

Lemma keeps_files_saved_thread_of p data :
  keeps_files (ClientPython.saved_thread_of p data).
Proof. unfold ClientPython.saved_thread_of. repeat keeps_step. Qed.

Lemma keeps_files_list_saved_threads_loop paths : forall items,
  keeps_files (ClientPython._list_saved_threads_loop paths items).
Proof.
  induction paths as [|p paths IH]; intros items; simpl.
  - auto with keeps.
  - apply keeps_files_bind; [auto with keeps |]. intros data.
    apply keeps_files_bind; [apply keeps_files_saved_thread_of |]. intros row.
    apply IH.
Qed.

Lemma keeps_files_list_saved_threads : keeps_files ClientPython._list_saved_threads.
Proof.
  unfold ClientPython._list_saved_threads. repeat keeps_step.
  apply keeps_files_list_saved_threads_loop.
Qed.

(** C10. Loading and listing read the journals and write none: after any
    number of calls of [_load_memory], of the Streamlit listing or of the
    command-line listing, every path holds the very text it held before,
    and no path has gained or lost a file.  A load leaves the whole world
    as it was; a listing may create the [memory] directory. *)
Theorem C10_load_and_listing_leave_files_alone p n w :
  snd (_load_memory p w) = w /\
  files (w_fs (after_calls (_load_memory p) n w)) = files (w_fs w) /\
  files (w_fs (after_calls StreamlitApp.get_all_threads n w)) = files (w_fs w) /\
  files (w_fs (after_calls ClientPython._list_saved_threads n w)) = files (w_fs w).
Proof.
  split; [by rewrite _load_memory_run |].
  split; [apply keeps_files_after_calls, keeps_files_load |].
  split; [apply keeps_files_after_calls, keeps_files_get_all_threads |].
  apply keeps_files_after_calls, keeps_files_list_saved_threads.
Qed.

(** C8, as the code has it.  An append of the command-line clients leaves
    the journal with its former messages, as they were and in their order,
    followed by the one new entry.  An append of the Streamlit app puts the
    new entry at the end likewise and then keeps the last 20 entries of that
    list, so that from 20 stored entries on the oldest goes with every
    append (its trim, C3).  No entry is changed or moved by either; and the
    one deletion there is removes the journal file whole, or leaves it as it
    is where the system refuses the removal, and touches no other file. *)
Theorem C8_journal_is_append_only p role text mid tid w l :
  writable w ->
  messages_of (load_of (files (w_fs w)) p) = Some l ->
  (exists w',
     ClientV2._append_memory p role text mid w = (Ok tt, w') /\
     messages_of (load_of (files (w_fs w')) p) =
       Some (l ++ [journal_entry (w_clock w (w_ticks w) +:+ "Z") role text mid]) /\
     forall q, q <> p -> files (w_fs w') !! q = files (w_fs w) !! q) /\
  (exists w' k,
     StreamlitApp._append_memory p role text mid w = (Ok tt, w') /\
     messages_of (load_of (files (w_fs w')) p) =
       Some (drop k (l ++ [journal_entry (w_clock w (w_ticks w) +:+ "+00:00")
                             role text mid])) /\
     k = length l + 1 - 20 /\
     forall q, q <> p -> files (w_fs w') !! q = files (w_fs w) !! q) /\
  (exists w',
     StreamlitApp.delete_thread tid w = (Ok tt, w') /\
     (files (w_fs w') = delete (journal_path tid) (files (w_fs w)) \/
      files (w_fs w') = files (w_fs w)) /\
     (journal_path tid ∉ undeletable (w_fs w) ->
      files (w_fs w') !! journal_path tid = None) /\
     forall q, q <> journal_path tid -> files (w_fs w') !! q = files (w_fs w) !! q).
Proof.
  intros Hw Hl.
  assert (Hold : json_ok (PList l) = true).
  { eapply json_ok_messages_of; [apply json_ok_load_of | exact Hl]. }
  split; [| split].
  - eexists. split; [by apply client_append_run |]. split.
    + rewrite load_of_wrote.
      * by eapply messages_of_with_messages.
      * apply json_ok_with_messages; [apply json_ok_load_of |].
        apply json_ok_snoc; [done | apply json_ok_journal_entry].
    + intros q Hq. simpl. by rewrite lookup_insert_ne.
  - eexists _, _. split; [by apply streamlit_append_run |]. split; [| split].
    + rewrite load_of_wrote.
      * by eapply messages_of_with_messages.
      * apply json_ok_with_messages; [apply json_ok_load_of |].
        apply json_ok_last_n, json_ok_snoc; [done | apply json_ok_journal_entry].
    + by rewrite length_app.
    + intros q Hq. simpl. by rewrite lookup_insert_ne.
  - eexists. split; [apply delete_thread_world |].
    destruct (removal_refused (journal_path tid) w) eqn:Eheld;
      cbn [w_fs set_session set_files files add_ui set_dir_exists].
    + split; [by right |]. split; [| done].
      intros Hfree. by rewrite removal_refused_false in Eheld by by right.
    + split; [by left |]. split; [intros _; apply lookup_delete_eq |].
      intros q Hq. by apply lookup_delete_ne.
Qed.

End ReadOnly.

(** ** The Streamlit listing *)

(** The journal files the listings scan. *)
Definition journal_files (fs : gmap string string) : list string :=
  filter (fun p => glob_match p = true) (map fst (map_to_list fs)).

(** A message entry with a role and a text. *)
Definition entry_wf (e : pyval) : bool :=
  match e with
  | PDict d =>
      match dict_get d "role", dict_get d "text" with
      | Some _, Some _ => true
      | _, _ => false
      end
  | _ => false
  end.

(** A journal of the shape the store writes: an object whose [thread_id],
    if any, is null or a string, and whose [messages], if any, is a list of
    entries. *)
Definition journal_wf (data : pyval) : bool :=
  match data with
  | PDict d =>
      match dict_get d "thread_id" with
      | None | Some PNone | Some (PStr _) => true
      | Some _ => false
      end
      && match dict_get d "messages" with
         | None => true
         | Some (PList l) => forallb entry_wf l
         | Some _ => false
         end
  | _ => false
  end.

Definition is_user_entry (e : pyval) : bool :=
  match py_getitem e "role" with
  | Ok r => py_eq_str r "user"
  | Raise _ => false
  end.

(** The text of the first entry with role [user], ["Chat"] without one. *)
Definition label_of (l : list pyval) : pyval :=
  match find is_user_entry l with
  | Some e =>
      match py_getitem e "text" with
      | Ok t => t
      | Raise _ => PNone
      end
  | None => PStr "Chat"
  end.

(** What a well-formed journal contributes to the listing: nothing without
    a thread id or without messages, else its thread id and label. *)
Definition listed_row (data : pyval) : option (string * pyval) :=
  match data with
  | PDict d =>
      match dict_get d "thread_id", dict_get d "messages" with
      | Some (PStr t), Some (PList l) =>
          if py_truthy (PStr t) && py_truthy (PList l)
          then Some (t, label_of l)
          else None
      | _, _ => None
      end
  | _ => None
  end.

Definition row_pair (r : string * pyval) : pyval * pyval := (PStr (fst r), snd r).

Lemma first_user_message_label l :
  forallb entry_wf l = true -> StreamlitApp.first_user_message l = Ok (label_of l).
Proof.
  induction l as [|e l IH]; [done |]. simpl forallb.
  intros [He Hl]%andb_true_iff. specialize (IH Hl).
  destruct e as [| | | | |d]; try done. simpl in He.
  destruct (dict_get d "role") as [r|] eqn:Er; [| done].
  destruct (dict_get d "text") as [t|] eqn:Et; [| done].
  unfold label_of in *. simpl. unfold is_user_entry. simpl. rewrite Er.
  destruct (py_eq_str r "user"); [unfold py_getitem; by rewrite Et | exact IH].
Qed.

Lemma tdict_set_key_fresh d t v :
  t ∉ map fst d ->
  tdict_set_key (map row_pair d) (KStr t) (PStr t) v = map row_pair (d ++ [(t, v)]).
Proof.
  induction d as [|[t0 v0] d IH]; simpl; [done |].
  intros Hnin. apply not_elem_of_cons in Hnin as [Hne Hnin].
  unfold same_key. simpl. rewrite bool_decide_eq_false_2 by congruence.
  by rewrite IH.
Qed.

Lemma insert_desc_perm p l : insert_desc p l ≡ₚ p :: l.
Proof.
  induction l as [|q l IH]; simpl; [done |].
  destruct (String.ltb p q); [| done].
  rewrite IH. apply Permutation_swap.
Qed.

Lemma sorted_reverse_perm l : sorted_reverse l ≡ₚ l.
Proof.
  induction l as [|p l IH]; simpl; [done |].
  by rewrite insert_desc_perm, IH.
Qed.

Section Listing.
Context `{JsonCodec}.

Lemma get_all_threads_loop_step p paths threads w :
  journal_wf (load_of (files (w_fs w)) p) = true ->
  StreamlitApp.get_all_threads_loop (p :: paths) threads w =
  match listed_row (load_of (files (w_fs w)) p) with
  | Some (t, label) =>
      StreamlitApp.get_all_threads_loop paths
        (tdict_set_key threads (KStr t) (PStr t) label) w
  | None => StreamlitApp.get_all_threads_loop paths threads w
  end.
Proof.
  intros Hp. simpl StreamlitApp.get_all_threads_loop.
  unfold bind at 1. rewrite _load_memory_run.
  destruct (load_of (files (w_fs w)) p) as [| | | | |d] eqn:Hd; try done.
  simpl in Hp. apply andb_true_iff in Hp as [Htid Hmsgs].
  unfold lift, bind, ret. simpl.
  destruct (dict_get d "thread_id") as [tid|] eqn:Et; [| done].
  destruct tid as [| | |t| |]; try done. simpl.
  destruct (negb (string_eqb t EmptyString)) eqn:Ett; simpl.
  2: { by destruct (dict_get d "messages") as [[]|]. }
  destruct (dict_get d "messages") as [msgs|] eqn:Em; [| done].
  destruct msgs as [| | | |l|]; try done. simpl.
  destruct (negb (Nat.eqb (length l) 0)) eqn:El; simpl; [| done].
  by rewrite first_user_message_label.
Qed.

Lemma get_all_threads_loop_run fs w paths : forall rows,
  files (w_fs w) = fs ->
  Forall (fun p => journal_wf (load_of fs p) = true) paths ->
  NoDup (map fst (rows ++ omap (fun p => listed_row (load_of fs p)) paths)) ->
  StreamlitApp.get_all_threads_loop paths (map row_pair rows) w =
  (Ok (map row_pair (rows ++ omap (fun p => listed_row (load_of fs p)) paths)), w).
Proof.
  intros rows Hfs. revert rows.
  induction paths as [|p paths IH]; intros rows Hwf Hnd.
  - simpl. by rewrite app_nil_r.
  - apply Forall_cons in Hwf as [Hp Hwf].
    rewrite get_all_threads_loop_step by by rewrite Hfs.
    rewrite Hfs. simpl omap in *.
    destruct (listed_row (load_of fs p)) as [[t label]|]; [| by apply IH].
    rewrite tdict_set_key_fresh.
    + rewrite (IH (rows ++ [(t, label)])); [| done |].
      * by rewrite <- app_assoc.
      * by rewrite <- app_assoc.
    + rewrite map_app in Hnd. apply NoDup_app in Hnd as (_ & Hdisj & _).
      intros Hin. apply (Hdisj t Hin). simpl. apply elem_of_cons. by left.
Qed.

(** C6, as the code has it, for the Streamlit listing.  Over journal files
    of the store's shape whose listed thread ids differ from one another,
    [get_all_threads] returns one [(thread_id, label)] entry for each journal
    that has a thread id and a message, and none for the others, so none
    for a journal with a null thread id or an empty message list; the label
    is the text of the journal's first entry with role [user], and ["Chat"]
    where it has none.  It takes the journals in descending order of their
    paths. *)
Theorem C6_get_all_threads_lists_used_journals w :
  Forall (fun p => journal_wf (load_of (files (w_fs w)) p) = true)
    (journal_files (files (w_fs w))) ->
  NoDup (map fst (omap (fun p => listed_row (load_of (files (w_fs w)) p))
                    (sorted_reverse (journal_files (files (w_fs w)))))) ->
  StreamlitApp.get_all_threads w =
    (Ok (map row_pair
           (omap (fun p => listed_row (load_of (files (w_fs w)) p))
              (sorted_reverse (journal_files (files (w_fs w)))))),
     set_dir_exists true w) /\
  (forall d, dict_get d "thread_id" = Some PNone -> listed_row (PDict d) = None) /\
  (forall d, dict_get d "messages" = Some (PList []) -> listed_row (PDict d) = None) /\
  (forall d t e l,
     dict_get d "thread_id" = Some (PStr t) -> t <> EmptyString ->
     dict_get d "messages" = Some (PList (e :: l)) ->
     listed_row (PDict d) = Some (t, label_of (e :: l))).
Proof.
  intros Hwf Hnd. split; [| split; [| split]].
  - unfold StreamlitApp.get_all_threads. unfold bind at 1. simpl.
    unfold bind, glob_conversations, gets. simpl.
    fold (journal_files (files (w_fs w))).
    apply (get_all_threads_loop_run (files (w_fs w)) _ _ []); [done | | done].
    by rewrite sorted_reverse_perm.
  - intros d Hd. simpl. by rewrite Hd.
  - intros d Hd. simpl. rewrite Hd.
    destruct (dict_get d "thread_id") as [[| | |t| |]|]; try done.
    simpl. by rewrite andb_false_r.
  - intros d t e l Ht Hne Hm. simpl. rewrite Ht, Hm.
    apply string_eqb_false in Hne. by rewrite Hne.
Qed.

End Listing.

(** ** A turn of the Streamlit app whose run fails *)

Section FailedTurn.
Context `{JsonCodec}.

(** On a known thread, with a journal that can be appended to, a turn whose
    run fails ends normally with the user's entry as the last entry of the
    journal and the failure shown to the user: no assistant entry is
    written. *)
Lemma streamlit_failed_turn prompt model w tid ms l :
  fsize_limit (w_fs w) = None ->
  ss_thread_id (w_session w) = Some tid ->
  r_threads (w_remote w) !! tid = Some ms ->
  run_status (r_runs (w_remote w) (r_started (w_remote w))) = "failed" ->
  messages_of (load_of (files (w_fs w)) (journal_path tid)) = Some l ->
  exists w',
    StreamlitApp.chat_turn prompt model w = (Ok tt, w') /\
    messages_of (load_of (files (w_fs w')) (journal_path tid)) =
      Some (last_n 20
              (l ++ [journal_entry (w_clock w (w_ticks w) +:+ "+00:00") "user" prompt
                       (Some (r_ids (w_remote w) (S (r_issued (w_remote w)))))])) /\
    UiError ("Run failed: "
             +:+ run_last_error (r_runs (w_remote w) (r_started (w_remote w))))
      ∈ w_ui w'.
Proof.
  destruct w as [[dir fs lim und] clock ticks [threads steps ids issued runs started del]
                   [smsgs sel logs stid] ui].
  cbn [w_fs w_session w_remote w_clock w_ticks fsize_limit files ss_thread_id r_threads
       r_runs r_started r_ids r_issued].
  intros -> -> Hms Hfail Hl.
  unfold StreamlitApp.chat_turn.
  cbv beta iota zeta delta [bind ret modify gets lift raise try_except StreamlitApp.log
    create_agent service_fresh_id messages_create runs_create_and_process
    _memory_path_for_thread _memory_dir mkdir_memory delete_agent
    w_session w_remote w_fs w_ui w_clock w_ticks set_session set_remote
    set_dir_exists add_ui StreamlitApp.session_say StreamlitApp.session_clear_log
    StreamlitApp.session_log StreamlitApp.session_set_thread ss_thread_id
    ss_messages ss_selected_chat ss_log_messages
    r_threads r_steps r_ids r_issued r_runs r_started r_delete_agent_ok
    remote_issue remote_set_thread remote_ran m_id agent_id agent_name
    dir_exists files fsize_limit].
  rewrite Hms. cbv beta iota zeta.
  match goal with
  | |- context [StreamlitApp._append_memory ?p ?r ?t ?m ?w0] =>
      rewrite (streamlit_append_run p r t m w0 l);
        [| split; reflexivity | exact Hl]
  end.
  cbv beta iota zeta delta [wrote set_files set_ticks
    w_session w_remote w_fs w_ui w_clock w_ticks
    r_threads r_steps r_ids r_issued r_runs r_started r_delete_agent_ok
    dir_exists files fsize_limit].
  rewrite lookup_insert_eq. cbv beta iota zeta.
  rewrite Hfail. change (string_eqb "failed" "failed") with true.
  cbv beta iota zeta.
  assert (Hok : json_ok
            (with_messages (load_of fs (journal_path tid))
               (last_n 20
                  (l ++ [journal_entry (clock ticks +:+ "+00:00") "user" prompt
                           (Some (ids (S issued)))]))) = true).
  { apply json_ok_with_messages; [apply json_ok_load_of |].
    apply json_ok_last_n, json_ok_snoc; [| apply json_ok_journal_entry].
    eapply json_ok_messages_of; [apply json_ok_load_of | exact Hl]. }
  destruct del; cbv beta iota zeta; eexists; (split; [reflexivity |]);
    cbv beta iota delta [w_fs files w_ui];
    (split;
     [ change ("memory" +:+ "/conversation_" +:+ tid +:+ ".json")
         with (journal_path tid);
       rewrite load_of_insert_dump by exact Hok;
       by eapply messages_of_with_messages
     | set_solver ]).
Qed.

End FailedTurn.

(** ** The codec reads back what it writes *)

Module PyJsonFacts.
Import PyJson.

#[local] Arguments String.append !_ _ / : simpl nomatch.

Lemma append_assoc (a b c : string) : (a +:+ b) +:+ c = a +:+ (b +:+ c).
Proof. induction a as [|x a IH]; simpl; [done | by rewrite IH]. Qed.

Lemma append_length (a b : string) :
  String.length (a +:+ b) = String.length a + String.length b.
Proof. induction a as [|x a IH]; simpl; [done | by rewrite IH]. Qed.

(** *** Strings *)

Lemma scan_string_escape_char c r :
  scan_string (escape_char c +:+ r) = cons_char c (scan_string r).
Proof. destruct c as [[] [] [] [] [] [] [] []]; reflexivity. Qed.

Lemma scan_string_escape s rest :
  scan_string (escape s +:+ String dquote rest) = Some (s, rest).
Proof.
  induction s as [|c s IH]; [reflexivity |].
  change (escape (String c s)) with (escape_char c +:+ escape s).
  rewrite append_assoc, scan_string_escape_char, IH. reflexivity.
Qed.

Lemma encode_string_append s rest :
  encode_string s +:+ rest = String dquote (escape s +:+ String dquote rest).
Proof. unfold encode_string. simpl. by rewrite append_assoc. Qed.

(** *** Integers *)

(** What may follow a number for it to be read whole: no digit, and no
    start of a fraction or an exponent. *)
Definition tail_ok (rest : string) : Prop :=
  match rest with
  | EmptyString => True
  | String c _ => digit_of c = None /\ starts_number_tail rest = false
  end.

Lemma scan_digits_print d rest :
  tail_ok rest ->
  scan_digits (NilEmpty.string_of_uint d +:+ rest) = (d, rest).
Proof.
  intros Hrest. induction d; simpl; try (by rewrite IHd).
  destruct rest as [|c r]; [done |]. simpl. by destruct Hrest as [-> _].
Qed.

Lemma uint_eqb_refl d : uint_eqb d d = true.
Proof. unfold uint_eqb. by destruct (Decimal.uint_eq_dec d d). Qed.

Lemma uint_eqb_ne d d' : d <> d' -> uint_eqb d d' = false.
Proof. intros Hne. unfold uint_eqb. by destruct (Decimal.uint_eq_dec d d'). Qed.

Lemma scan_unsigned_print d rest :
  d <> Decimal.Nil -> Decimal.unorm d = d -> tail_ok rest ->
  scan_unsigned (NilEmpty.string_of_uint d +:+ rest) = Some (Z.of_uint d, rest).
Proof.
  intros Hnil Hnorm Hrest. unfold scan_unsigned.
  rewrite scan_digits_print by done. simpl.
  by rewrite uint_eqb_ne, Hnorm, uint_eqb_refl.
Qed.

Lemma to_uint_norm p : Decimal.unorm (Pos.to_uint p) = Pos.to_uint p.
Proof.
  rewrite <- (DecimalPos.Unsigned.to_of (Pos.to_uint p)).
  by rewrite DecimalPos.Unsigned.of_to.
Qed.

Lemma of_uint_to_uint p : Z.of_uint (Pos.to_uint p) = Z.pos p.
Proof. unfold Z.of_uint. by rewrite DecimalPos.Unsigned.of_to. Qed.

Lemma scan_unsigned_pos p rest :
  tail_ok rest ->
  scan_unsigned (NilEmpty.string_of_uint (Pos.to_uint p) +:+ rest)
  = Some (Z.pos p, rest).
Proof.
  intros Hrest. rewrite scan_unsigned_print; try done.
  - by rewrite of_uint_to_uint.
  - apply DecimalPos.Unsigned.to_uint_nonnil.
  - apply to_uint_norm.
Qed.

(** The first character of a printed positive number is a digit. *)
Lemma print_uint_head d :
  d <> Decimal.Nil ->
  exists c s, NilEmpty.string_of_uint d = String c s /\
    is_Some (digit_of c).
Proof. destruct d; try done; intros _; eexists _, _; (split; [reflexivity |]); by eexists. Qed.


Definition is_digit (c : ascii) : bool :=
  match digit_of c with
  | Some _ => true
  | None => false
  end.

Lemma print_uint_digit d :
  d <> Decimal.Nil ->
  exists c s, NilEmpty.string_of_uint d = String c s /\ is_digit c = true.
Proof. destruct d; try done; intros _; by eexists _, _. Qed.

(** A text that starts with a digit or a minus sign is read as a number. *)
Lemma scan_once_number n c s :
  is_digit c || Ascii.eqb c "-"%char = true ->
  scan_once (S n) (String c s) =
  match scan_int (String c s) with
  | Some (z, rest) => if starts_number_tail rest then None else Some (PInt z, rest)
  | None => None
  end.
Proof.
  destruct c as [[] [] [] [] [] [] [] []]; intros Hc; try discriminate Hc;
    reflexivity.
Qed.

Lemma digit_not_ws c : is_digit c || Ascii.eqb c "-"%char = true ->
  is_ws c = false /\ Ascii.eqb c "]"%char = false /\ Ascii.eqb c "}"%char = false.
Proof.
  destruct c as [[] [] [] [] [] [] [] []]; intros Hc; try discriminate Hc; done.
Qed.

Lemma tail_ok_number_tail rest : tail_ok rest -> starts_number_tail rest = false.
Proof. destruct rest; [done | by intros [_ ?]]. Qed.

Lemma scan_int_encode z rest :
  tail_ok rest -> scan_int (encode_int z +:+ rest) = Some (z, rest).
Proof.
  intros Hrest. unfold encode_int. destruct z as [|p|p]; simpl.
  - change (String "0" rest)
      with (NilEmpty.string_of_uint (Decimal.D0 Decimal.Nil) +:+ rest).
    by rewrite scan_unsigned_print.
  - destruct (print_uint_digit (Pos.to_uint p)) as (c & s & Hcs & Hc);
      [apply DecimalPos.Unsigned.to_uint_nonnil |].
    pose proof (scan_unsigned_pos p rest Hrest) as Hscan.
    rewrite Hcs in *. simpl in *.
    assert (Ascii.eqb c "-" = false) as ->; [| exact Hscan].
    clear -Hc. by destruct c as [[] [] [] [] [] [] [] []].
  - by rewrite scan_unsigned_pos.
Qed.

Lemma encode_int_head z rest :
  exists c s, encode_int z +:+ rest = String c s /\
    is_digit c || Ascii.eqb c "-"%char = true.
Proof.
  unfold encode_int. destruct z as [|p|p]; simpl.
  - by eexists _, _.
  - destruct (print_uint_digit (Pos.to_uint p)) as (c & s & Hcs & Hc);
      [apply DecimalPos.Unsigned.to_uint_nonnil |].
    rewrite Hcs. simpl. eexists _, _. split; [done |]. by rewrite Hc.
  - by eexists _, _.
Qed.

Lemma scan_once_int n z rest :
  tail_ok rest -> scan_once (S n) (encode_int z +:+ rest) = Some (PInt z, rest).
Proof.
  intros Hrest.
  destruct (encode_int_head z rest) as (c & s & Hcs & Hc).
  pose proof (scan_int_encode z rest Hrest) as Hscan.
  rewrite Hcs in *. rewrite scan_once_number, Hscan by done.
  by rewrite tail_ok_number_tail.
Qed.

(** *** White space *)

Lemma skip_ws_spaces n s : skip_ws (spaces n +:+ s) = skip_ws s.
Proof. induction n as [|n IH]; [done | exact IH]. Qed.

Lemma skip_ws_newline_indent lvl s : skip_ws (newline_indent lvl +:+ s) = skip_ws s.
Proof. unfold newline_indent. simpl. apply skip_ws_spaces. Qed.

Lemma skip_ws_head c s : is_ws c = false -> skip_ws (String c s) = String c s.
Proof. intros Hc. simpl. by rewrite Hc. Qed.

(** A printed value starts with a character that is no white space and
    closes no array or object. *)
Lemma dumps_head lvl v rest :
  exists c s, dumps_at lvl v +:+ rest = String c s /\
    is_ws c = false /\ Ascii.eqb c "]"%char = false /\ Ascii.eqb c "}"%char = false.
Proof.
  destruct v as [|[]|z|str|[|x xs]|[|[k x] kxs]]; try by eexists _, _.
  destruct (encode_int_head z rest) as (c & s & Hcs & Hc).
  exists c, s. split; [exact Hcs |]. by apply digit_not_ws.
Qed.

Lemma skip_ws_dumps lvl v rest :
  skip_ws (dumps_at lvl v +:+ rest) = dumps_at lvl v +:+ rest.
Proof.
  destruct (dumps_head lvl v rest) as (c & s & -> & Hc & _). by apply skip_ws_head.
Qed.

Lemma starts_with_dumps lvl v rest :
  starts_with "]"%char (dumps_at lvl v +:+ rest) = false /\
  starts_with "}"%char (dumps_at lvl v +:+ rest) = false.
Proof. by destruct (dumps_head lvl v rest) as (c & s & -> & _ & ? & ?). Qed.



(** *** Values *)

Fixpoint size (v : pyval) : nat :=
  match v with
  | PList l =>
      S ((fix sz (l : list pyval) : nat :=
            match l with
            | [] => 0
            | x :: l' => S (size x + sz l')
            end) l)
  | PDict d =>
      S ((fix sz (d : list (string * pyval)) : nat :=
            match d with
            | [] => 0
            | kx :: d' => S (size (snd kx) + sz d')
            end) d)
  | _ => 1
  end.

Fixpoint items_size (l : list pyval) : nat :=
  match l with
  | [] => 0
  | x :: l' => S (size x + items_size l')
  end.

Fixpoint members_size (d : list (string * pyval)) : nat :=
  match d with
  | [] => 0
  | kx :: d' => S (size (snd kx) + members_size d')
  end.

Lemma size_list l : size (PList l) = S (items_size l).
Proof. reflexivity. Qed.

Lemma size_dict d : size (PDict d) = S (members_size d).
Proof. reflexivity. Qed.

Lemma dumps_list lvl x xs :
  dumps_at lvl (PList (x :: xs)) =
  "[" +:+ newline_indent (S lvl) +:+ dumps_at (S lvl) x
  +:+ dump_items (S lvl) xs +:+ newline_indent lvl +:+ "]".
Proof.
  cbn [dumps_at]. do 4 f_equal.
  induction xs as [|y ys IH]; [done |]. cbn [dump_items]. by rewrite <- IH.
Qed.

Lemma dumps_dict lvl k x kxs :
  dumps_at lvl (PDict ((k, x) :: kxs)) =
  "{" +:+ newline_indent (S lvl) +:+ encode_string k +:+ ": "
  +:+ dumps_at (S lvl) x
  +:+ dump_members (S lvl) kxs +:+ newline_indent lvl +:+ "}".
Proof.
  cbn [dumps_at]. do 6 f_equal.
  induction kxs as [|[k' y] ys IH]; [done |]. cbn [dump_members]. by rewrite <- IH.
Qed.

(** The statement of the round trip for values that [fuel] covers. *)
Definition reads_back (fuel : nat) : Prop :=
  forall m v lvl rest,
    m <= fuel -> json_ok v = true -> size v <= m -> tail_ok rest ->
    scan_once m (dumps_at lvl v +:+ rest) = Some (v, rest).

Lemma starts_with_cons c c' s : starts_with c (String c' s) = Ascii.eqb c' c.
Proof. reflexivity. Qed.

Lemma string_drop_cons c s : string_drop 1 (String c s) = s.
Proof. by destruct s. Qed.

Lemma tail_ok_newline_indent lvl s : tail_ok (newline_indent lvl +:+ s).
Proof. done. Qed.

Lemma tail_ok_comma s : tail_ok (String ","%char s).
Proof. done. Qed.

Lemma scan_items_dumps n L lvl rest :
  reads_back n ->
  forall xs x m,
    m <= S n ->
    forallb json_ok (x :: xs) = true ->
    items_size (x :: xs) <= m ->
    scan_items m
      (dumps_at L x +:+ dump_items L xs +:+ newline_indent lvl +:+ String "]" rest)
    = Some (x :: xs, rest).
Proof.
  intros IH xs. induction xs as [|y ys IHxs]; intros x m Hm Hok Hsize.
  - destruct m as [|m']; [simpl in Hsize; lia |].
    apply andb_true_iff in Hok as [Hx _]. simpl in Hsize.
    cbn [scan_items dump_items].
    change (EmptyString +:+ ?s) with s.
    rewrite (IH m' x L _ ltac:(lia) Hx ltac:(lia) (tail_ok_newline_indent _ _)).
    rewrite skip_ws_newline_indent. by simpl.
  - destruct m as [|m']; [simpl in Hsize; lia |].
    apply andb_true_iff in Hok as [Hx Hok]. cbn [items_size] in Hsize.
    cbn [scan_items dump_items]. rewrite !append_assoc.
    change ("," +:+ ?s) with (String ","%char s).
    rewrite (IH m' x L _ ltac:(lia) Hx ltac:(lia) (tail_ok_comma _)).
    rewrite !(skip_ws_head ","%char) by done.
    rewrite !starts_with_cons, string_drop_cons. simpl Ascii.eqb. cbv iota.
    rewrite skip_ws_newline_indent, skip_ws_dumps.
    rewrite (IHxs y m' ltac:(lia) Hok); [done | simpl; lia].
Qed.



Lemma string_eqb_sym a b : string_eqb a b = string_eqb b a.
Proof.
  destruct (string_eqb b a) eqn:E.
  - apply string_eqb_true in E as ->. apply string_eqb_refl.
  - apply string_eqb_false. apply string_eqb_false in E. congruence.
Qed.

Lemma nodup_keys_middle l1 k l2 :
  nodup_keys (l1 ++ k :: l2) = true ->
  existsb (string_eqb k) l1 = false.
Proof.
  induction l1 as [|a l1 IH]; simpl; [done |].
  intros [Ha Hnd]%andb_true_iff. rewrite (IH Hnd), orb_false_r.
  apply negb_true_iff in Ha. rewrite existsb_app in Ha. simpl in Ha.
  apply orb_false_iff in Ha as [_ Ha]. apply orb_false_iff in Ha as [Ha _].
  by rewrite string_eqb_sym.
Qed.

Lemma dict_set_fresh acc k x kxs :
  nodup_keys (map fst (acc ++ (k, x) :: kxs)) = true ->
  dict_set acc k x = acc ++ [(k, x)].
Proof.
  intros Hnd. apply dict_set_new, dict_get_keys.
  rewrite map_app in Hnd. simpl in Hnd. by eapply nodup_keys_middle.
Qed.

Lemma scan_members_dumps n L lvl rest :
  reads_back n ->
  forall kxs k x m acc,
    m <= S n ->
    nodup_keys (map fst (acc ++ (k, x) :: kxs)) = true ->
    forallb (fun kv => json_ok (snd kv)) ((k, x) :: kxs) = true ->
    members_size ((k, x) :: kxs) <= m ->
    scan_members m
      (encode_string k +:+ ": " +:+ dumps_at L x +:+ dump_members L kxs
       +:+ newline_indent lvl +:+ String "}" rest) acc
    = Some (acc ++ (k, x) :: kxs, rest).
Proof.
  intros IH kxs. induction kxs as [|[k' y] ys IHkxs]; intros k x m acc Hm Hnd Hok Hsize.
  - destruct m as [|m']; [simpl in Hsize; lia |].
    apply andb_true_iff in Hok as [Hx _]. simpl in Hx, Hsize.
    cbn [scan_members dump_members]. rewrite encode_string_append.
    rewrite starts_with_cons, string_drop_cons, scan_string_escape.
    change (Ascii.eqb dquote dquote) with true. cbv iota.
    change (": " +:+ ?s) with (String ":"%char (String " "%char s)).
    rewrite (skip_ws_head ":"%char) by done.
    rewrite starts_with_cons, string_drop_cons.
    change (Ascii.eqb ":" ":") with true. cbv iota.
    change (skip_ws (String " "%char ?s)) with (skip_ws s).
    rewrite skip_ws_dumps. change (EmptyString +:+ ?s) with s.
    rewrite (IH m' x L _ ltac:(lia) Hx ltac:(lia) (tail_ok_newline_indent _ _)).
    rewrite skip_ws_newline_indent. simpl.
    by rewrite (dict_set_fresh acc k x []).
  - destruct m as [|m']; [simpl in Hsize; lia |].
    apply andb_true_iff in Hok as [Hx Hok]. simpl in Hx. cbn [members_size snd] in Hsize.
    cbn [scan_members dump_members]. rewrite encode_string_append.
    rewrite starts_with_cons, string_drop_cons, scan_string_escape.
    change (Ascii.eqb dquote dquote) with true. cbv iota.
    change (": " +:+ ?s) with (String ":"%char (String " "%char s)).
    rewrite (skip_ws_head ":"%char) by done.
    rewrite starts_with_cons, string_drop_cons.
    change (Ascii.eqb ":" ":") with true. cbv iota.
    change (skip_ws (String " "%char ?s)) with (skip_ws s).
    rewrite skip_ws_dumps. rewrite !append_assoc.
    change ("," +:+ ?s) with (String ","%char s).
    rewrite (IH m' x L _ ltac:(lia) Hx ltac:(lia) (tail_ok_comma _)).
    rewrite !(skip_ws_head ","%char) by done.
    rewrite !starts_with_cons, string_drop_cons. simpl Ascii.eqb. cbv iota.
    rewrite skip_ws_newline_indent.
    rewrite (dict_set_fresh acc k x ((k', y) :: ys)) by done.
    change (skip_ws (encode_string k' +:+ ?s)) with (encode_string k' +:+ s).
    rewrite (IHkxs k' y m' (acc ++ [(k, x)]) ltac:(lia)).
    + by rewrite <- app_assoc.
    + by rewrite <- app_assoc.
    + done.
    + simpl in *. lia.
Qed.

Lemma skip_ws_encode_string k s :
  skip_ws (encode_string k +:+ s) = encode_string k +:+ s.
Proof. rewrite encode_string_append. by apply skip_ws_head. Qed.

Lemma starts_with_encode_string k s :
  starts_with "}"%char (encode_string k +:+ s) = false.
Proof. by rewrite encode_string_append. Qed.

Lemma scan_once_dumps fuel : reads_back fuel.
Proof.
  induction fuel as [|n IH]; intros m v lvl rest Hm Hok Hsize Hrest.
  { destruct v; simpl in Hsize; lia. }
  destruct (decide (m <= n)) as [Hle|Hgt]; [by apply IH |].
  assert (m = S n) as -> by lia. clear Hm Hgt.
  destruct v as [|[]|z|str|[|x xs]|[|[k x] kxs]]; try reflexivity.
  - by apply scan_once_int.
  - cbn [dumps_at]. rewrite encode_string_append. cbn [scan_once].
    change (Ascii.eqb dquote dquote) with true. cbv iota.
    by rewrite scan_string_escape.
  - rewrite dumps_list, size_list in *. rewrite !append_assoc.
    change ("[" +:+ ?s) with (String "["%char s). cbn [scan_once].
    change (Ascii.eqb "[" dquote) with false.
    change (Ascii.eqb "[" "[") with true. cbv iota.
    rewrite skip_ws_newline_indent, skip_ws_dumps.
    destruct (starts_with_dumps (S lvl) x
                (dump_items (S lvl) xs +:+ newline_indent lvl +:+ "]" +:+ rest))
      as [-> _].
    change ("]" +:+ rest) with (String "]"%char rest).
    by rewrite (scan_items_dumps n (S lvl) lvl rest IH xs x n ltac:(lia) Hok ltac:(lia)).
  - rewrite dumps_dict, size_dict in *. rewrite !append_assoc.
    change ("{" +:+ ?s) with (String "{"%char s). cbn [scan_once].
    change (Ascii.eqb "{" dquote) with false.
    change (Ascii.eqb "{" "[") with false.
    change (Ascii.eqb "{" "{") with true. cbv iota.
    rewrite skip_ws_newline_indent, skip_ws_encode_string.
    rewrite starts_with_encode_string.
    change ("}" +:+ rest) with (String "}"%char rest).
    simpl in Hok. apply andb_true_iff in Hok as [Hnd Hok].
    by rewrite (scan_members_dumps n (S lvl) lvl rest IH kxs k x n [] ltac:(lia) Hnd
                  Hok ltac:(lia)).
Qed.

End PyJsonFacts.

Module PyJsonLaws.
Import PyJson PyJsonFacts.

#[local] Arguments String.append !_ _ / : simpl nomatch.

Lemma append_nil_r (a : string) : a +:+ EmptyString = a.
Proof. induction a as [|x a IH]; simpl; [done | by rewrite IH]. Qed.

Lemma newline_indent_length lvl : 1 <= String.length (newline_indent lvl).
Proof. simpl. lia. Qed.

Lemma encode_int_length z : 1 <= String.length (encode_int z).
Proof.
  destruct (encode_int_head z EmptyString) as (c & s & Hcs & _).
  rewrite append_nil_r in Hcs. rewrite Hcs. simpl. lia.
Qed.

(** A value prints on at least as many characters as it has nodes. *)
Lemma size_le_length n : forall v lvl,
  size v <= n -> size v <= String.length (dumps_at lvl v).
Proof.
  induction n as [|n IH]; intros v lvl Hn.
  { destruct v; simpl in Hn; lia. }
  assert (Hitems : forall L xs, items_size xs <= n ->
            items_size xs <= String.length (dump_items L xs)).
  { intros L xs. induction xs as [|y ys IHys]; intros Hys; [simpl; lia |].
    cbn [dump_items items_size] in *. rewrite !append_length.
    pose proof (IH y L ltac:(lia)). pose proof (IHys ltac:(lia)).
    pose proof (newline_indent_length L). simpl String.length at 1. lia. }
  assert (Hmembers : forall L kxs, members_size kxs <= n ->
            members_size kxs <= String.length (dump_members L kxs)).
  { intros L kxs. induction kxs as [|[k y] ys IHys]; intros Hys; [simpl; lia |].
    cbn [dump_members members_size snd] in *. rewrite !append_length.
    pose proof (IH y L ltac:(lia)). pose proof (IHys ltac:(lia)).
    pose proof (newline_indent_length L). simpl String.length at 1. lia. }
  destruct v as [|[]|z|str|[|x xs]|[|[k x] kxs]]; try (simpl; lia).
  - pose proof (encode_int_length z). simpl. lia.
  - rewrite dumps_list, size_list in *. cbn [items_size] in *.
    rewrite !append_length.
    pose proof (IH x (S lvl) ltac:(lia)). pose proof (Hitems (S lvl) xs ltac:(lia)).
    pose proof (newline_indent_length (S lvl)). pose proof (newline_indent_length lvl).
    simpl String.length at 1. lia.
  - rewrite dumps_dict, size_dict in *. cbn [members_size snd] in *.
    rewrite !append_length.
    pose proof (IH x (S lvl) ltac:(lia)). pose proof (Hmembers (S lvl) kxs ltac:(lia)).
    pose proof (newline_indent_length (S lvl)). pose proof (newline_indent_length lvl).
    simpl String.length at 1. lia.
Qed.

(** The round trip: what [dumps] writes, [loads] reads back. *)
Lemma loads_dumps v : json_ok v = true -> loads (dumps v) = Some v.
Proof.
  intros Hok. unfold loads, dumps.
  pose proof (skip_ws_dumps 0 v EmptyString) as Hskip.
  rewrite append_nil_r in Hskip. rewrite Hskip.
  pose proof (scan_once_dumps (S (String.length (dumps_at 0 v)))
                (S (String.length (dumps_at 0 v))) v 0 EmptyString) as Hscan.
  rewrite append_nil_r in Hscan. rewrite Hscan; try done.
  pose proof (size_le_length (size v) v 0). lia.
Qed.



(** What the decoder returns is well formed: it builds every dict with
    [dict_set]. *)
Lemma scan_ok fuel :
  (forall s v rest, scan_once fuel s = Some (v, rest) -> json_ok v = true) /\
  (forall s l rest, scan_items fuel s = Some (l, rest) -> forallb json_ok l = true) /\
  (forall s acc d rest,
     json_ok (PDict acc) = true ->
     scan_members fuel s acc = Some (d, rest) -> json_ok (PDict d) = true).
Proof.
  induction fuel as [|n (IHonce & IHitems & IHmembers)]; [done |].
  split; [| split].
  - intros s v rest Hscan. cbn [scan_once] in Hscan.
    repeat case_match; simplify_eq; try done.
    + by eapply IHitems.
    + by eapply (IHmembers _ []).
  - intros s l rest Hscan. cbn [scan_items] in Hscan.
    repeat case_match; simplify_eq. 
    + simpl. erewrite IHonce by done. done.
    + simpl. erewrite IHonce by done. by eapply IHitems.
  - intros s acc d rest Hacc Hscan. cbn [scan_members] in Hscan.
    repeat case_match; simplify_eq.
    + apply json_ok_dict_set; [done | by eapply IHonce].
    + eapply IHmembers; [| done].
      apply json_ok_dict_set; [done | by eapply IHonce].
Qed.

Lemma loads_ok s v : loads s = Some v -> json_ok v = true.
Proof.
  unfold loads. intros Hloads. repeat case_match; simplify_eq.
  by eapply (proj1 (scan_ok _)).
Qed.

End PyJsonLaws.

(** Python's codec, for a text that is a sequence of characters. *)
#[global] Instance py_json : JsonCodec := {|
  json_dump := PyJson.dumps;
  json_load := PyJson.loads;
  json_load_dump := PyJsonLaws.loads_dumps;
  json_load_ok := PyJsonLaws.loads_ok
|}.

(** * Concrete runs *)

(** A world to run the scripts in: an empty [memory] directory, a clock, a
    service that knows no thread yet. *)
Definition clock0 (n : nat) : string :=
  nth n ["2025-01-01T10:00:00.000001"; "2025-01-01T10:00:07.000002";
         "2025-01-01T10:01:00.000003"; "2025-01-01T10:01:09.000004"]
    "2025-01-01T11:00:00.000000".

Definition run_failed : run_result :=
  {| run_id := "run_1"; run_status := "failed";
     run_last_error := "rate limit exceeded";
     run_replies := []; run_steps := [] |}.

Definition remote0 : remote :=
  {| r_threads := ∅; r_steps := ∅;
     r_ids := fun n => nth n ["id_a"; "id_b"; "id_c"; "id_d"] "id_z";
     r_issued := 0;
     r_runs := fun _ => run_failed;
     r_started := 0;
     r_delete_agent_ok := true |}.

Definition session0 : session :=
  {| ss_messages := []; ss_selected_chat := "--- Start a new chat ---";
     ss_log_messages := []; ss_thread_id := None |}.

Definition world0 : world :=
  {| w_fs := {| dir_exists := true; files := ∅; fsize_limit := None;
                undeletable := ∅ |};
     w_clock := clock0; w_ticks := 0; w_remote := remote0;
     w_session := session0; w_ui := [] |}.

Definition with_files (fs : gmap string string) (w : world) : world :=
  set_files (fun _ => fs) w.

Definition with_limit (lim : option nat) (w : world) : world :=
  {| w_fs := {| dir_exists := dir_exists (w_fs w); files := files (w_fs w);
                fsize_limit := lim; undeletable := undeletable (w_fs w) |};
     w_clock := w_clock w; w_ticks := w_ticks w; w_remote := w_remote w;
     w_session := w_session w; w_ui := w_ui w |}.

Definition path_t1 : string := journal_path "t1".

Definition hello_ops : list append_args :=
  [ {| a_role := "user"; a_text := "Hello"; a_message_id := Some "m1" |};
    {| a_role := "assistant"; a_text := "Hi there"; a_message_id := Some "m2" |} ].

Example path_t1_is : path_t1 = "memory/conversation_t1.json".
Proof. reflexivity. Qed.

(** A list is known by its length and its items. *)
Lemma list_pinned {A B : Type} (f : nat -> A -> B) (ops : list A) (l : list B) :
  length l = length ops ->
  (forall i a, ops !! i = Some a -> l !! i = Some (f i a)) ->
  l = imap f ops.
Proof.
  intros Hlen Hitems. apply list_eq. intros i. rewrite list_lookup_imap.
  destruct (ops !! i) as [a|] eqn:Ea; simpl.
  - by apply Hitems.
  - apply lookup_ge_None. apply lookup_ge_None in Ea. lia.
Defined.

(** The scenario of the specification: two appends to a new location. *)
Lemma C1_witness :
  (exists w',
     run_appends ClientPython._append_memory path_t1 hello_ops world0 = (Ok tt, w') /\
     _load_memory path_t1 w' =
       (Ok (PDict
              [("thread_id", PNone);
               ("messages",
                PList [PDict [("ts", PStr "2025-01-01T10:00:00.000001Z");
                              ("role", PStr "user");
                              ("text", PStr "Hello");
                              ("message_id", PStr "m1")];
                       PDict [("ts", PStr "2025-01-01T10:00:07.000002Z");
                              ("role", PStr "assistant");
                              ("text", PStr "Hi there");
                              ("message_id", PStr "m2")]])]),
        w')) /\
  (exists w',
     run_appends StreamlitApp._append_memory path_t1 hello_ops world0 = (Ok tt, w') /\
     _load_memory path_t1 w' =
       (Ok (PDict
              [("thread_id", PNone);
               ("messages",
                PList [PDict [("ts", PStr "2025-01-01T10:00:00.000001+00:00");
                              ("role", PStr "user");
                              ("text", PStr "Hello");
                              ("message_id", PStr "m1")];
                       PDict [("ts", PStr "2025-01-01T10:00:07.000002+00:00");
                              ("role", PStr "assistant");
                              ("text", PStr "Hi there");
                              ("message_id", PStr "m2")]])]),
        w')).
Proof.
  destruct (C1_load_after_appends path_t1 hello_ops world0)
    as [(w1 & msgs1 & Hrun1 & Hload1 & Hlen1 & Hitems1)
        (w2 & msgs2 & Hrun2 & Hload2 & Hlen2 & Hitems2)].
  - split; reflexivity.
  - reflexivity.
  - split.
    + exists w1. split; [exact Hrun1 |].
      rewrite Hload1, (list_pinned _ _ _ Hlen1 Hitems1). reflexivity.
    + exists w2. split; [exact Hrun2 |].
      rewrite Hload2.
      rewrite (list_pinned
                 (fun i op =>
                    PDict [("ts", PStr (w_clock world0 (w_ticks world0 + i) +:+ "+00:00"));
                           ("role", PStr (a_role op));
                           ("text", PStr (a_text op));
                           ("message_id",
                            match a_message_id op with
                            | Some mid => PStr mid
                            | None => PNone
                            end)])
                 hello_ops msgs2 Hlen2).
      * reflexivity.
      * intros i op Hop. specialize (Hitems2 i op Hop (Nat.le_0_l i)).
        by rewrite Nat.sub_0_r in Hitems2.
Defined.

(** Twenty-two appends to a new location. *)
Definition many_ops : list append_args :=
  map (fun n => {| a_role := "user"; a_text := "question";
                   a_message_id := Some (String (ascii_of_nat (65 + n)) EmptyString) |})
      (seq 0 22).

(** Of the twenty-two entries, with the message ids [A] to [V], the journal
    holds the last twenty: [C] to [V]. *)
Lemma C3_witness :
  exists w' data kept,
    run_appends StreamlitApp._append_memory path_t1 many_ops world0 = (Ok tt, w') /\
    _load_memory path_t1 w' = (Ok data, w') /\
    messages_of data = Some kept /\
    length kept = 20 /\
    omap (fun e => match e with
                   | PDict d => dict_get d "message_id"
                   | _ => None
                   end) kept
    = map PStr ["C"; "D"; "E"; "F"; "G"; "H"; "I"; "J"; "K"; "L";
                "M"; "N"; "O"; "P"; "Q"; "R"; "S"; "T"; "U"; "V"].
Proof.
  destruct (C3_trim_keeps_last_20 path_t1
              {| a_role := "user"; a_text := "question"; a_message_id := Some "A" |}
              (tail many_ops) world0 [])
    as (w' & data & new & kept & Hrun & Hload & Hm & Hlen & Hitems & Hkept & Hklen & _).
  - split; reflexivity.
  - reflexivity.
  - exists w', data, kept.
    split; [exact Hrun |]. split; [exact Hload |]. split; [exact Hm |].
    split; [exact Hklen |].
    rewrite Hkept, (list_pinned _ _ _ Hlen Hitems). reflexivity.
Defined.

(** The journal of one finished exchange, as the scripts write it. *)
Definition journal_t1 : pyval :=
  PDict [("thread_id", PStr "t1");
         ("messages",
          PList [journal_entry "2025-01-01T09:00:00.000001Z" "user" "Hi" (Some "m1");
                 journal_entry "2025-01-01T09:00:05.000002Z" "assistant" "Hello!"
                   (Some "m2")])].

Definition world_t1 : world :=
  with_files {[ path_t1 := json_dump journal_t1 ]} world0.

(** The same world on a system that lets no file grow past 300 characters:
    the journal there takes 298, the journal with one more entry 424. *)
Definition world_t1_limited : world := with_limit (Some 300) world_t1.

Example journal_t1_length : String.length (json_dump journal_t1) = 298.
Proof. reflexivity. Qed.

Lemma C4_witness :
  (exists w' new,
     ClientPython._append_memory path_t1 "user" "Hello" (Some "m3") world_t1_limited =
       (match fsize_limit (w_fs world_t1_limited) with
        | Some lim => if Nat.ltb lim (String.length new) then Raise OSError else Ok tt
        | None => Ok tt
        end, w') /\
     json_load new =
       Some (with_messages (load_of (files (w_fs world_t1_limited)) path_t1)
               ([journal_entry "2025-01-01T09:00:00.000001Z" "user" "Hi" (Some "m1");
                 journal_entry "2025-01-01T09:00:05.000002Z" "assistant" "Hello!"
                   (Some "m2")]
                ++ [journal_entry (clock0 0 +:+ "Z") "user" "Hello" (Some "m3")])) /\
     files (w_fs w') !! path_t1 =
       Some (match fsize_limit (w_fs world_t1_limited) with
             | Some lim =>
                 if Nat.ltb lim (String.length new) then substring 0 lim new else new
             | None => new
             end)) /\
  (exists w' new,
     StreamlitApp._append_memory path_t1 "user" "Hello" (Some "m3") world_t1_limited =
       (match fsize_limit (w_fs world_t1_limited) with
        | Some lim => if Nat.ltb lim (String.length new) then Raise OSError else Ok tt
        | None => Ok tt
        end, w') /\
     json_load new =
       Some (with_messages (load_of (files (w_fs world_t1_limited)) path_t1)
               (last_n 20
                  ([journal_entry "2025-01-01T09:00:00.000001Z" "user" "Hi" (Some "m1");
                    journal_entry "2025-01-01T09:00:05.000002Z" "assistant" "Hello!"
                      (Some "m2")]
                   ++ [journal_entry (clock0 0 +:+ "+00:00") "user" "Hello"
                         (Some "m3")]))) /\
     files (w_fs w') !! path_t1 =
       Some (match fsize_limit (w_fs world_t1_limited) with
             | Some lim =>
                 if Nat.ltb lim (String.length new) then substring 0 lim new else new
             | None => new
             end)).
Proof.
  apply (C4_append_rewrites_file_in_place path_t1 "user" "Hello" (Some "m3")
           world_t1_limited).
  - reflexivity.
  - vm_compute. reflexivity.
Defined.

(** C4 as stated fails: the append below fails part-way, and the journal
    file, which held a journal that loaded, is left holding the first 300
    characters of the new text, which do not parse; the two stored entries
    are gone from what a load returns. *)
Lemma C4_counterexample :
  fst (ClientPython._append_memory path_t1 "user" "Hello" (Some "m3") world_t1_limited)
    = Raise OSError /\
  files (w_fs world_t1_limited) !! path_t1 = Some (json_dump journal_t1) /\
  fst (_load_memory path_t1 world_t1_limited) = Ok journal_t1 /\
  (exists left_over,
     files (w_fs (snd (ClientPython._append_memory path_t1 "user" "Hello" (Some "m3")
                         world_t1_limited))) !! path_t1 = Some left_over /\
     String.length left_over = 300 /\
     left_over <> json_dump journal_t1 /\
     json_load left_over = None) /\
  fst (_load_memory path_t1
         (snd (ClientPython._append_memory path_t1 "user" "Hello" (Some "m3")
                 world_t1_limited)))
    = Ok fresh_journal.
Proof.
  split; [vm_compute; reflexivity |].
  split; [vm_compute; reflexivity |].
  split; [vm_compute; reflexivity |].
  split; [| vm_compute; reflexivity].
  eexists. split; [vm_compute; reflexivity |].
  split; [vm_compute; reflexivity |].
  split; [| vm_compute; reflexivity].
  intros Heq. apply (f_equal String.length) in Heq. vm_compute in Heq. discriminate.
Qed.

(** A journal file that holds a JSON document that is no journal. *)
Definition world_list_file : world :=
  with_files {[ path_t1 := "[]" ]} world0.

(** C2 as stated fails: a file that parses, but not as a journal, is not
    replaced by the fresh journal: the load returns the parsed list, and an
    append to that location then raises. *)
Lemma C2_counterexample :
  files (w_fs world_list_file) !! path_t1 = Some "[]" /\
  fst (_load_memory path_t1 world_list_file) = Ok (PList []) /\
  PList [] <> fresh_journal /\
  fst (ClientPython._append_memory path_t1 "user" "Hello" (Some "m1") world_list_file)
    = Raise AttributeError /\
  fst (StreamlitApp.get_all_threads world_list_file) = Raise AttributeError.
Proof. repeat split; try (vm_compute; reflexivity). discriminate. Qed.




Lemma C8_witness :
  (exists w',
     ClientV2._append_memory path_t1 "user" "Hello" (Some "m3") world_t1 = (Ok tt, w') /\
     messages_of (load_of (files (w_fs w')) path_t1) =
       Some ([journal_entry "2025-01-01T09:00:00.000001Z" "user" "Hi" (Some "m1");
              journal_entry "2025-01-01T09:00:05.000002Z" "assistant" "Hello!"
                (Some "m2")]
             ++ [journal_entry (clock0 0 +:+ "Z") "user" "Hello" (Some "m3")]) /\
     forall q, q <> path_t1 -> files (w_fs w') !! q = files (w_fs world_t1) !! q) /\
  (exists w' k,
     StreamlitApp._append_memory path_t1 "user" "Hello" (Some "m3") world_t1
       = (Ok tt, w') /\
     messages_of (load_of (files (w_fs w')) path_t1) =
       Some (drop k
               ([journal_entry "2025-01-01T09:00:00.000001Z" "user" "Hi" (Some "m1");
                 journal_entry "2025-01-01T09:00:05.000002Z" "assistant" "Hello!"
                   (Some "m2")]
                ++ [journal_entry (clock0 0 +:+ "+00:00") "user" "Hello" (Some "m3")])) /\
     k = 2 + 1 - 20 /\
     forall q, q <> path_t1 -> files (w_fs w') !! q = files (w_fs world_t1) !! q) /\
  (exists w',
     StreamlitApp.delete_thread "t1" world_t1 = (Ok tt, w') /\
     (files (w_fs w') = delete (journal_path "t1") (files (w_fs world_t1)) \/
      files (w_fs w') = files (w_fs world_t1)) /\
     (journal_path "t1" ∉ undeletable (w_fs world_t1) ->
      files (w_fs w') !! journal_path "t1" = None) /\
     forall q, q <> journal_path "t1" ->
       files (w_fs w') !! q = files (w_fs world_t1) !! q).
Proof.
  apply (C8_journal_is_append_only path_t1 "user" "Hello" (Some "m3") "t1" world_t1).
  - split; reflexivity.
  - vm_compute. reflexivity.
Defined.

Lemma C9_witness :
  exists r w',
    ClientPython.main_prepare_memory "t1" world_t1 = (r, w') /\
    ClientV2.main_prepare_memory "t1" world_t1 = (r, w') /\
    stored_messages (load_of (files (w_fs w')) (journal_path "t1")) =
      stored_messages (load_of (files (w_fs world_t1)) (journal_path "t1")) /\
    (forall d, load_of (files (w_fs world_t1)) (journal_path "t1") = PDict d ->
       r = Ok (journal_path "t1") /\
       load_of (files (w_fs w')) (journal_path "t1") =
         PDict (dict_set d "thread_id" (PStr "t1")) /\
       forall k, k <> "thread_id" ->
         dict_get (dict_set d "thread_id" (PStr "t1")) k = dict_get d k).
Proof.
  apply (C9_stamp_changes_only_thread_id "t1" world_t1). reflexivity.
Defined.

(** *** Listings *)

Definition journal_hello : pyval :=
  PDict [("thread_id", PStr "t1");
         ("messages",
          PList [journal_entry "2025-01-01T09:00:00.000001Z" "user" "Hello" (Some "m1");
                 journal_entry "2025-01-01T09:00:05.000002Z" "assistant" "Hi there"
                   (Some "m2")])].

Definition journal_azure : pyval :=
  PDict [("thread_id", PStr "t2");
         ("messages",
          PList [journal_entry "2025-01-02T09:00:00.000001Z" "user" "What is Azure?"
                   (Some "m3")])].

(** What [main_prepare_memory] leaves for a thread that has no message
    yet. *)
Definition journal_placeholder : pyval :=
  PDict [("thread_id", PStr "t3"); ("messages", PList [])].

(** What the Streamlit app's own appends leave: it never stamps a thread
    id. *)
Definition journal_unstamped : pyval :=
  PDict [("thread_id", PNone);
         ("messages",
          PList [journal_entry "2025-01-03T09:00:00.000001+00:00" "user" "Anyone?"
                   (Some "m4")])].

Definition world_listing : world :=
  with_files
    (<[ journal_path "t1" := json_dump journal_hello ]>
       (<[ journal_path "t2" := json_dump journal_azure ]>
          (<[ journal_path "t3" := json_dump journal_placeholder ]>
             {[ journal_path "t4" := json_dump journal_unstamped ]})))
    world0.

Example get_all_threads_world_listing :
  fst (StreamlitApp.get_all_threads world_listing) =
  Ok [(PStr "t2", PStr "What is Azure?"); (PStr "t1", PStr "Hello")].
Proof. vm_compute. reflexivity. Qed.

Lemma C6_witness :
  StreamlitApp.get_all_threads world_listing =
    (Ok (map row_pair
           (omap (fun p => listed_row (load_of (files (w_fs world_listing)) p))
              (sorted_reverse (journal_files (files (w_fs world_listing)))))),
     set_dir_exists true world_listing) /\
  (forall d, dict_get d "thread_id" = Some PNone -> listed_row (PDict d) = None) /\
  (forall d, dict_get d "messages" = Some (PList []) -> listed_row (PDict d) = None) /\
  (forall d t e l,
     dict_get d "thread_id" = Some (PStr t) -> t <> EmptyString ->
     dict_get d "messages" = Some (PList (e :: l)) ->
     listed_row (PDict d) = Some (t, label_of (e :: l))).
Proof.
  apply (C6_get_all_threads_lists_used_journals world_listing).
  - apply (bool_decide_unpack _). vm_compute. exact I.
  - apply (bool_decide_unpack _). vm_compute. exact I.
Defined.

(** Two journal files that carry the same thread id. *)
Definition world_copied : world :=
  with_files
    (<[ journal_path "t1" := json_dump journal_hello ]>
       {[ journal_path "t1_copy" := json_dump journal_hello ]})
    world0.

(** C6 as stated fails.  The command-line listing lists a journal whose
    message list is empty, and shows the last text of a journal, not its
    first user text; the Streamlit listing, keyed by thread id, has one
    entry for two journal files that carry the same thread id. *)
Lemma C6_counterexample :
  fst (ClientPython._list_saved_threads
         (with_files {[ journal_path "t3" := json_dump journal_placeholder ]} world0))
    = Ok [ {| ClientPython.st_tid := PStr "t3";
              ClientPython.st_path := journal_path "t3";
              ClientPython.st_created_ts := PNone;
              ClientPython.st_last_role := PNone;
              ClientPython.st_last_text_snippet := PNone |} ] /\
  fst (ClientPython._list_saved_threads
         (with_files {[ journal_path "t1" := json_dump journal_hello ]} world0))
    = Ok [ {| ClientPython.st_tid := PStr "t1";
              ClientPython.st_path := journal_path "t1";
              ClientPython.st_created_ts := PStr "2025-01-01T09:00:00.000001Z";
              ClientPython.st_last_role := PStr "assistant";
              ClientPython.st_last_text_snippet := PStr "Hi there" |} ] /\
  length (journal_files (files (w_fs world_copied))) = 2 /\
  fst (StreamlitApp.get_all_threads world_copied) = Ok [(PStr "t1", PStr "Hello")].
Proof. repeat split; vm_compute; reflexivity. Qed.

(** *** A failed run *)

(** The thread [t1] after one finished exchange: the service holds the
    user's message and the assistant's reply, the journal mirrors them, and
    the next run is going to fail. *)
Definition remote_t1 : remote :=
  {| r_threads :=
       {[ "t1" := [ {| m_id := "m1"; m_role := "user"; m_text_messages := ["Hi"] |};
                    {| m_id := "m2"; m_role := "assistant";
                       m_text_messages := ["Hello!"] |} ] ]};
     r_steps := ∅;
     r_ids := r_ids remote0; r_issued := 0;
     r_runs := fun _ => run_failed; r_started := 0;
     r_delete_agent_ok := true |}.

Definition world_resumed : world := set_remote remote_t1 world_t1.

Definition world_resumed_streamlit : world :=
  set_session
    {| ss_messages := [("user", "Hi"); ("assistant", "Hello!")];
       ss_selected_chat := "Hi"; ss_log_messages := [];
       ss_thread_id := Some "t1" |}
    world_resumed.

(** C5 fails in the command-line client.  The run of the second turn fails
    and adds no reply, yet the turn appends an assistant entry: the reply of
    the turn before, which is still the newest assistant message of the
    thread.  On the same thread the Streamlit app stops at the user entry
    and shows the error. *)
Theorem C5_cli_turn_persists_stale_reply_after_failed_run :
  run_status (r_runs remote_t1 0) = "failed" /\
  fst (ClientPython.main_turn "t1" "agent_1" path_t1 "What is Azure?" world_resumed)
    = Ok tt /\
  messages_of
    (load_of
       (files (w_fs (snd (ClientPython.main_turn "t1" "agent_1" path_t1
                            "What is Azure?" world_resumed))))
       path_t1)
    = Some [journal_entry "2025-01-01T09:00:00.000001Z" "user" "Hi" (Some "m1");
            journal_entry "2025-01-01T09:00:05.000002Z" "assistant" "Hello!"
              (Some "m2");
            journal_entry "2025-01-01T10:00:00.000001Z" "user" "What is Azure?"
              (Some "id_a");
            journal_entry "2025-01-01T10:00:07.000002Z" "assistant" "Hello!"
              (Some "m2")] /\
  fst (StreamlitApp.chat_turn "What is Azure?" "gpt-4o" world_resumed_streamlit)
    = Ok tt /\
  messages_of
    (load_of
       (files (w_fs (snd (StreamlitApp.chat_turn "What is Azure?" "gpt-4o"
                            world_resumed_streamlit))))
       path_t1)
    = Some [journal_entry "2025-01-01T09:00:00.000001Z" "user" "Hi" (Some "m1");
            journal_entry "2025-01-01T09:00:05.000002Z" "assistant" "Hello!"
              (Some "m2");
            journal_entry "2025-01-01T10:00:00.000001+00:00" "user" "What is Azure?"
              (Some "id_b")] /\
  w_ui (snd (StreamlitApp.chat_turn "What is Azure?" "gpt-4o"
               world_resumed_streamlit))
    = [UiError "Run failed: rate limit exceeded"; UiRerun].
Proof.
  split; [reflexivity |].
  split; [vm_compute; reflexivity |].
  split; [vm_compute; reflexivity |].
  split; [vm_compute; reflexivity |].
  split; [vm_compute; reflexivity |].
  vm_compute. reflexivity.
Qed.

(** A journal that the Streamlit app has filled to its limit. *)
Definition world_full : world :=
  snd (run_appends StreamlitApp._append_memory path_t1 (take 20 many_ops) world0).

(** The message id of an entry, for telling entries apart. *)
Definition entry_id (e : pyval) : string :=
  match py_getitem e "message_id" with
  | Ok (PStr s) => s
  | _ => EmptyString
  end.

(** C8 as stated fails for the Streamlit app: its append to a journal of 20
    entries stores 20 entries again, the new one at the end and the oldest
    one gone. *)
Lemma C8_counterexample :
  exists old e0 new,
    messages_of (load_of (files (w_fs world_full)) path_t1) = Some (e0 :: old) /\
    length (e0 :: old) = 20 /\
    fst (StreamlitApp._append_memory path_t1 "user" "one more" (Some "m21") world_full)
      = Ok tt /\
    messages_of
      (load_of
         (files (w_fs (snd (StreamlitApp._append_memory path_t1 "user" "one more"
                              (Some "m21") world_full))))
         path_t1)
      = Some (old ++ [new]) /\
    entry_id e0 = "A" /\
    ("A" ∉ map entry_id (old ++ [new])) /\
    old ++ [new] <> (e0 :: old) ++ [new].
Proof.
  eexists _, _, _. split; [vm_compute; reflexivity |].
  split; [reflexivity |].
  split; [vm_compute; reflexivity |].
  split; [vm_compute; reflexivity |].
  split; [reflexivity |].
  split.
  - apply (bool_decide_unpack _). vm_compute. exact I.
  - intros Heq. apply (f_equal length) in Heq. vm_compute in Heq. discriminate.
Qed.

(** * Further properties of the store *)

(** ** Appends to files that hold no journal *)

Section AppendEdges.
Context `{JsonCodec}.

Lemma load_of_unparsable fs p s :
  fs !! p = Some s -> json_load s = None -> load_of fs p = fresh_journal.
Proof. intros Hp Hs. unfold load_of. by rewrite Hp, Hs. Qed.

Lemma load_of_parsed fs p s v :
  fs !! p = Some s -> json_load s = Some v -> load_of fs p = v.
Proof. intros Hp Hs. unfold load_of. by rewrite Hp, Hs. Qed.

(** The journal that holds one entry and no thread id. *)
Definition one_entry_journal (e : pyval) : pyval :=
  PDict [("thread_id", PNone); ("messages", PList [e])].

(** An append to a file whose text [json.load] rejects does not fail: the
    load falls back on the fresh journal, and the append writes that journal
    with its one new entry over the file.  The text that did not parse is
    gone, and a load then returns the one-entry journal. *)
Theorem append_over_unparsable_file_starts_anew p s role text mid w :
  writable w ->
  files (w_fs w) !! p = Some s ->
  json_load s = None ->
  (exists w',
     ClientV2._append_memory p role text mid w = (Ok tt, w') /\
     ClientPython._append_memory p role text mid w = (Ok tt, w') /\
     files (w_fs w') !! p =
       Some (json_dump (one_entry_journal
               (journal_entry (w_clock w (w_ticks w) +:+ "Z") role text mid))) /\
     _load_memory p w' =
       (Ok (one_entry_journal
              (journal_entry (w_clock w (w_ticks w) +:+ "Z") role text mid)), w')) /\
  (exists w',
     StreamlitApp._append_memory p role text mid w = (Ok tt, w') /\
     files (w_fs w') !! p =
       Some (json_dump (one_entry_journal
               (journal_entry (w_clock w (w_ticks w) +:+ "+00:00") role text mid))) /\
     _load_memory p w' =
       (Ok (one_entry_journal
              (journal_entry (w_clock w (w_ticks w) +:+ "+00:00") role text mid)), w')).
Proof.
  intros Hw Hp Hs.
  assert (Hfresh : load_of (files (w_fs w)) p = fresh_journal)
    by by eapply load_of_unparsable.
  assert (Hl : messages_of (load_of (files (w_fs w)) p) = Some [])
    by by rewrite Hfresh.
  split.
  - pose proof (client_append_run p role text mid w [] Hw Hl) as Hrun.
    rewrite Hfresh in Hrun. eexists.
    split; [exact Hrun |]. split; [exact Hrun |]. split.
    + simpl. by rewrite lookup_insert_eq.
    + rewrite _load_memory_run. f_equal. f_equal.
      etrans; [apply load_of_wrote; by destruct mid | reflexivity].
  - pose proof (streamlit_append_run p role text mid w [] Hw Hl) as Hrun.
    rewrite Hfresh in Hrun. eexists.
    split; [exact Hrun |]. split.
    + simpl. by rewrite lookup_insert_eq.
    + rewrite _load_memory_run. f_equal. f_equal.
      etrans; [apply load_of_wrote; by destruct mid | reflexivity].
Qed.

(** A document that [_append_memory] cannot append to: one that is no
    object, or an object whose [messages] is no list. *)
Definition foreign_document (v : pyval) : Prop :=
  (forall d, v <> PDict d) \/
  (exists d x, v = PDict d /\ dict_get d "messages" = Some x /\ forall l, x <> PList l).

(** Where the file parses but holds a document that is no journal, an append
    raises [AttributeError] (from [setdefault], or from [append]) before the
    clock is read or anything is written: the world is as it was, the file
    still holds the foreign document, and every later append fails the same
    way. *)
Theorem append_rejects_foreign_document p s v role text mid w :
  files (w_fs w) !! p = Some s ->
  json_load s = Some v ->
  foreign_document v ->
  ClientV2._append_memory p role text mid w = (Raise AttributeError, w) /\
  ClientPython._append_memory p role text mid w = (Raise AttributeError, w) /\
  StreamlitApp._append_memory p role text mid w = (Raise AttributeError, w).
Proof.
  intros Hp Hs Hv.
  assert (Hload : load_of (files (w_fs w)) p = v) by by eapply load_of_parsed.
  change (ClientPython._append_memory p role text mid w)
    with (ClientV2._append_memory p role text mid w).
  unfold ClientV2._append_memory, StreamlitApp._append_memory.
  unfold bind at 1 7 13. rewrite !_load_memory_run, Hload.
  destruct Hv as [Hv | (d & x & -> & Hx & Hnl)].
  - destruct v as [| | | | |d]; try done. by destruct (Hv d).
  - unfold py_setdefault, lift, bind. rewrite Hx. simpl. rewrite Hx.
    destruct x as [| | | |l|]; try done. by destruct (Hnl l).
Qed.

(** An append touches one value of the journal object: what is stored under
    [messages].  Every other key, [thread_id] among them, keeps its value,
    and the keys keep their order; where the object had no [messages] key,
    the key is added after the others, with the new entry as its only
    item. *)
Theorem append_changes_messages_only p s d l role text mid w :
  writable w ->
  files (w_fs w) !! p = Some s ->
  json_load s = Some (PDict d) ->
  dict_get d "messages" = Some (PList l) \/ (dict_get d "messages" = None /\ l = []) ->
  exists w1 d1 w2 d2,
    ClientV2._append_memory p role text mid w = (Ok tt, w1) /\
    _load_memory p w1 = (Ok (PDict d1), w1) /\
    dict_get d1 "messages" =
      Some (PList (l ++ [journal_entry (w_clock w (w_ticks w) +:+ "Z") role text mid])) /\
    StreamlitApp._append_memory p role text mid w = (Ok tt, w2) /\
    _load_memory p w2 = (Ok (PDict d2), w2) /\
    dict_get d2 "messages" =
      Some (PList (last_n 20
              (l ++ [journal_entry (w_clock w (w_ticks w) +:+ "+00:00") role text mid]))) /\
    (forall k, k <> "messages" ->
       dict_get d1 k = dict_get d k /\ dict_get d2 k = dict_get d k) /\
    map fst d1 = map fst d2 /\
    map fst d1 =
      match dict_get d "messages" with
      | Some _ => map fst d
      | None => map fst d ++ ["messages"]
      end.
Proof.
  intros Hw Hp Hs Hm.
  assert (Hload : load_of (files (w_fs w)) p = PDict d) by by eapply load_of_parsed.
  assert (Hl : messages_of (load_of (files (w_fs w)) p) = Some l).
  { rewrite Hload. simpl. by destruct Hm as [-> | [-> ->]]. }
  assert (Hold : json_ok (PList l) = true).
  { eapply json_ok_messages_of; [apply json_ok_load_of | exact Hl]. }
  assert (Hd : json_ok (PDict d) = true) by (rewrite <- Hload; apply json_ok_load_of).
  eexists _, (dict_set d "messages" _), _, (dict_set d "messages" _).
  split; [by apply client_append_run |].
  split.
  { rewrite _load_memory_run, Hload. f_equal. f_equal. simpl with_messages.
    apply load_of_wrote, json_ok_dict_set; [done |].
    apply json_ok_snoc; [done | apply json_ok_journal_entry]. }
  split; [apply dict_get_set_eq |].
  split; [by apply streamlit_append_run |].
  split.
  { rewrite _load_memory_run, Hload. f_equal. f_equal. simpl with_messages.
    apply load_of_wrote, json_ok_dict_set; [done |].
    apply json_ok_last_n, json_ok_snoc; [done | apply json_ok_journal_entry]. }
  split; [apply dict_get_set_eq |].
  split; [intros k Hk; by rewrite !dict_get_set_ne |].
  rewrite !dict_set_keys. by destruct (dict_get d "messages").
Qed.

End AppendEdges.

(** ** Stamping again *)

Section Stamping.
Context `{JsonCodec}.

Lemma dict_set_same d k v : dict_get d k = Some v -> dict_set d k v = d.
Proof.
  induction d as [|[k0 v0] d IH]; simpl; [done |].
  destruct (string_eqb k0 k) eqn:E; [by intros [= ->] |].
  intros Hk. by rewrite IH.
Qed.

Lemma wrote_again p s w :
  wrote p s (set_dir_exists true (wrote p s (set_dir_exists true w)))
  = wrote p s (set_dir_exists true w).
Proof.
  unfold wrote, set_files, set_dir_exists. simpl. by rewrite insert_insert_eq.
Qed.

(** Stamping a journal with its thread id is idempotent: the client that
    resumes a thread stamps the journal again, and that second stamping
    leaves the world exactly as the first one left it.  Where the journal
    already carried the thread id, the document a load returns after the
    stamping is the document it returned before. *)
Theorem stamping_again_changes_nothing tid w d :
  fsize_limit (w_fs w) = None ->
  _load_memory (journal_path tid) w = (Ok (PDict d), w) ->
  exists w',
    ClientV2.main_prepare_memory tid w = (Ok (journal_path tid), w') /\
    ClientPython.main_prepare_memory tid w = (Ok (journal_path tid), w') /\
    ClientV2.main_prepare_memory tid w' = (Ok (journal_path tid), w') /\
    ClientPython.main_prepare_memory tid w' = (Ok (journal_path tid), w') /\
    (dict_get d "thread_id" = Some (PStr tid) ->
     _load_memory (journal_path tid) w' = (Ok (PDict d), w')).
Proof.
  intros Hlim Hload. rewrite _load_memory_run in Hload.
  assert (Hd : load_of (files (w_fs w)) (journal_path tid) = PDict d) by congruence.
  clear Hload.
  assert (Hok : json_ok (PDict (dict_set d "thread_id" (PStr tid))) = true).
  { apply json_ok_dict_set; [| done]. rewrite <- Hd. apply json_ok_load_of. }
  pose proof (prepare_memory_run tid w d Hlim Hd) as Hrun.
  set (w' := wrote (journal_path tid)
               (json_dump (PDict (dict_set d "thread_id" (PStr tid))))
               (set_dir_exists true w)) in *.
  assert (Hd' : load_of (files (w_fs w')) (journal_path tid)
                = PDict (dict_set d "thread_id" (PStr tid))).
  { unfold w'. by rewrite load_of_wrote. }
  pose proof (prepare_memory_run tid w' _ Hlim Hd') as Hrun'.
  rewrite dict_set_set in Hrun'. unfold w' in Hrun' at 2.
  rewrite wrote_again in Hrun'. fold w' in Hrun'.
  exists w'. split; [exact Hrun |]. split; [exact Hrun |].
  split; [exact Hrun' |]. split; [exact Hrun' |].
  intros Htid. rewrite _load_memory_run, Hd'. by rewrite dict_set_same.
Qed.

End Stamping.

(** ** Listings over a directory that holds a foreign file *)

Lemma elem_of_journal_files fs q :
  q ∈ journal_files fs <-> glob_match q = true /\ is_Some (fs !! q).
Proof.
  unfold journal_files. rewrite list_elem_of_filter.
  rewrite list_elem_of_In, in_map_iff. split.
  - intros [Hg ([q' s] & <- & Hin)]. split; [done |].
    apply list_elem_of_In, elem_of_map_to_list in Hin. by exists s.
  - intros [Hg [s Hs]]. split; [done |].
    exists (q, s). split; [done |]. by apply list_elem_of_In, elem_of_map_to_list.
Qed.

Lemma NoDup_journal_files fs : NoDup (journal_files fs).
Proof. apply NoDup_filter, (NoDup_fst_map_to_list fs). Qed.

Section ForeignFile.
Context `{JsonCodec}.

Lemma get_all_threads_loop_foreign fs w paths p :
  files (w_fs w) = fs ->
  p ∈ paths ->
  (forall d, load_of fs p <> PDict d) ->
  forall threads, exists e,
    StreamlitApp.get_all_threads_loop paths threads w = (Raise e, w).
Proof.
  intros Hfs Hin Hp.
  induction paths as [|q paths IH]; intros threads.
  { by apply elem_of_nil in Hin. }
  simpl StreamlitApp.get_all_threads_loop.
  unfold bind at 1. rewrite _load_memory_run, Hfs.
  destruct (decide (q = p)) as [-> | Hne].
  - exists AttributeError.
    destruct (load_of fs p) as [| | | | |d]; try done. by destruct (Hp d).
  - assert (Hin' : p ∈ paths).
    { apply elem_of_cons in Hin as [-> | Hin]; done. }
    specialize (IH Hin').
    unfold bind, lift, ret.
    repeat case_match; simplify_eq; try (by eexists); apply IH.
Qed.

Lemma list_saved_threads_loop_foreign fs w paths p :
  files (w_fs w) = fs ->
  p ∈ paths ->
  (forall d, load_of fs p <> PDict d) ->
  forall items, exists e,
    ClientPython._list_saved_threads_loop paths items w = (Raise e, w).
Proof.
  intros Hfs Hin Hp.
  induction paths as [|q paths IH]; intros items.
  { by apply elem_of_nil in Hin. }
  simpl ClientPython._list_saved_threads_loop.
  unfold bind at 1. rewrite _load_memory_run, Hfs.
  destruct (decide (q = p)) as [-> | Hne].
  - exists AttributeError. unfold ClientPython.saved_thread_of.
    destruct (load_of fs p) as [| | | | |d]; try done. by destruct (Hp d).
  - assert (Hin' : p ∈ paths).
    { apply elem_of_cons in Hin as [-> | Hin]; done. }
    specialize (IH Hin').
    unfold ClientPython.saved_thread_of, bind, lift, ret.
    repeat case_match; simplify_eq; try (by eexists); apply IH.
Qed.

(** The fail-open of a load does not reach the listings.  One journal file
    whose text parses to something that is no object (a list, a number, a
    string, [null]) makes [get_all_threads] and [_list_saved_threads] raise,
    whatever the other journal files hold: no listing is returned.  The
    files are left as they were. *)
Theorem listings_raise_on_a_foreign_journal_file w p s v :
  files (w_fs w) !! p = Some s ->
  glob_match p = true ->
  json_load s = Some v ->
  (forall d, v <> PDict d) ->
  (exists e, StreamlitApp.get_all_threads w = (Raise e, set_dir_exists true w)) /\
  (exists e, ClientPython._list_saved_threads w = (Raise e, set_dir_exists true w)).
Proof.
  intros Hp Hg Hs Hv.
  assert (Hload : load_of (files (w_fs w)) p = v) by by eapply load_of_parsed.
  assert (Hin : p ∈ journal_files (files (w_fs w))).
  { apply elem_of_journal_files. split; [done | by exists s]. }
  split.
  - unfold StreamlitApp.get_all_threads. unfold bind at 1. simpl.
    unfold bind, glob_conversations, gets. simpl.
    fold (journal_files (files (w_fs w))).
    apply (get_all_threads_loop_foreign (files (w_fs w)) _ _ p); [done | |].
    + by rewrite sorted_reverse_perm.
    + by rewrite Hload.
  - unfold ClientPython._list_saved_threads. unfold bind at 1. simpl.
    unfold bind at 1. unfold glob_conversations, gets. simpl.
    fold (journal_files (files (w_fs w))).
    destruct (list_saved_threads_loop_foreign (files (w_fs w)) (set_dir_exists true w)
                (journal_files (files (w_fs w))) p eq_refl Hin
                ltac:(by rewrite Hload) []) as [e He].
    exists e. unfold bind. by rewrite He.
Qed.

End ForeignFile.

(** ** The resume menu of the command-line client *)

(** An entry as the store writes it, as far as the menu reads it: a time
    stamp and a text that are strings, and a role. *)
Definition entry_stored (e : pyval) : bool :=
  match e with
  | PDict d =>
      match dict_get d "ts", dict_get d "role", dict_get d "text" with
      | Some (PStr _), Some _, Some (PStr _) => true
      | _, _, _ => false
      end
  | _ => false
  end.

(** A journal the menu can read: an object whose [messages], if any, is a
    list of such entries.  Its [thread_id] may be anything. *)
Definition menu_wf (data : pyval) : bool :=
  match data with
  | PDict d =>
      match dict_get d "messages" with
      | None => true
      | Some (PList l) => forallb entry_stored l
      | Some _ => false
      end
  | _ => false
  end.

(** A text as the menu shows it: cut to 57 characters and three dots when
    it has more than 60. *)
Definition snippet_of (t : string) : string :=
  if Nat.ltb 60 (String.length t) then substring 0 57 t +:+ "..." else t.

Definition entry_field (k : string) (e : pyval) : pyval :=
  match py_getitem e k with
  | Ok v => v
  | Raise _ => PNone
  end.

Definition entry_snippet (e : pyval) : pyval :=
  match entry_field "text" e with
  | PStr t => PStr (snippet_of t)
  | v => v
  end.

(** The row of the menu for the journal [data] found at [p]: none without a
    thread id; else the thread id, the time stamp of the first entry, the
    role and the snippet of the last, all three [None] where the journal has
    no entry. *)
Definition menu_row (p : string) (data : pyval) : option ClientPython.saved_thread :=
  match data with
  | PDict d =>
      let tid := default PNone (dict_get d "thread_id") in
      let l := match dict_get d "messages" with
               | Some (PList l) => l
               | _ => []
               end in
      if py_truthy tid
      then Some {| ClientPython.st_tid := tid;
                   ClientPython.st_path := p;
                   ClientPython.st_created_ts :=
                     from_option (entry_field "ts") PNone (head l);
                   ClientPython.st_last_role :=
                     from_option (entry_field "role") PNone (last l);
                   ClientPython.st_last_text_snippet :=
                     from_option entry_snippet PNone (last l) |}
      else None
  | _ => None
  end.

(** The time a row's conversation started, as the sort reads it. *)
Definition started (x : ClientPython.saved_thread) : string :=
  match ClientPython.st_created_ts x with
  | PStr s => s
  | _ => EmptyString
  end.

(** No row comes before a row that started later. *)
Definition newest_first (rows : list ClientPython.saved_thread) : Prop :=
  StronglySorted (fun a b => String.ltb (started a) (started b) = false) rows.

Lemma ltb_asym a b : String.ltb a b = true -> String.ltb b a = false.
Proof.
  unfold String.ltb. rewrite (String.compare_antisym b a).
  by destruct (String.compare a b).
Qed.

Lemma ltb_lt a b : String.ltb a b = true <-> OrderedTypeEx.String_as_OT.lt a b.
Proof.
  rewrite <- OrderedTypeEx.String_as_OT.cmp_lt.
  unfold String.ltb, OrderedTypeEx.String_as_OT.cmp.
  destruct (String.compare a b); split; congruence.
Qed.

Lemma ltb_false a b :
  String.ltb a b = false <-> a = b \/ String.ltb b a = true.
Proof.
  unfold String.ltb. rewrite (String.compare_antisym b a).
  destruct (String.compare a b) eqn:E; simpl; split; try done.
  - intros _. left. by apply String.compare_eq_iff.
  - intros [-> | ?]; [| done].
    assert (String.compare b b = Eq) as Hb.
    { by apply OrderedTypeEx.String_as_OT.cmp_eq. }
    congruence.
  - intros _. by right.
Qed.

Lemma ltb_ge_trans a b c :
  String.ltb a b = false -> String.ltb b c = false -> String.ltb a c = false.
Proof.
  intros Hab Hbc. destruct (String.ltb a c) eqn:Hac; [| done].
  apply ltb_false in Hab as [-> | Hba]; [congruence |].
  apply ltb_false in Hbc as [-> | Hcb]; [by rewrite (ltb_asym _ _ Hba) in Hac |].
  apply ltb_lt in Hac, Hba, Hcb.
  pose proof (OrderedTypeEx.String_as_OT.lt_trans _ _ _ Hac Hcb) as Hab.
  pose proof (OrderedTypeEx.String_as_OT.lt_trans _ _ _ Hab Hba) as Haa.
  by destruct (OrderedTypeEx.String_as_OT.lt_not_eq _ _ Haa).
Qed.

Lemma substring_length n t :
  n <= String.length t -> String.length (substring 0 n t) = n.
Proof.
  revert t. induction n as [|n IH]; intros [|c t]; simpl; try done; try lia.
  intros Hn. rewrite IH; [done | lia].
Qed.

Lemma string_append_length (a b : string) :
  String.length (a +:+ b) = String.length a + String.length b.
Proof.
  induction a as [|c a IH]; [done |].
  change (String c a +:+ b) with (String c (a +:+ b)). simpl. by rewrite IH.
Qed.

Lemma snippet_of_length t : String.length (snippet_of t) <= 60.
Proof.
  unfold snippet_of. destruct (Nat.ltb 60 (String.length t)) eqn:E.
  - apply Nat.ltb_lt in E. rewrite string_append_length, substring_length by lia.
    simpl. lia.
  - apply Nat.ltb_ge in E. lia.
Qed.

(** Rows whose sort key is a string. *)
Definition row_sortable (x : ClientPython.saved_thread) : Prop :=
  ClientPython.sort_key x = PStr (started x).

Lemma insert_newest_first_run x l :
  row_sortable x -> Forall row_sortable l -> newest_first l ->
  exists l', ClientPython.insert_newest_first x l = Ok l' /\
             l' ≡ₚ x :: l /\ newest_first l'.
Proof.
  intros Hx Hl Hs. induction l as [|y l IH]; simpl.
  - exists [x]. split; [done |]. split; [done |].
    apply SSorted_cons; [apply SSorted_nil | by apply Forall_nil].
  - apply Forall_cons in Hl as [Hy Hl].
    apply StronglySorted_inv in Hs as [Hs Hyl].
    rewrite Hx, Hy. unfold py_lt. simpl.
    destruct (String.ltb (started x) (started y)) eqn:E.
    + destruct (IH Hl Hs) as (l' & -> & Hp & Hs').
      exists (y :: l'). split; [done |]. split.
      * rewrite Hp. apply Permutation_swap.
      * apply SSorted_cons; [done |].
        rewrite Hp. apply Forall_cons. split; [by apply ltb_asym | done].
    + exists (x :: y :: l). split; [done |]. split; [done |].
      apply SSorted_cons; [by apply SSorted_cons |].
      apply Forall_cons. split; [done |].
      eapply Forall_impl; [exact Hyl |]. simpl. intros z Hz.
      by eapply ltb_ge_trans.
Qed.

Lemma sort_newest_first_run l :
  Forall row_sortable l ->
  exists l', ClientPython.sort_newest_first l = Ok l' /\
             l' ≡ₚ l /\ newest_first l'.
Proof.
  induction l as [|x l IH]; intros Hl; simpl.
  - exists []. split; [done |]. split; [done | apply SSorted_nil].
  - apply Forall_cons in Hl as [Hx Hl].
    destruct (IH Hl) as (l1 & -> & Hp & Hs).
    destruct (insert_newest_first_run x l1 Hx) as (l2 & -> & Hp2 & Hs2);
      [by rewrite Hp | done |].
    exists l2. split; [done |]. split; [by rewrite Hp2, Hp | done].
Qed.

Lemma entry_stored_inv e :
  entry_stored e = true ->
  exists d ts r t,
    e = PDict d /\ dict_get d "ts" = Some (PStr ts) /\
    dict_get d "role" = Some r /\ dict_get d "text" = Some (PStr t).
Proof.
  destruct e as [| | | | |d]; try done. simpl.
  destruct (dict_get d "ts") as [[| | |ts| |]|] eqn:Ets; try done.
  destruct (dict_get d "role") as [r|] eqn:Er; try done.
  destruct (dict_get d "text") as [[| | |t| |]|] eqn:Et; try done.
  intros _. by exists d, ts, r, t.
Qed.

Lemma forallb_last {A} (P : A -> bool) l x :
  forallb P l = true -> last l = Some x -> P x = true.
Proof.
  intros Hl Hx. apply last_Some in Hx as [l' ->].
  rewrite forallb_app in Hl. apply andb_true_iff in Hl as [_ Hl].
  simpl in Hl. by apply andb_true_iff in Hl as [Hl _].
Qed.

Section ResumeMenu.
Context `{JsonCodec}.

Lemma saved_thread_of_run p data w :
  menu_wf data = true ->
  ClientPython.saved_thread_of p data w = (Ok (menu_row p data), w).
Proof.
  intros Hwf. destruct data as [| | | | |d]; try done. simpl in Hwf.
  unfold ClientPython.saved_thread_of, menu_row, bind, lift, ret.
  cbn [py_get].
  destruct (dict_get d "messages") as [msgs|] eqn:Em.
  2: { destruct (dict_get d "thread_id") as [tid|]; simpl;
         [by destruct (py_truthy tid) | done]. }
  destruct msgs as [| | | |l|]; try done.
  destruct l as [|e0 l].
  { destruct (dict_get d "thread_id") as [tid|]; simpl;
      [by destruct (py_truthy tid) | done]. }
  destruct (last (e0 :: l)) as [e1|] eqn:El.
  2: { by apply last_None in El. }
  pose proof (forallb_last _ _ _ Hwf El) as He1.
  simpl in Hwf. apply andb_true_iff in Hwf as [He0 _].
  apply entry_stored_inv in He0 as (d0 & ts0 & r0 & t0 & -> & Hts0 & _ & _).
  apply entry_stored_inv in He1 as (d1 & ts1 & r1 & t1 & -> & _ & Hr1 & Ht1).
  assert (Hsn : entry_snippet (PDict d1) = PStr (snippet_of t1)).
  { unfold entry_snippet, entry_field, py_getitem. by rewrite Ht1. }
  assert (Hro : entry_field "role" (PDict d1) = r1).
  { unfold entry_field, py_getitem. by rewrite Hr1. }
  assert (Hts : entry_field "ts" (PDict d0) = PStr ts0).
  { unfold entry_field, py_getitem. by rewrite Hts0. }
  cbn [head from_option]. rewrite Hsn, Hro, Hts.
  cbn [py_truthy length Nat.eqb negb py_first py_last].
  rewrite El. cbn [py_getitem]. rewrite Hts0, Hr1, Ht1. cbn [fst snd].
  unfold snippet_of. change (py_truthy (PStr t1)) with (negb (string_eqb t1 EmptyString)).
  destruct (string_eqb t1 EmptyString) eqn:Ee; cbn [negb].
  - apply string_eqb_true in Ee as ->. simpl.
    by destruct (dict_get d "thread_id") as [tid|]; simpl;
      [destruct (py_truthy tid) |].
  - cbn [py_len py_prefix_plus].
    destruct (Nat.ltb 60 (String.length t1));
      by destruct (dict_get d "thread_id") as [tid|]; simpl;
        [destruct (py_truthy tid) |].
Qed.

Lemma list_saved_threads_loop_run fs w paths : forall items,
  files (w_fs w) = fs ->
  Forall (fun p => menu_wf (load_of fs p) = true) paths ->
  ClientPython._list_saved_threads_loop paths items w =
  (Ok (items ++ omap (fun p => menu_row p (load_of fs p)) paths), w).
Proof.
  intros items Hfs. revert items.
  induction paths as [|p paths IH]; intros items Hwf; simpl.
  - by rewrite app_nil_r.
  - apply Forall_cons in Hwf as [Hp Hwf].
    unfold bind at 1. rewrite _load_memory_run, Hfs.
    unfold bind at 1. rewrite saved_thread_of_run by done.
    rewrite IH by done.
    destruct (menu_row p (load_of fs p)); [by rewrite <- app_assoc | done].
Qed.

Lemma menu_row_sortable p data x :
  menu_wf data = true -> menu_row p data = Some x -> row_sortable x.
Proof.
  intros Hwf Hx. destruct data as [| | | | |d]; try done.
  simpl in Hwf, Hx.
  destruct (py_truthy (default PNone (dict_get d "thread_id"))); [| done].
  injection Hx as <-. unfold row_sortable, ClientPython.sort_key, started. simpl.
  destruct (dict_get d "messages") as [[| | | |l|]|]; try done.
  destruct l as [|e0 l]; [done |]. simpl in Hwf.
  apply andb_true_iff in Hwf as [He0 _].
  apply entry_stored_inv in He0 as (d0 & ts0 & r0 & t0 & -> & Hts0 & _ & _).
  simpl. unfold entry_field, py_getitem. rewrite Hts0. simpl.
  destruct (string_eqb ts0 EmptyString) eqn:E; [| done].
  by apply string_eqb_true in E as ->.
Qed.

Lemma menu_row_snippet p data x t :
  menu_row p data = Some x ->
  ClientPython.st_last_text_snippet x = PStr t -> String.length t <= 60.
Proof.
  destruct data as [| | | | |d]; try done. simpl.
  destruct (py_truthy (default PNone (dict_get d "thread_id"))); [| done].
  intros [= <-]. simpl.
  destruct (last _) as [e|]; [| done]. simpl. unfold entry_snippet.
  destruct (entry_field "text" e); try done.
  intros [= <-]. apply snippet_of_length.
Qed.

(** The menu of saved conversations.  Over journal files the menu can read,
    [_list_saved_threads] returns one row for each journal file that carries
    a thread id, and none for the others.  A journal that has a thread id
    and no message is listed too, with [None] for its time, role and text.
    The rows are in order of the time stamp of their first entry, newest
    first, the rows without a time last.  A row shows the text of the last
    entry of its journal, whoever wrote it, cut to 57 characters and three
    dots when it has more than 60: no snippet is longer than 60. *)
Theorem list_saved_threads_gives_the_menu w :
  Forall (fun p => menu_wf (load_of (files (w_fs w)) p) = true)
    (journal_files (files (w_fs w))) ->
  exists rows,
    ClientPython._list_saved_threads w = (Ok rows, set_dir_exists true w) /\
    rows ≡ₚ omap (fun p => menu_row p (load_of (files (w_fs w)) p))
              (journal_files (files (w_fs w))) /\
    newest_first rows /\
    Forall (fun x => forall t, ClientPython.st_last_text_snippet x = PStr t ->
                               String.length t <= 60) rows.
Proof.
  intros Hwf.
  set (fs := files (w_fs w)) in *.
  set (found := omap (fun p => menu_row p (load_of fs p)) (journal_files fs)).
  assert (Hsort : Forall row_sortable found).
  { apply Forall_forall. intros x Hx.
    apply list_elem_of_omap in Hx as (p & Hp & Hx).
    eapply menu_row_sortable; [| exact Hx].
    by eapply (proj1 (Forall_forall _ _) Hwf). }
  destruct (sort_newest_first_run found Hsort) as (rows & Hrows & Hperm & Hnew).
  exists rows. split; [| split; [done | split; [done |]]].
  - unfold ClientPython._list_saved_threads. unfold bind at 1. simpl.
    unfold bind at 1. unfold glob_conversations, gets. simpl.
    fold (journal_files fs).
    unfold bind at 1.
    rewrite (list_saved_threads_loop_run fs) by done.
    unfold lift. change (ClientPython.sort_newest_first _)
      with (ClientPython.sort_newest_first found). by rewrite Hrows.
  - rewrite Hperm. apply Forall_forall. intros x Hx t.
    apply list_elem_of_omap in Hx as (p & Hp & Hx).
    by eapply menu_row_snippet.
Qed.

End ResumeMenu.

(** ** The Streamlit listing when journals share a thread id *)

(** [sorted(..., reverse=True)]: no path comes before a greater one. *)
Definition descending (paths : list string) : Prop :=
  StronglySorted (fun a b => String.ltb a b = false) paths.

Lemma insert_desc_descending p l : descending l -> descending (insert_desc p l).
Proof.
  unfold descending. intros Hs. induction l as [|q l IH]; simpl.
  - apply SSorted_cons; [apply SSorted_nil | by apply Forall_nil].
  - apply StronglySorted_inv in Hs as [Hs Hq].
    destruct (String.ltb p q) eqn:E.
    + apply SSorted_cons; [by apply IH |].
      rewrite insert_desc_perm. apply Forall_cons.
      split; [by apply ltb_asym | done].
    + apply SSorted_cons; [by apply SSorted_cons |].
      apply Forall_cons. split; [done |].
      eapply Forall_impl; [exact Hq |]. simpl. intros z Hz.
      by eapply ltb_ge_trans.
Qed.

Lemma sorted_reverse_descending l : descending (sorted_reverse l).
Proof.
  induction l as [|p l IH]; simpl; [apply SSorted_nil |].
  by apply insert_desc_descending.
Qed.

(** The listing as a dictionary grows: a row for a thread id that is there
    already replaces the label and leaves the entry in its place. *)
Definition add_row (acc : list (string * pyval)) (r : string * pyval)
  : list (string * pyval) :=
  dict_set acc (fst r) (snd r).

Lemma tdict_set_key_row acc t v :
  tdict_set_key (map row_pair acc) (KStr t) (PStr t) v
  = map row_pair (dict_set acc t v).
Proof.
  induction acc as [|[t0 v0] acc IH]; simpl; [done |].
  unfold same_key, string_eqb. simpl.
  destruct (decide (t0 = t)) as [-> | Hne].
  - by rewrite !bool_decide_eq_true_2.
  - rewrite !bool_decide_eq_false_2 by congruence. by rewrite IH.
Qed.

Lemma dict_get_add_rows t rows : forall acc,
  dict_get (foldl add_row acc rows) t =
  match last (filter (fun r => fst r = t) rows) with
  | Some r => Some (snd r)
  | None => dict_get acc t
  end.
Proof.
  induction rows as [|[t0 v0] rows IH]; intros acc; simpl; [done |].
  rewrite IH. unfold add_row. simpl.
  destruct (decide (t0 = t)) as [-> | Hne].
  - rewrite filter_cons_True by done.
    destruct (filter (fun r => fst r = t) rows) as [|r rs] eqn:E; simpl.
    + apply dict_get_set_eq.
    + by destruct (last (r :: rs)) eqn:El; [| apply last_None in El].
  - rewrite filter_cons_False by done.
    destruct (last _); [done |]. by apply dict_get_set_ne.
Qed.

Lemma nodup_keys_add_rows rows : forall acc,
  nodup_keys (map fst acc) = true ->
  nodup_keys (map fst (foldl add_row acc rows)) = true.
Proof.
  induction rows as [|r rows IH]; intros acc Hacc; simpl; [done |].
  apply IH. by apply nodup_keys_dict_set.
Qed.

Section SharedThreadId.
Context `{JsonCodec}.

Lemma get_all_threads_loop_fold fs w paths : forall acc,
  files (w_fs w) = fs ->
  Forall (fun p => journal_wf (load_of fs p) = true) paths ->
  StreamlitApp.get_all_threads_loop paths (map row_pair acc) w =
  (Ok (map row_pair
         (foldl add_row acc (omap (fun p => listed_row (load_of fs p)) paths))), w).
Proof.
  intros acc Hfs. revert acc.
  induction paths as [|p paths IH]; intros acc Hwf; [done |].
  apply Forall_cons in Hwf as [Hp Hwf].
  rewrite get_all_threads_loop_step by by rewrite Hfs.
  rewrite Hfs. simpl omap.
  destruct (listed_row (load_of fs p)) as [[t label]|]; [| by apply IH].
  rewrite tdict_set_key_row. by rewrite IH.
Qed.

(** The Streamlit listing over well-formed journals, whether or not their
    thread ids differ.  The journal files are taken in descending order of
    their paths and the listing is a dictionary keyed by thread id: it has
    one entry for each thread id, and where several journal files carry the
    same thread id, the label shown is that of the last of them in this
    order, the one with the least path.  The other files that carry the
    thread id cannot be told apart in the listing. *)
Theorem get_all_threads_keeps_one_label_per_thread_id w :
  Forall (fun p => journal_wf (load_of (files (w_fs w)) p) = true)
    (journal_files (files (w_fs w))) ->
  exists paths listing,
    paths = sorted_reverse (journal_files (files (w_fs w))) /\
    descending paths /\
    StreamlitApp.get_all_threads w =
      (Ok (map row_pair listing), set_dir_exists true w) /\
    nodup_keys (map fst listing) = true /\
    forall t,
      dict_get listing t =
      snd <$> last (filter (fun r => fst r = t)
                      (omap (fun p => listed_row (load_of (files (w_fs w)) p)) paths)).
Proof.
  intros Hwf.
  eexists _, _. split; [reflexivity |].
  split; [apply sorted_reverse_descending |]. split; [| split].
  - unfold StreamlitApp.get_all_threads. unfold bind at 1. simpl.
    unfold bind, glob_conversations, gets. simpl.
    fold (journal_files (files (w_fs w))).
    apply (get_all_threads_loop_fold (files (w_fs w)) _ _ []); [done |].
    by rewrite sorted_reverse_perm.
  - by apply nodup_keys_add_rows.
  - intros t. rewrite dict_get_add_rows. by destruct (last _).
Qed.

End SharedThreadId.

(** ** A turn of the command-line clients *)

(** The world with [evs] as what has reached the user. *)
Definition with_ui (evs : list ui_event) (w : world) : world :=
  {| w_fs := w_fs w; w_clock := w_clock w; w_ticks := w_ticks w;
     w_remote := w_remote w; w_session := w_session w; w_ui := evs |}.

(** A computation that prints and does nothing else. *)
Definition only_prints (m : M unit) : Prop :=
  forall w, exists evs, m w = (Ok tt, with_ui (w_ui w ++ evs) w).

Lemma only_prints_ret : only_prints (ret tt).
Proof.
  intros w. exists []. rewrite app_nil_r. by destruct w.
Qed.

Lemma only_prints_print s : only_prints (print s).
Proof. intros w. by exists [UiPrint s]. Qed.

Lemma only_prints_bind (m k : M unit) :
  only_prints m -> only_prints k -> only_prints (m ;;; k).
Proof.
  intros Hm Hk w. unfold bind.
  destruct (Hm w) as [e1 ->]. destruct (Hk (with_ui (w_ui w ++ e1) w)) as [e2 ->].
  exists (e1 ++ e2). unfold with_ui. simpl. by rewrite app_assoc.
Qed.

Lemma only_prints_for_each {A} (xs : list A) (body : A -> M unit) :
  (forall x, only_prints (body x)) -> only_prints (for_each xs body).
Proof.
  intros Hb. induction xs as [|x xs IH]; simpl.
  - apply only_prints_ret.
  - by apply only_prints_bind.
Qed.

Lemma only_prints_if (b : bool) (m k : M unit) :
  only_prints m -> only_prints k -> only_prints (if b then m else k).
Proof. by destruct b. Qed.

Lemma client_v2_log_run_steps_prints tid rid w :
  exists evs, ClientV2._log_run_steps tid rid w = (Ok tt, with_ui (w_ui w ++ evs) w).
Proof.
  unfold ClientV2._log_run_steps, bind at 1, run_steps_list, gets.
  apply only_prints_for_each. intros step.
  repeat first [ apply only_prints_bind | apply only_prints_print
               | apply only_prints_ret | apply only_prints_if
               | apply only_prints_for_each; intros ? ].
Qed.

Lemma client_python_log_run_steps_prints tid rid w :
  exists evs,
    ClientPython._log_run_steps tid rid w = (Ok tt, with_ui (w_ui w ++ evs) w).
Proof.
  unfold ClientPython._log_run_steps, bind at 1, run_steps_list, gets.
  apply only_prints_for_each. intros step.
  repeat first [ apply only_prints_bind | apply only_prints_print
               | apply only_prints_ret | apply only_prints_if
               | apply only_prints_for_each; intros ? ].
Qed.

(** The message [messages.create] adds to a thread. *)
Definition user_message (w : world) (content : string) : rmsg :=
  {| m_id := r_ids (w_remote w) (r_issued (w_remote w));
     m_role := "user"; m_text_messages := [content] |}.

(** The thread after a turn: the user's message, then what the run
    replied. *)
Definition thread_after (w : world) (ms : list rmsg) (content : string) : list rmsg :=
  ms ++ [user_message w content]
     ++ run_replies (r_runs (w_remote w) (r_started (w_remote w))).

(** The entries a turn of the command-line clients stores: the user's, and
    an assistant entry when the thread then shows a text of the assistant
    that is not empty. *)
Definition cli_turn_entries (w : world) (ms : list rmsg) (user_input : string)
  : list pyval :=
  journal_entry (w_clock w (w_ticks w) +:+ "Z") "user" user_input
    (Some (m_id (user_message w user_input)))
  :: match latest_assistant_text (rev (thread_after w ms user_input)) with
     | Some t =>
         if string_eqb t EmptyString then []
         else [journal_entry (w_clock w (S (w_ticks w)) +:+ "Z") "assistant" t
                 (first_assistant_id (rev (thread_after w ms user_input)))]
     | None => []
     end.


Section CliTurn.
Context `{JsonCodec}.

Ltac run_turn log_lemma l Hl Hms :=
  cbv beta iota zeta delta [bind ret modify gets lift raise print
    ClientV2._print_latest_assistant ClientPython._print_latest_assistant
    service_fresh_id messages_create runs_create_and_process
    messages_list_descending
    w_session w_remote w_fs w_ui w_clock w_ticks set_session set_remote add_ui
    r_threads r_steps r_ids r_issued r_runs r_started r_delete_agent_ok
    remote_issue remote_set_thread remote_ran m_id
    dir_exists files fsize_limit];
  rewrite Hms; cbv beta iota zeta;
  match goal with
  | |- context [ClientV2._append_memory ?p ?r ?t ?m ?w0] =>
      rewrite (client_append_run p r t m w0 l); [| split; reflexivity | exact Hl]
  end;
  cbv beta iota zeta delta [wrote set_files set_ticks
    w_session w_remote w_fs w_ui w_clock w_ticks
    r_threads r_steps r_ids r_issued r_runs r_started r_delete_agent_ok
    dir_exists files fsize_limit];
  rewrite lookup_insert_eq; cbv beta iota zeta.

Ltac fields :=
  cbv beta iota zeta delta [with_ui wrote set_files set_ticks
    w_session w_remote w_fs w_ui w_clock w_ticks
    r_threads r_steps r_ids r_issued r_runs r_started r_delete_agent_ok
    dir_exists files fsize_limit].

(** The turn from the listing of the run's steps on, once the thread and
    the journal are known. *)
Ltac finish_turn log_lemma fs p l e Hl Hok :=
  match goal with
  | |- context [ClientV2._log_run_steps ?t ?r ?w0] =>
      destruct (log_lemma t r w0) as [evs ->]
  | |- context [ClientPython._log_run_steps ?t ?r ?w0] =>
      destruct (log_lemma t r w0) as [evs ->]
  end;
  fields; rewrite lookup_insert_eq; cbv beta iota zeta;
  rewrite <- !app_assoc;
  destruct (latest_assistant_text _) as [t|] eqn:Et; cbv beta iota zeta;
  [ destruct (string_eqb t EmptyString) eqn:Ee; cbv beta iota zeta delta [negb] |];
  [ | fields; rewrite lookup_insert_eq; cbv beta iota zeta;
      match goal with
      | |- context [ClientV2._append_memory ?p0 ?r ?t0 ?m ?w0] =>
          rewrite (client_append_run p0 r t0 m w0 (l ++ [e]));
            [| split; reflexivity
             | fields; rewrite load_of_insert_dump by exact Hok;
               eapply messages_of_with_messages; exact Hl]
      end;
      fields | ];
  (eexists; split; [reflexivity |]; fields;
   split; [apply lookup_insert_eq |]);
  [ reflexivity
  | rewrite load_of_insert_dump by exact Hok;
    by rewrite with_messages_twice, insert_insert_eq, <- app_assoc
  | reflexivity ].

Lemma client_v2_turn_run tid aid p user_input w ms l :
  writable w ->
  r_threads (w_remote w) !! tid = Some ms ->
  messages_of (load_of (files (w_fs w)) p) = Some l ->
  exists w',
    ClientV2.main_turn tid aid p user_input w = (Ok tt, w') /\
    r_threads (w_remote w') !! tid = Some (thread_after w ms user_input) /\
    files (w_fs w') =
      <[p := json_dump (with_messages (load_of (files (w_fs w)) p)
                          (l ++ cli_turn_entries w ms user_input))]>
        (files (w_fs w)).
Proof.
  destruct w as [[dir fs lim und] clock ticks [threads steps ids issued runs started del]
                   sess ui].
  unfold writable, cli_turn_entries, thread_after, user_message.
  cbn [w_fs w_session w_remote w_clock w_ticks fsize_limit files dir_exists r_threads
       r_runs r_started r_ids r_issued m_id].
  intros [-> ->] Hms Hl.
  unfold ClientV2.main_turn.
  run_turn client_v2_log_run_steps_prints l Hl Hms.
  assert (Hok : json_ok
            (with_messages (load_of fs p)
               (l ++ [journal_entry (clock ticks +:+ "Z") "user" user_input
                        (Some (ids issued))])) = true).
  { apply json_ok_with_messages; [apply json_ok_load_of |].
    apply json_ok_snoc; [| apply json_ok_journal_entry].
    eapply json_ok_messages_of; [apply json_ok_load_of | exact Hl]. }
  destruct (string_eqb (run_status (runs started)) "failed"); cbv beta iota zeta;
    finish_turn client_v2_log_run_steps_prints fs p l
      (journal_entry (clock ticks +:+ "Z") "user" user_input (Some (ids issued)))
      Hl Hok.
Qed.

Lemma client_python_turn_run tid aid p user_input w ms l :
  writable w ->
  r_threads (w_remote w) !! tid = Some ms ->
  messages_of (load_of (files (w_fs w)) p) = Some l ->
  exists w',
    ClientPython.main_turn tid aid p user_input w = (Ok tt, w') /\
    r_threads (w_remote w') !! tid = Some (thread_after w ms user_input) /\
    files (w_fs w') =
      <[p := json_dump (with_messages (load_of (files (w_fs w)) p)
                          (l ++ cli_turn_entries w ms user_input))]>
        (files (w_fs w)).
Proof.
  destruct w as [[dir fs lim und] clock ticks [threads steps ids issued runs started del]
                   sess ui].
  unfold writable, cli_turn_entries, thread_after, user_message.
  cbn [w_fs w_session w_remote w_clock w_ticks fsize_limit files dir_exists r_threads
       r_runs r_started r_ids r_issued m_id].
  intros [-> ->] Hms Hl.
  unfold ClientPython.main_turn.
  change ClientPython._append_memory with ClientV2._append_memory.
  run_turn client_python_log_run_steps_prints l Hl Hms.
  assert (Hok : json_ok
            (with_messages (load_of fs p)
               (l ++ [journal_entry (clock ticks +:+ "Z") "user" user_input
                        (Some (ids issued))])) = true).
  { apply json_ok_with_messages; [apply json_ok_load_of |].
    apply json_ok_snoc; [| apply json_ok_journal_entry].
    eapply json_ok_messages_of; [apply json_ok_load_of | exact Hl]. }
  destruct (string_eqb (run_status (runs started)) "failed"); cbv beta iota zeta;
    finish_turn client_python_log_run_steps_prints fs p l
      (journal_entry (clock ticks +:+ "Z") "user" user_input (Some (ids issued)))
      Hl Hok.
Qed.


End CliTurn.

(** ** A turn of the Streamlit app *)

(** The thread a turn of the app talks to: the one of the session, or a new
    one, whose id is the next the service issues. *)
Definition turn_thread (w : world) : string :=
  match ss_thread_id (w_session w) with
  | Some tid => tid
  | None => r_ids (w_remote w) (r_issued (w_remote w))
  end.

(** The user's message as the service files it: its id comes after that of
    the agent, and of the thread where the turn creates one. *)
Definition turn_message (w : world) (prompt : string) : rmsg :=
  {| m_id := r_ids (w_remote w)
               (match ss_thread_id (w_session w) with
                | Some _ => S (r_issued (w_remote w))
                | None => S (S (r_issued (w_remote w)))
                end);
     m_role := "user"; m_text_messages := [prompt] |}.

Definition turn_thread_after (w : world) (ms : list rmsg) (prompt : string)
  : list rmsg :=
  ms ++ [turn_message w prompt]
     ++ run_replies (r_runs (w_remote w) (r_started (w_remote w))).

(** The reply the app shows and stores: the newest text of the assistant,
    the empty text when there is none. *)
Definition turn_reply (w : world) (ms : list rmsg) (prompt : string) : string :=
  default EmptyString (latest_assistant_text (rev (turn_thread_after w ms prompt))).

(** The two entries a turn whose run does not fail stores. *)
Definition turn_entries (w : world) (ms : list rmsg) (prompt : string) : list pyval :=
  [journal_entry (w_clock w (w_ticks w) +:+ "+00:00") "user" prompt
     (Some (m_id (turn_message w prompt)));
   journal_entry (w_clock w (S (w_ticks w)) +:+ "+00:00") "assistant"
     (turn_reply w ms prompt)
     (first_assistant_id (rev (turn_thread_after w ms prompt)))].

Section StreamlitTurn.
Context `{JsonCodec}.

Ltac fields :=
  cbv beta iota zeta delta [with_ui wrote set_files set_ticks
    w_session w_remote w_fs w_ui w_clock w_ticks
    r_threads r_steps r_ids r_issued r_runs r_started r_delete_agent_ok
    ss_thread_id ss_messages ss_selected_chat ss_log_messages
    dir_exists files fsize_limit].

Ltac run_chat_turn :=
  cbv beta iota zeta delta [bind ret modify gets lift raise try_except StreamlitApp.log
    create_agent service_fresh_id messages_create runs_create_and_process
    threads_create messages_list_descending run_steps_list
    StreamlitApp._log_run_steps StreamlitApp._print_latest_assistant
    _memory_path_for_thread _memory_dir mkdir_memory delete_agent
    w_session w_remote w_fs w_ui w_clock w_ticks set_session set_remote
    set_dir_exists add_ui StreamlitApp.session_say StreamlitApp.session_clear_log
    StreamlitApp.session_log StreamlitApp.session_set_thread ss_thread_id
    ss_messages ss_selected_chat ss_log_messages
    r_threads r_steps r_ids r_issued r_runs r_started r_delete_agent_ok
    remote_issue remote_set_thread remote_ran m_id agent_id agent_name
    dir_exists files fsize_limit].

Lemma streamlit_turn_known prompt model w tid ms l :
  fsize_limit (w_fs w) = None ->
  ss_thread_id (w_session w) = Some tid ->
  r_threads (w_remote w) !! tid = Some ms ->
  run_status (r_runs (w_remote w) (r_started (w_remote w))) <> "failed" ->
  messages_of (load_of (files (w_fs w)) (journal_path tid)) = Some l ->
  exists w',
    StreamlitApp.chat_turn prompt model w = (Ok tt, w') /\
    files (w_fs w') =
      <[journal_path tid :=
          json_dump (with_messages (load_of (files (w_fs w)) (journal_path tid))
                       (last_n 20 (l ++ turn_entries w ms prompt)))]>
        (files (w_fs w)) /\
    ss_thread_id (w_session w') = Some tid /\
    ss_messages (w_session w') =
      ss_messages (w_session w)
        ++ [("user", prompt); ("assistant", turn_reply w ms prompt)] /\
    r_threads (w_remote w') !! tid = Some (turn_thread_after w ms prompt) /\
    last (w_ui w') = Some UiRerun.
Proof.
  destruct w as [[dir fs lim und] clock ticks [threads steps ids issued runs started del]
                   [smsgs sel logs stid] ui].
  unfold turn_entries, turn_reply, turn_thread_after, turn_message.
  cbn [w_fs w_session w_remote w_clock w_ticks fsize_limit files ss_thread_id r_threads
       r_runs r_started r_ids r_issued ss_messages m_id].
  intros -> -> Hms Hfail Hl.
  apply string_eqb_false in Hfail.
  unfold StreamlitApp.chat_turn.
  run_chat_turn.
  rewrite Hms. cbv beta iota zeta.
  match goal with
  | |- context [StreamlitApp._append_memory ?p ?r ?t ?m ?w0] =>
      rewrite (streamlit_append_run p r t m w0 l);
        [| split; reflexivity | exact Hl]
  end.
  fields.
  rewrite lookup_insert_eq. cbv beta iota zeta.
  rewrite Hfail. cbv beta iota zeta.
  rewrite !lookup_insert_eq. cbv beta iota zeta.
  rewrite <- !(app_assoc ms).
  change ("memory" +:+ "/conversation_" +:+ tid +:+ ".json") with (journal_path tid).
  set (pj := journal_path tid) in *.
  set (eu := journal_entry (clock ticks +:+ "+00:00") "user" prompt
               (Some (ids (S issued)))).
  assert (Hold : json_ok (PList l) = true).
  { eapply json_ok_messages_of; [apply json_ok_load_of | exact Hl]. }
  assert (Hok : json_ok (with_messages (load_of fs pj) (last_n 20 (l ++ [eu]))) = true).
  { apply json_ok_with_messages; [apply json_ok_load_of |].
    apply json_ok_last_n, json_ok_snoc; [done | apply json_ok_journal_entry]. }
  set (th := ms ++ [ {| m_id := ids (S issued); m_role := "user";
                        m_text_messages := [prompt] |} ]
                ++ run_replies (runs started)).
  assert (Hfinal : forall text,
    json_ok (with_messages (load_of fs pj)
               (last_n 20 (l ++ [eu; journal_entry (clock (S ticks) +:+ "+00:00")
                                       "assistant" text
                                       (first_assistant_id (rev th))]))) = true).
  { intros text. apply json_ok_with_messages; [apply json_ok_load_of |].
    apply json_ok_last_n.
    change (l ++ [eu; ?e]) with (l ++ [eu] ++ [e]). rewrite app_assoc.
    apply json_ok_snoc; [| apply json_ok_journal_entry].
    apply json_ok_snoc; [done | apply json_ok_journal_entry]. }
  destruct (latest_assistant_text (rev th)) as [t|] eqn:Et; cbv beta iota zeta;
    fields; rewrite lookup_insert_eq; cbv beta iota zeta;
    match goal with
    | |- context [StreamlitApp._append_memory ?p ?r ?t0 ?m ?w0] =>
        rewrite (streamlit_append_run p r t0 m w0 (last_n 20 (l ++ [eu])));
          [| split; reflexivity
           | fields; rewrite load_of_insert_dump by exact Hok;
             eapply messages_of_with_messages; exact Hl]
    end;
    fields; cbv beta iota zeta;
    rewrite load_of_insert_dump by exact Hok;
    rewrite with_messages_twice, last_n_app, <- app_assoc, insert_insert_eq;
    destruct del; cbv beta iota zeta; fields;
    (eexists; split; [reflexivity |]; fields;
     split; [reflexivity |]; split; [reflexivity |];
     split; [by rewrite <- app_assoc |];
     split; [apply lookup_insert_eq |];
     by rewrite last_snoc).
Qed.

Lemma streamlit_turn_new prompt model w l :
  fsize_limit (w_fs w) = None ->
  ss_thread_id (w_session w) = None ->
  run_status (r_runs (w_remote w) (r_started (w_remote w))) <> "failed" ->
  messages_of (load_of (files (w_fs w)) (journal_path (turn_thread w))) = Some l ->
  exists w',
    StreamlitApp.chat_turn prompt model w = (Ok tt, w') /\
    files (w_fs w') =
      <[journal_path (turn_thread w) :=
          json_dump (with_messages
                       (load_of (files (w_fs w)) (journal_path (turn_thread w)))
                       (last_n 20 (l ++ turn_entries w [] prompt)))]>
        (files (w_fs w)) /\
    ss_thread_id (w_session w') = Some (turn_thread w) /\
    ss_messages (w_session w') =
      ss_messages (w_session w)
        ++ [("user", prompt); ("assistant", turn_reply w [] prompt)] /\
    r_threads (w_remote w') !! turn_thread w = Some (turn_thread_after w [] prompt) /\
    last (w_ui w') = Some UiRerun.
Proof.
  destruct w as [[dir fs lim und] clock ticks [threads steps ids issued runs started del]
                   [smsgs sel logs stid] ui].
  unfold turn_entries, turn_reply, turn_thread_after, turn_message, turn_thread.
  cbn [w_fs w_session w_remote w_clock w_ticks fsize_limit files ss_thread_id r_threads
       r_runs r_started r_ids r_issued ss_messages m_id].
  intros -> -> Hfail Hl.
  apply string_eqb_false in Hfail.
  unfold StreamlitApp.chat_turn.
  run_chat_turn.
  rewrite lookup_insert_eq. cbv beta iota zeta.
  match goal with
  | |- context [StreamlitApp._append_memory ?p ?r ?t ?m ?w0] =>
      rewrite (streamlit_append_run p r t m w0 l);
        [| split; reflexivity | exact Hl]
  end.
  fields.
  rewrite lookup_insert_eq. cbv beta iota zeta.
  rewrite Hfail. cbv beta iota zeta.
  rewrite !lookup_insert_eq. cbv beta iota zeta.
  change ("memory" +:+ "/conversation_" +:+ ids issued +:+ ".json")
    with (journal_path (ids issued)).
  set (pj := journal_path (ids issued)) in *.
  set (eu := journal_entry (clock ticks +:+ "+00:00") "user" prompt
               (Some (ids (S (S issued))))).
  assert (Hold : json_ok (PList l) = true).
  { eapply json_ok_messages_of; [apply json_ok_load_of | exact Hl]. }
  assert (Hok : json_ok (with_messages (load_of fs pj) (last_n 20 (l ++ [eu]))) = true).
  { apply json_ok_with_messages; [apply json_ok_load_of |].
    apply json_ok_last_n, json_ok_snoc; [done | apply json_ok_journal_entry]. }
  change (([] ++ ?a) ++ ?b) with (a ++ b).
  change ([] ++ ?a ++ ?b) with (a ++ b).
  set (th := [ {| m_id := ids (S (S issued)); m_role := "user";
                  m_text_messages := [prompt] |} ]
               ++ run_replies (runs started)).
  destruct (latest_assistant_text (rev th)) as [t|] eqn:Et; cbv beta iota zeta;
    fields; rewrite lookup_insert_eq; cbv beta iota zeta;
    match goal with
    | |- context [StreamlitApp._append_memory ?p ?r ?t0 ?m ?w0] =>
        rewrite (streamlit_append_run p r t0 m w0 (last_n 20 (l ++ [eu])));
          [| split; reflexivity
           | fields; rewrite load_of_insert_dump by exact Hok;
             eapply messages_of_with_messages; exact Hl]
    end;
    fields; cbv beta iota zeta;
    rewrite load_of_insert_dump by exact Hok;
    rewrite with_messages_twice, last_n_app, <- app_assoc, insert_insert_eq;
    destruct del; cbv beta iota zeta; fields;
    (eexists; split; [reflexivity |]; fields;
     split; [reflexivity |]; split; [reflexivity |];
     split; [by rewrite <- app_assoc |];
     split; [apply lookup_insert_eq |];
     by rewrite last_snoc).
Qed.

(** A turn of the Streamlit app on the thread of the session, when the run
    does not fail.  The turn ends normally and asks for a rerun, whether or
    not the agent could be deleted.  The journal of the thread then holds
    the last 20 of its former entries followed by the user's entry and an
    assistant entry; the session's message list has gained the same two
    messages.  The assistant entry is stored whatever the reply is: where
    the thread shows no text of the assistant, its text is empty.  (The
    command-line clients store no entry then.) *)
Theorem streamlit_turn_stores_the_exchange prompt model w tid ms l :
  fsize_limit (w_fs w) = None ->
  ss_thread_id (w_session w) = Some tid ->
  r_threads (w_remote w) !! tid = Some ms ->
  run_status (r_runs (w_remote w) (r_started (w_remote w))) <> "failed" ->
  messages_of (load_of (files (w_fs w)) (journal_path tid)) = Some l ->
  exists w',
    StreamlitApp.chat_turn prompt model w = (Ok tt, w') /\
    messages_of (load_of (files (w_fs w')) (journal_path tid))
      = Some (last_n 20 (l ++ turn_entries w ms prompt)) /\
    (forall q, q <> journal_path tid -> files (w_fs w') !! q = files (w_fs w) !! q) /\
    ss_thread_id (w_session w') = Some tid /\
    ss_messages (w_session w') =
      ss_messages (w_session w)
        ++ [("user", prompt); ("assistant", turn_reply w ms prompt)] /\
    r_threads (w_remote w') !! tid = Some (turn_thread_after w ms prompt) /\
    last (w_ui w') = Some UiRerun /\
    (latest_assistant_text (rev (turn_thread_after w ms prompt)) = None ->
     turn_reply w ms prompt = EmptyString).
Proof.
  intros Hlim Htid Hms Hfail Hl.
  destruct (streamlit_turn_known prompt model w tid ms l Hlim Htid Hms Hfail Hl)
    as (w' & Hrun & Hfiles & Hs & Hm & Hr & Hui).
  exists w'. split; [exact Hrun |]. rewrite Hfiles.
  split.
  { rewrite load_of_insert_dump.
    - by eapply messages_of_with_messages.
    - apply json_ok_with_messages; [apply json_ok_load_of |].
      apply json_ok_last_n. unfold turn_entries.
      change (l ++ [?a; ?b]) with (l ++ [a] ++ [b]). rewrite app_assoc.
      apply json_ok_snoc; [| apply json_ok_journal_entry].
      apply json_ok_snoc; [| apply json_ok_journal_entry].
      eapply json_ok_messages_of; [apply json_ok_load_of | exact Hl]. }
  split; [intros q Hq; by rewrite lookup_insert_ne |].
  split; [exact Hs |]. split; [exact Hm |]. split; [exact Hr |].
  split; [exact Hui |].
  intros Hnone. unfold turn_reply. by rewrite Hnone.
Qed.

Lemma omap_all_none {A B} (f : A -> option B) l :
  Forall (fun x => f x = None) l -> omap f l = [].
Proof.
  induction 1 as [|x l Hx _ IH]; [done |]. simpl. by rewrite Hx.
Qed.

(** A conversation begun in the Streamlit app is saved and never listed.
    The first turn of a session creates a thread and writes its journal,
    and the app stamps no journal with a thread id; so the journal carries
    [thread_id: null], and the listing, which skips such journals, does not
    show the conversation.  In a directory that held no journal before, the
    chat history is empty after the turn. *)
Theorem streamlit_conversation_is_saved_but_not_listed prompt model w :
  fsize_limit (w_fs w) = None ->
  ss_thread_id (w_session w) = None ->
  run_status (r_runs (w_remote w) (r_started (w_remote w))) <> "failed" ->
  journal_files (files (w_fs w)) = [] ->
  files (w_fs w) !! journal_path (turn_thread w) = None ->
  exists w',
    StreamlitApp.chat_turn prompt model w = (Ok tt, w') /\
    ss_thread_id (w_session w') = Some (turn_thread w) /\
    _load_memory (journal_path (turn_thread w)) w' =
      (Ok (PDict [("thread_id", PNone);
                  ("messages", PList (turn_entries w [] prompt))]), w') /\
    StreamlitApp.get_all_threads w' = (Ok [], set_dir_exists true w').
Proof.
  intros Hlim Htid Hfail Hnone Habs.
  assert (Hfresh : load_of (files (w_fs w)) (journal_path (turn_thread w))
                   = fresh_journal) by by apply load_of_absent.
  assert (Hl : messages_of (load_of (files (w_fs w)) (journal_path (turn_thread w)))
               = Some []) by by rewrite Hfresh.
  destruct (streamlit_turn_new prompt model w [] Hlim Htid Hfail Hl)
    as (w' & Hrun & Hfiles & Hs & _ & _ & _).
  rewrite Hfresh in Hfiles.
  set (pj := journal_path (turn_thread w)) in *.
  set (doc := PDict [("thread_id", PNone);
                     ("messages", PList (turn_entries w [] prompt))]).
  assert (Hdoc : with_messages fresh_journal (last_n 20 ([] ++ turn_entries w [] prompt))
                 = doc) by reflexivity.
  rewrite Hdoc in Hfiles.
  assert (Hok : json_ok doc = true).
  { unfold doc, turn_entries. simpl. by destruct (first_assistant_id _). }
  assert (Hload : load_of (files (w_fs w')) pj = doc).
  { rewrite Hfiles. by apply load_of_insert_dump. }
  exists w'. split; [exact Hrun |]. split; [exact Hs |].
  split; [by rewrite _load_memory_run, Hload |].
  assert (Hpaths : Forall (fun q => q = pj) (journal_files (files (w_fs w')))).
  { apply Forall_forall. intros q Hq.
    apply elem_of_journal_files in Hq as [Hg [s Hs']].
    destruct (decide (q = pj)) as [-> | Hne]; [done |].
    rewrite Hfiles, lookup_insert_ne in Hs' by done.
    assert (q ∈ journal_files (files (w_fs w))) as Hin.
    { apply elem_of_journal_files. split; [done | by exists s]. }
    rewrite Hnone in Hin. by apply elem_of_nil in Hin. }
  unfold StreamlitApp.get_all_threads. unfold bind at 1. simpl.
  unfold bind, glob_conversations, gets. simpl.
  fold (journal_files (files (w_fs w'))).
  rewrite (get_all_threads_loop_fold (files (w_fs w')) _ _ []); [| done |].
  - rewrite omap_all_none; [done |].
    rewrite sorted_reverse_perm.
    eapply Forall_impl; [exact Hpaths |]. simpl. intros q ->.
    by rewrite Hload.
  - rewrite sorted_reverse_perm.
    eapply Forall_impl; [exact Hpaths |]. simpl. intros q ->.
    by rewrite Hload.
Qed.

End StreamlitTurn.

(** ** Deleting a conversation in the Streamlit app *)

Section DeleteChat.
Context `{JsonCodec}.


Lemma session_thread_is_str cur t :
  StreamlitApp.session_thread_is cur (PStr t) = bool_decide (cur = Some t).
Proof.
  destruct cur as [s|]; simpl; [| done].
  destruct (decide (s = t)) as [-> | Hne].
  - by rewrite string_eqb_refl, bool_decide_eq_true_2.
  - rewrite (proj2 (string_eqb_false s t) Hne).
    by rewrite bool_decide_eq_false_2 by congruence.
Qed.

Lemma delete_thread_key_str t w :
  StreamlitApp.delete_thread_key (PStr t) w = StreamlitApp.delete_thread t w.
Proof.
  rewrite delete_thread_world.
  unfold StreamlitApp.delete_thread_key, _memory_dir, mkdir_memory.
  unfold bind, lift, ret, try_except, modify, StreamlitApp.py_str_key,
    path_exists, gets, unlink, StreamlitApp.start_new_chat, removal_refused.
  change ("memory" +:+ "/conversation_" +:+ t +:+ ".json") with (journal_path t).
  destruct w as [[dir fs lim und] clock ticks rem sess ui].
  cbn [w_fs w_session files set_dir_exists undeletable].
  destruct (fs !! journal_path t) as [s|] eqn:E; simpl.
  - rewrite E. simpl. case_bool_decide; simpl; [done |].
    rewrite session_thread_is_str. by case_bool_decide.
  - unfold set_files, set_session. simpl. rewrite delete_id by done.
    rewrite session_thread_is_str. by case_bool_decide.
Qed.

Lemma thread_ids_labelled_find saved sel :
  head (StreamlitApp.thread_ids_labelled saved sel)
  = fst <$> List.find (fun kv => py_eq_str (snd kv) sel) saved.
Proof.
  unfold StreamlitApp.thread_ids_labelled.
  induction saved as [|kv saved IH]; simpl; [done |].
  by destruct (py_eq_str (snd kv) sel).
Qed.

Lemma delete_selected_chat_callback_run w saved :
  StreamlitApp.get_all_threads w = (Ok saved, set_dir_exists true w) ->
  StreamlitApp.delete_selected_chat_callback w =
  if string_eqb (ss_selected_chat (w_session w)) "--- Start a new chat ---"
  then (Ok (inr tt), add_ui (UiToast "No chat selected to delete.") w)
  else match StreamlitApp.thread_ids_labelled saved (ss_selected_chat (w_session w)) with
       | [] => (Ok (inl StreamlitApp.IndexError), set_dir_exists true w)
       | k :: _ =>
           (StreamlitApp.delete_thread_key k ;;; ret (inr tt)) (set_dir_exists true w)
       end.
Proof.
  intros Hlist. unfold StreamlitApp.delete_selected_chat_callback.
  unfold bind at 1. unfold gets at 1. cbv beta.
  destruct (string_eqb _ _); [done |].
  unfold bind at 1. rewrite Hlist.
  by destruct (StreamlitApp.thread_ids_labelled saved _).
Qed.

(** The button that deletes the selected chat.  With the placeholder
    selected it shows a notice and does nothing.  Otherwise it looks the
    selected label up in the listing and deletes the first thread listed
    with that label: the session remembers the label, not the thread, so of
    two conversations that begin with the same user message it is always
    the one listed first that goes, whichever the user had picked.  Its
    journal is removed where it is absent already or the system lets it be
    removed; where the system refuses, the journal stays and the error is
    shown.  Where no listed thread has the label, the lookup fails with
    [IndexError] and nothing is deleted. *)
Theorem delete_selected_chat_deletes_the_first_match w saved :
  StreamlitApp.get_all_threads w = (Ok saved, set_dir_exists true w) ->
  (ss_selected_chat (w_session w) = "--- Start a new chat ---" ->
   StreamlitApp.delete_selected_chat_callback w =
     (Ok (inr tt), add_ui (UiToast "No chat selected to delete.") w)) /\
  (ss_selected_chat (w_session w) <> "--- Start a new chat ---" ->
   match List.find (fun kv => py_eq_str (snd kv) (ss_selected_chat (w_session w)))
           saved with
   | None =>
       StreamlitApp.delete_selected_chat_callback w =
         (Ok (inl StreamlitApp.IndexError), set_dir_exists true w)
   | Some (PStr t, _) =>
       exists w',
         StreamlitApp.delete_selected_chat_callback w = (Ok (inr tt), w') /\
         w_remote w' = w_remote w /\
         (files (w_fs w) !! journal_path t = None \/
          journal_path t ∉ undeletable (w_fs w) ->
          files (w_fs w') = delete (journal_path t) (files (w_fs w)) /\
          w_ui w' = w_ui w) /\
         (is_Some (files (w_fs w) !! journal_path t) ->
          journal_path t ∈ undeletable (w_fs w) ->
          files (w_fs w') = files (w_fs w) /\
          exists msg,
            w_ui w' = w_ui w ++ [UiError ("Error deleting thread: " +:+ msg)])
   | Some _ => True
   end).
Proof.
  intros Hlist. rewrite (delete_selected_chat_callback_run w saved Hlist).
  split.
  - intros ->. by rewrite string_eqb_refl.
  - intros Hsel. apply string_eqb_false in Hsel. rewrite Hsel.
    pose proof (thread_ids_labelled_find saved (ss_selected_chat (w_session w)))
      as Hfind.
    destruct (List.find _ saved) as [[k label]|] eqn:Ef.
    + destruct (StreamlitApp.thread_ids_labelled saved _) as [|k' ks] eqn:Ek;
        [done |].
      simpl in Hfind. injection Hfind as ->.
      destruct k as [| | |t| |]; try done.
      unfold bind. rewrite delete_thread_key_str, delete_thread_world.
      eexists. split; [reflexivity |].
      split; [by destruct (removal_refused _ _) |]. split.
      * intros Hfree.
        rewrite (removal_refused_false (journal_path t) (set_dir_exists true w))
          by exact Hfree.
        by split.
      * intros [s Hs] Hheld.
        rewrite (removal_refused_true (journal_path t) (set_dir_exists true w) s)
          by done.
        split; [done |]. by eexists.
    + by destruct (StreamlitApp.thread_ids_labelled saved _) as [|k' ks] eqn:Ek.
Qed.

End DeleteChat.

(** * Further concrete runs *)

(** A journal file cut short by a failed write. *)
Definition world_garbled : world :=
  with_files {[ path_t1 := "{ thread_id: t1, mess" ]} world0.

Lemma append_over_unparsable_file_witness :
  (exists w',
     ClientV2._append_memory path_t1 "user" "Hello" (Some "m1") world_garbled
       = (Ok tt, w') /\
     ClientPython._append_memory path_t1 "user" "Hello" (Some "m1") world_garbled
       = (Ok tt, w') /\
     files (w_fs w') !! path_t1 =
       Some (json_dump (one_entry_journal
               (journal_entry (clock0 0 +:+ "Z") "user" "Hello" (Some "m1")))) /\
     _load_memory path_t1 w' =
       (Ok (one_entry_journal
              (journal_entry (clock0 0 +:+ "Z") "user" "Hello" (Some "m1"))), w')) /\
  (exists w',
     StreamlitApp._append_memory path_t1 "user" "Hello" (Some "m1") world_garbled
       = (Ok tt, w') /\
     files (w_fs w') !! path_t1 =
       Some (json_dump (one_entry_journal
               (journal_entry (clock0 0 +:+ "+00:00") "user" "Hello" (Some "m1")))) /\
     _load_memory path_t1 w' =
       (Ok (one_entry_journal
              (journal_entry (clock0 0 +:+ "+00:00") "user" "Hello" (Some "m1"))), w')).
Proof.
  apply (append_over_unparsable_file_starts_anew path_t1 "{ thread_id: t1, mess"
           "user" "Hello" (Some "m1") world_garbled).
  - split; reflexivity.
  - vm_compute. reflexivity.
  - vm_compute. reflexivity.
Defined.

Lemma append_rejects_foreign_document_witness :
  ClientV2._append_memory path_t1 "user" "Hello" (Some "m1") world_list_file
    = (Raise AttributeError, world_list_file) /\
  ClientPython._append_memory path_t1 "user" "Hello" (Some "m1") world_list_file
    = (Raise AttributeError, world_list_file) /\
  StreamlitApp._append_memory path_t1 "user" "Hello" (Some "m1") world_list_file
    = (Raise AttributeError, world_list_file).
Proof.
  apply (append_rejects_foreign_document path_t1 "[]" (PList [])).
  - vm_compute. reflexivity.
  - vm_compute. reflexivity.
  - left. discriminate.
Defined.

Definition entries_t1 : list pyval :=
  [journal_entry "2025-01-01T09:00:00.000001Z" "user" "Hi" (Some "m1");
   journal_entry "2025-01-01T09:00:05.000002Z" "assistant" "Hello!" (Some "m2")].

Definition fields_t1 : list (string * pyval) :=
  [("thread_id", PStr "t1"); ("messages", PList entries_t1)].

Lemma append_changes_messages_only_witness :
  exists w1 d1 w2 d2,
    ClientV2._append_memory path_t1 "user" "Hello" (Some "m3") world_t1 = (Ok tt, w1) /\
    _load_memory path_t1 w1 = (Ok (PDict d1), w1) /\
    dict_get d1 "messages" =
      Some (PList (entries_t1
                   ++ [journal_entry (clock0 0 +:+ "Z") "user" "Hello" (Some "m3")])) /\
    StreamlitApp._append_memory path_t1 "user" "Hello" (Some "m3") world_t1
      = (Ok tt, w2) /\
    _load_memory path_t1 w2 = (Ok (PDict d2), w2) /\
    dict_get d2 "messages" =
      Some (PList (last_n 20
              (entries_t1
               ++ [journal_entry (clock0 0 +:+ "+00:00") "user" "Hello" (Some "m3")]))) /\
    (forall k, k <> "messages" ->
       dict_get d1 k = dict_get fields_t1 k /\ dict_get d2 k = dict_get fields_t1 k) /\
    map fst d1 = map fst d2 /\
    map fst d1 =
      match dict_get fields_t1 "messages" with
      | Some _ => map fst fields_t1
      | None => map fst fields_t1 ++ ["messages"]
      end.
Proof.
  apply (append_changes_messages_only path_t1 (json_dump journal_t1) fields_t1
           entries_t1 "user" "Hello" (Some "m3") world_t1).
  - split; reflexivity.
  - vm_compute. reflexivity.
  - vm_compute. reflexivity.
  - left. reflexivity.
Defined.

Lemma stamping_again_witness :
  exists w',
    ClientV2.main_prepare_memory "t1" world_t1 = (Ok (journal_path "t1"), w') /\
    ClientPython.main_prepare_memory "t1" world_t1 = (Ok (journal_path "t1"), w') /\
    ClientV2.main_prepare_memory "t1" w' = (Ok (journal_path "t1"), w') /\
    ClientPython.main_prepare_memory "t1" w' = (Ok (journal_path "t1"), w') /\
    (dict_get fields_t1 "thread_id" = Some (PStr "t1") ->
     _load_memory (journal_path "t1") w' = (Ok (PDict fields_t1), w')).
Proof.
  apply (stamping_again_changes_nothing "t1" world_t1 fields_t1).
  - reflexivity.
  - vm_compute. reflexivity.
Defined.

Lemma listings_raise_witness :
  (exists e, StreamlitApp.get_all_threads world_list_file
             = (Raise e, set_dir_exists true world_list_file)) /\
  (exists e, ClientPython._list_saved_threads world_list_file
             = (Raise e, set_dir_exists true world_list_file)).
Proof.
  apply (listings_raise_on_a_foreign_journal_file world_list_file path_t1 "[]"
           (PList [])).
  - vm_compute. reflexivity.
  - vm_compute. reflexivity.
  - vm_compute. reflexivity.
  - discriminate.
Defined.

Lemma list_saved_threads_menu_witness :
  exists rows,
    ClientPython._list_saved_threads world_listing
      = (Ok rows, set_dir_exists true world_listing) /\
    rows ≡ₚ omap (fun p => menu_row p (load_of (files (w_fs world_listing)) p))
              (journal_files (files (w_fs world_listing))) /\
    newest_first rows /\
    Forall (fun x => forall t, ClientPython.st_last_text_snippet x = PStr t ->
                               String.length t <= 60) rows.
Proof.
  apply (list_saved_threads_gives_the_menu world_listing).
  apply (bool_decide_unpack _). vm_compute. exact I.
Defined.

Lemma get_all_threads_one_label_witness :
  exists paths listing,
    paths = sorted_reverse (journal_files (files (w_fs world_copied))) /\
    descending paths /\
    StreamlitApp.get_all_threads world_copied =
      (Ok (map row_pair listing), set_dir_exists true world_copied) /\
    nodup_keys (map fst listing) = true /\
    forall t,
      dict_get listing t =
      snd <$> last (filter (fun r => fst r = t)
                      (omap (fun p => listed_row (load_of (files (w_fs world_copied)) p))
                         paths)).
Proof.
  apply (get_all_threads_keeps_one_label_per_thread_id world_copied).
  apply (bool_decide_unpack _). vm_compute. exact I.
Defined.

Definition thread_t1 : list rmsg :=
  [ {| m_id := "m1"; m_role := "user"; m_text_messages := ["Hi"] |};
    {| m_id := "m2"; m_role := "assistant"; m_text_messages := ["Hello!"] |} ].


(** A run that completes with a reply. *)
Definition run_completed : run_result :=
  {| run_id := "run_2"; run_status := "completed";
     run_last_error := "None";
     run_replies :=
       [ {| m_id := "m9"; m_role := "assistant";
            m_text_messages := ["Azure is a cloud platform."] |} ];
     run_steps :=
       [ {| step_id := "step_1"; step_status := "completed";
            step_tool_calls :=
              [ {| tc_id := Some "call_1"; tc_type := Some "mcp";
                   tc_name := None |} ] |} ] |}.

Definition remote_completing (r : remote) : remote :=
  {| r_threads := r_threads r; r_steps := r_steps r; r_ids := r_ids r;
     r_issued := r_issued r; r_runs := fun _ => run_completed;
     r_started := r_started r; r_delete_agent_ok := false |}.

(** The session on thread [t1], the next run going well, the agent not
    deletable. *)
Definition world_continued : world :=
  set_remote (remote_completing remote_t1) world_resumed_streamlit.

Lemma streamlit_turn_witness :
  exists w',
    StreamlitApp.chat_turn "What is Azure?" "gpt-4o" world_continued = (Ok tt, w') /\
    messages_of (load_of (files (w_fs w')) (journal_path "t1"))
      = Some (last_n 20
                (entries_t1 ++ turn_entries world_continued thread_t1 "What is Azure?")) /\
    (forall q, q <> journal_path "t1" ->
       files (w_fs w') !! q = files (w_fs world_continued) !! q) /\
    ss_thread_id (w_session w') = Some "t1" /\
    ss_messages (w_session w') =
      ss_messages (w_session world_continued)
        ++ [("user", "What is Azure?");
            ("assistant", turn_reply world_continued thread_t1 "What is Azure?")] /\
    r_threads (w_remote w') !! "t1"
      = Some (turn_thread_after world_continued thread_t1 "What is Azure?") /\
    last (w_ui w') = Some UiRerun /\
    (latest_assistant_text
       (rev (turn_thread_after world_continued thread_t1 "What is Azure?")) = None ->
     turn_reply world_continued thread_t1 "What is Azure?" = EmptyString).
Proof.
  apply (streamlit_turn_stores_the_exchange "What is Azure?" "gpt-4o" world_continued
           "t1" thread_t1 entries_t1).
  - reflexivity.
  - reflexivity.
  - vm_compute. reflexivity.
  - vm_compute. discriminate.
  - vm_compute. reflexivity.
Defined.

(** A first visit to the app: no journal, no thread in the session. *)
Definition world_first_visit : world :=
  set_remote (remote_completing remote0) world0.

Lemma streamlit_not_listed_witness :
  exists w',
    StreamlitApp.chat_turn "What is Azure?" "gpt-4o" world_first_visit = (Ok tt, w') /\
    ss_thread_id (w_session w') = Some (turn_thread world_first_visit) /\
    _load_memory (journal_path (turn_thread world_first_visit)) w' =
      (Ok (PDict [("thread_id", PNone);
                  ("messages",
                   PList (turn_entries world_first_visit [] "What is Azure?"))]), w') /\
    StreamlitApp.get_all_threads w' = (Ok [], set_dir_exists true w').
Proof.
  apply (streamlit_conversation_is_saved_but_not_listed "What is Azure?" "gpt-4o"
           world_first_visit).
  - reflexivity.
  - reflexivity.
  - vm_compute. discriminate.
  - vm_compute. reflexivity.
  - vm_compute. reflexivity.
Defined.

(** Two conversations that begin with the same message, the second of them
    picked in the chat history. *)
Definition journal_hello_again : pyval :=
  PDict [("thread_id", PStr "t5");
         ("messages",
          PList [journal_entry "2025-01-05T09:00:00.000001Z" "user" "Hello" (Some "m7");
                 journal_entry "2025-01-05T09:00:05.000002Z" "assistant"
                   "Good morning" (Some "m8")])].

Definition world_same_label : world :=
  set_session
    {| ss_messages := [("user", "Hello"); ("assistant", "Hi there")];
       ss_selected_chat := "Hello"; ss_log_messages := [];
       ss_thread_id := Some "t1" |}
    (with_files
       (<[ journal_path "t1" := json_dump journal_hello ]>
          {[ journal_path "t5" := json_dump journal_hello_again ]})
       world0).

(** The session is on [t1]; the listing has [t5] first.  The button deletes
    the journal of [t5] and keeps that of [t1]. *)
Lemma delete_selected_chat_witness :
  exists w',
    StreamlitApp.delete_selected_chat_callback world_same_label = (Ok (inr tt), w') /\
    files (w_fs w') = {[ journal_path "t1" := json_dump journal_hello ]} /\
    w_session w' = w_session world_same_label /\
    w_ui w' = [].
Proof.
  destruct (delete_selected_chat_deletes_the_first_match world_same_label
              [(PStr "t5", PStr "Hello"); (PStr "t1", PStr "Hello")])
    as [_ Hsome].
  - vm_compute. reflexivity.
  - destruct (Hsome ltac:(discriminate)) as (w' & Hrun & _ & Hfree & _).
    destruct Hfree as [Hfiles Hui].
    + right. vm_compute. intros Hin. discriminate Hin.
    + exists w'. split; [exact Hrun |]. split; [rewrite Hfiles; reflexivity |].
      split; [| exact Hui].
      vm_compute in Hrun. by injection Hrun as <-.
Defined.

(** * From the command-line client to the chat history *)

(** ** The journal of a thread is among the files the listings scan *)

Lemma substring_all s : substring 0 (String.length s) s = s.
Proof. induction s as [|c s IH]; simpl; [done | by rewrite IH]. Qed.

Lemma substring_skip a b n :
  substring (String.length a) n (a +:+ b) = substring 0 n b.
Proof.
  induction a as [|c a IH]; [done |].
  change (String c a +:+ b) with (String c (a +:+ b)). simpl. exact IH.
Qed.

Lemma no_slash_append a b : no_slash (a +:+ b) = no_slash a && no_slash b.
Proof.
  unfold no_slash. induction a as [|c a IH]; [done |].
  change (String c a +:+ b) with (String c (a +:+ b)). simpl.
  by rewrite IH, andb_assoc.
Qed.

Lemma prefix_append a b : String.prefix a (a +:+ b) = true.
Proof.
  induction a as [|c a IH]; [by destruct b |].
  change (String c a +:+ b) with (String c (a +:+ b)). simpl.
  by destruct (ascii_dec c c).
Qed.

(** A journal path as the glob sees it: the directory, then a file name
    that begins and ends as the pattern asks. *)
Lemma journal_path_parts tid :
  journal_path tid = "memory/" +:+ ("conversation_" +:+ tid +:+ ".json").
Proof. reflexivity. Qed.

Lemma glob_match_journal_path tid : glob_match (journal_path tid) = no_slash tid.
Proof.
  assert (Hlen : String.length (journal_path tid) = 25 + String.length tid).
  { rewrite journal_path_parts, !string_append_length. simpl. lia. }
  assert (Hpre : String.prefix "memory/conversation_" (journal_path tid) = true).
  { change (journal_path tid) with ("memory/conversation_" +:+ (tid +:+ ".json")).
    apply prefix_append. }
  assert (Hend : string_ends_with ".json" (journal_path tid) = true).
  { unfold string_ends_with. apply string_eqb_true. rewrite Hlen.
    change (journal_path tid) with (("memory/conversation_" +:+ tid) +:+ ".json").
    replace (25 + String.length tid - String.length ".json")
      with (String.length ("memory/conversation_" +:+ tid))
      by (rewrite string_append_length; simpl; lia).
    rewrite substring_skip. reflexivity. }
  assert (Hleb : Nat.leb 25 (String.length (journal_path tid)) = true).
  { apply Nat.leb_le. lia. }
  assert (Hrest : substring 7 (String.length (journal_path tid) - 7) (journal_path tid)
                  = "conversation_" +:+ tid +:+ ".json").
  { rewrite Hlen, journal_path_parts.
    change 7 with (String.length "memory/") at 1.
    rewrite substring_skip.
    replace (25 + String.length tid - 7)
      with (String.length ("conversation_" +:+ tid +:+ ".json"))
      by (rewrite !string_append_length; simpl; lia).
    apply substring_all. }
  unfold glob_match. rewrite Hpre, Hend, Hleb, Hrest. rewrite !no_slash_append.
  change (no_slash "conversation_") with true.
  change (no_slash ".json") with true.
  cbn [andb]. by rewrite andb_true_r.
Qed.

Lemma all_equal_singleton {A} (x : A) l :
  NoDup l -> Forall (fun y => y = x) l -> x ∈ l -> l = [x].
Proof.
  intros Hnd Hall Hin. destruct l as [|a l]; [by apply elem_of_nil in Hin |].
  apply Forall_cons in Hall as [-> Hall]. apply NoDup_cons in Hnd as [Hx _].
  destruct l as [|b l]; [done |].
  apply Forall_cons in Hall as [-> _]. destruct Hx. apply list_elem_of_here.
Qed.

Lemma journal_files_only fs pj s :
  journal_files fs = [] -> glob_match pj = true ->
  journal_files (<[pj := s]> fs) = [pj].
Proof.
  intros Hnone Hg. apply all_equal_singleton.
  - apply NoDup_journal_files.
  - apply Forall_forall. intros q Hq.
    apply elem_of_journal_files in Hq as [Hgq [s' Hs']].
    destruct (decide (q = pj)) as [-> | Hne]; [done |].
    rewrite lookup_insert_ne in Hs' by done.
    assert (q ∈ journal_files fs) as Hin.
    { apply elem_of_journal_files. split; [done | by exists s']. }
    rewrite Hnone in Hin. by apply elem_of_nil in Hin.
  - apply elem_of_journal_files. split; [done |].
    exists s. apply lookup_insert_eq.
Qed.

Section CliToHistory.
Context `{JsonCodec}.

(** The first conversation of the command-line client shows in the chat
    history of the app.  The client stamps the journal of its thread and
    then takes a turn; in a directory that held no journal before, the
    listing of the Streamlit app then has exactly one entry: the thread,
    labelled with the line the user typed.  The thread id must be one that
    names a file of the directory: not empty, and without a slash. *)
Theorem cli_conversation_shows_in_the_chat_history tid aid user_input w ms :
  fsize_limit (w_fs w) = None ->
  journal_files (files (w_fs w)) = [] ->
  files (w_fs w) !! journal_path tid = None ->
  tid <> EmptyString ->
  no_slash tid = true ->
  r_threads (w_remote w) !! tid = Some ms ->
  (exists w',
     (mem_path <- ClientV2.main_prepare_memory tid ;;
      ClientV2.main_turn tid aid mem_path user_input) w = (Ok tt, w') /\
     StreamlitApp.get_all_threads w' =
       (Ok [(PStr tid, PStr user_input)], set_dir_exists true w')) /\
  (exists w',
     (mem_path <- ClientPython.main_prepare_memory tid ;;
      ClientPython.main_turn tid aid mem_path user_input) w = (Ok tt, w') /\
     StreamlitApp.get_all_threads w' =
       (Ok [(PStr tid, PStr user_input)], set_dir_exists true w')).
Proof.
  intros Hlim Hnone Habs Htid Hslash Hms.
  assert (Hfresh : load_of (files (w_fs w)) (journal_path tid) = fresh_journal)
    by by apply load_of_absent.
  set (pj := journal_path tid) in *.
  set (stamped_doc := PDict [("thread_id", PStr tid); ("messages", PList [])]).
  set (w1 := wrote pj (json_dump stamped_doc) (set_dir_exists true w)).
  assert (Hprep : ClientV2.main_prepare_memory tid w = (Ok pj, w1)).
  { by rewrite (prepare_memory_run tid w _ Hlim Hfresh). }
  assert (Hw1 : writable w1) by (split; [reflexivity | exact Hlim]).
  assert (Hload1 : load_of (files (w_fs w1)) pj = stamped_doc).
  { unfold w1. by rewrite load_of_wrote. }
  assert (Hl1 : messages_of (load_of (files (w_fs w1)) pj) = Some [])
    by by rewrite Hload1.
  assert (Hlist : forall w',
    files (w_fs w') = <[pj := json_dump (with_messages stamped_doc
                                          ([] ++ cli_turn_entries w1 ms user_input))]>
                        (files (w_fs w)) ->
    StreamlitApp.get_all_threads w' =
      (Ok [(PStr tid, PStr user_input)], set_dir_exists true w')).
  { intros w' Hfiles.
    set (doc := with_messages stamped_doc ([] ++ cli_turn_entries w1 ms user_input))
      in *.
    assert (Hok : json_ok doc = true).
    { unfold doc, cli_turn_entries. simpl.
      destruct (latest_assistant_text _) as [t|]; [| done].
      destruct (string_eqb t EmptyString); [done |]. simpl.
      by destruct (first_assistant_id _). }
    assert (Hload : load_of (files (w_fs w')) pj = doc).
    { rewrite Hfiles. by apply load_of_insert_dump. }
    assert (Hrow : listed_row doc = Some (tid, PStr user_input)).
    { unfold doc, cli_turn_entries. simpl.
      apply string_eqb_false in Htid. rewrite Htid. reflexivity. }
    assert (Hwf : journal_wf doc = true).
    { unfold doc, cli_turn_entries. simpl.
      destruct (latest_assistant_text _) as [t|]; [| done].
      by destruct (string_eqb t EmptyString). }
    unfold StreamlitApp.get_all_threads. unfold bind at 1. simpl.
    unfold bind, glob_conversations, gets. simpl.
    fold (journal_files (files (w_fs w'))).
    rewrite Hfiles, (journal_files_only _ pj) by
      (done || (unfold pj; by rewrite glob_match_journal_path)).
    rewrite (get_all_threads_loop_fold (files (w_fs w')) _ _ []).
    - simpl. rewrite Hload, Hrow. reflexivity.
    - done.
    - apply Forall_cons. split; [by rewrite Hload | by apply Forall_nil]. }
  assert (Hms1 : r_threads (w_remote w1) !! tid = Some ms) by exact Hms.
  assert (Hfiles1 : files (w_fs w1) = <[pj := json_dump stamped_doc]> (files (w_fs w)))
    by reflexivity.
  split.
  - destruct (client_v2_turn_run tid aid pj user_input w1 ms [] Hw1 Hms1 Hl1)
      as (w' & Hrun & _ & Hfiles).
    exists w'. unfold bind. rewrite Hprep. split; [exact Hrun |].
    apply Hlist. rewrite Hfiles, Hload1, Hfiles1. apply insert_insert_eq.
  - destruct (client_python_turn_run tid aid pj user_input w1 ms [] Hw1 Hms1 Hl1)
      as (w' & Hrun & _ & Hfiles).
    exists w'. unfold bind.
    change (ClientPython.main_prepare_memory tid w)
      with (ClientV2.main_prepare_memory tid w).
    rewrite Hprep. split; [exact Hrun |].
    apply Hlist. rewrite Hfiles, Hload1, Hfiles1. apply insert_insert_eq.
Qed.

End CliToHistory.

(** ** Thread ids that name no file of the directory *)

Section GlobRoundTrip.
Context `{JsonCodec}.

(** The journal of a thread is found by the listings' scan of the directory
    exactly when its thread id holds no slash.  The path
    [_memory_path_for_thread] builds puts the id between [conversation_] and
    [.json]; once a file is written there, [glob("conversation_*.json")]
    yields the path when the id has no slash, and does not when it has one,
    since the file then lies below the directory. *)
Theorem journal_of_a_thread_is_scanned_unless_its_id_has_a_slash tid w :
  exists p w1,
    _memory_path_for_thread tid w = (Ok p, w1) /\
    p = "memory/conversation_" +:+ tid +:+ ".json" /\
    forall s w2 paths,
      write_text p s w1 = (Ok tt, w2) ->
      glob_conversations w2 = (Ok paths, w2) ->
      (p ∈ paths <-> no_slash tid = true).
Proof.
  exists (journal_path tid), (set_dir_exists true w).
  split; [apply _memory_path_for_thread_run |]. split; [reflexivity |].
  intros s w2 paths Hwrite Hglob.
  assert (Hfiles : files (w_fs w2) !! journal_path tid = Some s).
  { unfold write_text in Hwrite. cbn [w_fs set_dir_exists dir_exists fsize_limit] in Hwrite.
    destruct (fsize_limit (w_fs w)) as [lim|].
    - destruct (Nat.ltb lim (String.length s)); [done |].
      injection Hwrite as <-. simpl. apply lookup_insert_eq.
    - injection Hwrite as <-. simpl. apply lookup_insert_eq. }
  unfold glob_conversations, gets in Hglob. injection Hglob as <-.
  fold (journal_files (files (w_fs w2))).
  rewrite elem_of_journal_files, glob_match_journal_path.
  split; [by intros [? _] | intros Hs; split; [done | by exists s]].
Qed.

End GlobRoundTrip.

(** ** Turns that fail *)

Section FailingTurns.
Context `{JsonCodec}.

(** A turn on a thread the service does not know.  The command-line turn
    raises at once and leaves the world as it was.  The Streamlit turn has
    by then cleared the log, put the user's message into the session and
    created its agent; it raises too, so the message shows in the session
    and is in no journal, no rerun is asked for, and the agent is not
    deleted: nothing in the script catches the error. *)
Theorem turn_on_an_unknown_thread_stores_nothing tid aid p user_input model w :
  r_threads (w_remote w) !! tid = None ->
  ClientV2.main_turn tid aid p user_input w = (Raise ServiceError, w) /\
  ClientPython.main_turn tid aid p user_input w = (Raise ServiceError, w) /\
  (ss_thread_id (w_session w) = Some tid ->
   exists w',
     StreamlitApp.chat_turn user_input model w = (Raise ServiceError, w') /\
     files (w_fs w') = files (w_fs w) /\
     ss_messages (w_session w') = ss_messages (w_session w) ++ [("user", user_input)] /\
     r_issued (w_remote w') = S (r_issued (w_remote w)) /\
     w_ui w' = w_ui w).
Proof.
  intros Hnone. split; [| split].
  - unfold ClientV2.main_turn, messages_create. unfold bind at 1. unfold bind at 1.
    by rewrite Hnone.
  - unfold ClientPython.main_turn, messages_create. unfold bind at 1. unfold bind at 1.
    by rewrite Hnone.
  - destruct w as [[dir fs lim und] clock ticks [threads steps ids issued runs started del]
                     [smsgs sel logs stid] ui].
    cbn [w_fs w_session w_remote w_ui files ss_thread_id ss_messages r_threads r_issued]
      in *.
    intros ->. unfold StreamlitApp.chat_turn.
    cbv beta iota zeta delta [bind ret modify gets lift raise StreamlitApp.log
      create_agent service_fresh_id messages_create
      _memory_path_for_thread _memory_dir mkdir_memory
      w_session w_remote w_fs w_ui w_clock w_ticks set_session set_remote
      set_dir_exists add_ui StreamlitApp.session_say StreamlitApp.session_clear_log
      StreamlitApp.session_log ss_thread_id
      ss_messages ss_selected_chat ss_log_messages
      r_threads r_steps r_ids r_issued r_runs r_started r_delete_agent_ok
      remote_issue agent_id agent_name dir_exists files fsize_limit].
    rewrite Hnone. cbv beta iota zeta. eexists. split; [reflexivity |]. done.
Qed.

(** The user's message is posted before it is stored.  When the journal
    cannot be written (here: the [memory] directory is gone by the time of
    the turn), the command-line turn fails with [OSError] after the service
    has filed the message: the thread holds it, no journal does, and the run
    of the turn is never started. *)
Theorem unwritable_journal_leaves_the_message_posted tid aid p user_input w ms l :
  dir_exists (w_fs w) = false ->
  r_threads (w_remote w) !! tid = Some ms ->
  messages_of (load_of (files (w_fs w)) p) = Some l ->
  (exists w',
     ClientV2.main_turn tid aid p user_input w = (Raise OSError, w') /\
     r_threads (w_remote w') !! tid = Some (ms ++ [user_message w user_input]) /\
     files (w_fs w') = files (w_fs w) /\
     r_started (w_remote w') = r_started (w_remote w)) /\
  (exists w',
     ClientPython.main_turn tid aid p user_input w = (Raise OSError, w') /\
     r_threads (w_remote w') !! tid = Some (ms ++ [user_message w user_input]) /\
     files (w_fs w') = files (w_fs w) /\
     r_started (w_remote w') = r_started (w_remote w)).
Proof.
  destruct w as [[dir fs lim und] clock ticks [threads steps ids issued runs started del]
                   sess ui].
  unfold user_message.
  cbn [w_fs w_remote files dir_exists r_threads r_started r_ids r_issued].
  intros -> Hms Hl.
  split.
  - unfold ClientV2.main_turn.
    cbv beta iota zeta delta [bind ret modify gets lift raise
      service_fresh_id messages_create
      w_session w_remote w_fs w_ui w_clock w_ticks set_session set_remote
      r_threads r_steps r_ids r_issued r_runs r_started r_delete_agent_ok
      remote_issue remote_set_thread m_id dir_exists files fsize_limit].
    rewrite Hms. cbv beta iota zeta.
    match goal with
    | |- context [ClientV2._append_memory ?p0 ?r ?t ?m ?w0] =>
        rewrite (client_append_writes p0 r t m w0 l) by exact Hl
    end.
    unfold write_text. cbn [w_fs set_ticks dir_exists].
    eexists. split; [reflexivity |]. cbn [w_remote r_threads w_fs files r_started].
    split; [apply lookup_insert_eq | done].
  - unfold ClientPython.main_turn.
    change ClientPython._append_memory with ClientV2._append_memory.
    cbv beta iota zeta delta [bind ret modify gets lift raise
      service_fresh_id messages_create
      w_session w_remote w_fs w_ui w_clock w_ticks set_session set_remote
      r_threads r_steps r_ids r_issued r_runs r_started r_delete_agent_ok
      remote_issue remote_set_thread m_id dir_exists files fsize_limit].
    rewrite Hms. cbv beta iota zeta.
    match goal with
    | |- context [ClientV2._append_memory ?p0 ?r ?t ?m ?w0] =>
        rewrite (client_append_writes p0 r t m w0 l) by exact Hl
    end.
    unfold write_text. cbn [w_fs set_ticks dir_exists].
    eexists. split; [reflexivity |]. cbn [w_remote r_threads w_fs files r_started].
    split; [apply lookup_insert_eq | done].
Qed.

End FailingTurns.

(** ** Further concrete runs: from one client to the other, and failures *)

(** The service knows thread [t1]; the directory holds no journal yet. *)
Definition world_before_cli : world :=
  set_remote (remote_completing remote_t1) world0.

Lemma cli_conversation_in_history_witness :
  (exists w',
     (mem_path <- ClientV2.main_prepare_memory "t1" ;;
      ClientV2.main_turn "t1" "agent_1" mem_path "What is Azure?") world_before_cli
       = (Ok tt, w') /\
     StreamlitApp.get_all_threads w' =
       (Ok [(PStr "t1", PStr "What is Azure?")], set_dir_exists true w')) /\
  (exists w',
     (mem_path <- ClientPython.main_prepare_memory "t1" ;;
      ClientPython.main_turn "t1" "agent_1" mem_path "What is Azure?") world_before_cli
       = (Ok tt, w') /\
     StreamlitApp.get_all_threads w' =
       (Ok [(PStr "t1", PStr "What is Azure?")], set_dir_exists true w')).
Proof.
  apply (cli_conversation_shows_in_the_chat_history "t1" "agent_1" "What is Azure?"
           world_before_cli thread_t1).
  - reflexivity.
  - vm_compute. reflexivity.
  - vm_compute. reflexivity.
  - discriminate.
  - vm_compute. reflexivity.
  - vm_compute. reflexivity.
Defined.

(** A session left on a thread that the service has dropped. *)
Definition world_dropped_thread : world :=
  set_session
    {| ss_messages := [("user", "Hi")]; ss_selected_chat := "Hi";
       ss_log_messages := []; ss_thread_id := Some "t9" |}
    world0.

Lemma turn_on_an_unknown_thread_witness :
  ClientV2.main_turn "t9" "agent_1" (journal_path "t9") "Hello" world_dropped_thread
    = (Raise ServiceError, world_dropped_thread) /\
  ClientPython.main_turn "t9" "agent_1" (journal_path "t9") "Hello" world_dropped_thread
    = (Raise ServiceError, world_dropped_thread) /\
  (ss_thread_id (w_session world_dropped_thread) = Some "t9" ->
   exists w',
     StreamlitApp.chat_turn "Hello" "gpt-4o" world_dropped_thread
       = (Raise ServiceError, w') /\
     files (w_fs w') = files (w_fs world_dropped_thread) /\
     ss_messages (w_session w') =
       ss_messages (w_session world_dropped_thread) ++ [("user", "Hello")] /\
     r_issued (w_remote w') = S (r_issued (w_remote world_dropped_thread)) /\
     w_ui w' = w_ui world_dropped_thread).
Proof.
  apply (turn_on_an_unknown_thread_stores_nothing "t9" "agent_1" (journal_path "t9")
           "Hello" "gpt-4o" world_dropped_thread).
  vm_compute. reflexivity.
Defined.

(** The [memory] directory removed while the client is running. *)
Definition world_no_directory : world :=
  set_dir_exists false (set_remote remote_t1 world0).

Lemma unwritable_journal_witness :
  (exists w',
     ClientV2.main_turn "t1" "agent_1" path_t1 "What is Azure?" world_no_directory
       = (Raise OSError, w') /\
     r_threads (w_remote w') !! "t1"
       = Some (thread_t1 ++ [user_message world_no_directory "What is Azure?"]) /\
     files (w_fs w') = files (w_fs world_no_directory) /\
     r_started (w_remote w') = r_started (w_remote world_no_directory)) /\
  (exists w',
     ClientPython.main_turn "t1" "agent_1" path_t1 "What is Azure?" world_no_directory
       = (Raise OSError, w') /\
     r_threads (w_remote w') !! "t1"
       = Some (thread_t1 ++ [user_message world_no_directory "What is Azure?"]) /\
     files (w_fs w') = files (w_fs world_no_directory) /\
     r_started (w_remote w') = r_started (w_remote world_no_directory)).
Proof.
  apply (unwritable_journal_leaves_the_message_posted "t1" "agent_1" path_t1
           "What is Azure?" world_no_directory thread_t1 []).
  - reflexivity.
  - vm_compute. reflexivity.
  - vm_compute. reflexivity.
Defined.

(** ** Opening a conversation from the chat history *)

Lemma find_row_pair (P : pyval -> bool) L :
  List.find (fun kv => P (snd kv)) (map row_pair L)
  = row_pair <$> List.find (fun r => P (snd r)) L.
Proof.
  induction L as [|[t v] L IH]; simpl; [done |].
  by destruct (P v).
Qed.

Lemma tdict_get_key_row L t :
  tdict_get_key (map row_pair L) (KStr t) = dict_get L t.
Proof.
  induction L as [|[t0 v0] L IH]; simpl; [done |].
  unfold same_key, string_eqb. simpl.
  destruct (decide (t0 = t)) as [-> | Hne].
  - by rewrite !bool_decide_eq_true_2.
  - by rewrite !bool_decide_eq_false_2 by congruence.
Qed.

Lemma find_in_keys (P : string * pyval -> bool) L t v :
  List.find P L = Some (t, v) -> existsb (string_eqb t) (map fst L) = true.
Proof.
  induction L as [|[t0 v0] L IH]; simpl; [done |].
  destruct (P (t0, v0)).
  - intros [= -> ->]. by rewrite string_eqb_refl.
  - intros Hf. rewrite (IH Hf). apply orb_true_r.
Qed.

Lemma find_is_dict_get (P : string * pyval -> bool) L t v :
  nodup_keys (map fst L) = true ->
  List.find P L = Some (t, v) -> dict_get L t = Some v.
Proof.
  induction L as [|[t0 v0] L IH]; simpl; [done |].
  intros [Hfresh Hnd]%andb_true_iff.
  destruct (P (t0, v0)).
  - intros [= -> ->]. by rewrite string_eqb_refl.
  - intros Hf. destruct (string_eqb t0 t) eqn:E.
    + apply string_eqb_true in E as ->.
      apply find_in_keys in Hf. by rewrite Hf in Hfresh.
    + by apply IH.
Qed.

(** The role and the text of an entry, where both are strings. *)
Definition entry_texts (e : pyval) (rt : string * string) : Prop :=
  py_getitem e "role" = Ok (PStr (fst rt)) /\ py_getitem e "text" = Ok (PStr (snd rt)).

Lemma role_and_content_texts msgs ms :
  Forall2 entry_texts msgs ms ->
  StreamlitApp.role_and_content msgs
  = Ok (map (fun rt => (PStr (fst rt), PStr (snd rt))) ms).
Proof.
  induction 1 as [|e rt msgs ms [Hr Ht] _ IH]; simpl; [done |].
  by rewrite Hr, Ht, IH.
Qed.

Lemma as_texts_texts ms :
  StreamlitApp.as_texts (map (fun rt => (PStr (fst rt), PStr (snd rt))) ms) = Some ms.
Proof.
  induction ms as [|[r t] ms IH]; simpl; [done |]. by rewrite IH.
Qed.

Section OpenChat.
Context `{JsonCodec}.

(** The chat history as a list of thread ids with their labels. *)
Definition history (fs : gmap string string) : list (string * pyval) :=
  foldl add_row [] (omap (fun p => listed_row (load_of fs p))
                      (sorted_reverse (journal_files fs))).

Lemma get_all_threads_history fs w :
  files (w_fs w) = fs ->
  Forall (fun p => journal_wf (load_of fs p) = true) (journal_files fs) ->
  StreamlitApp.get_all_threads w
  = (Ok (map row_pair (history fs)), set_dir_exists true w).
Proof.
  intros Hfs Hwf.
  unfold StreamlitApp.get_all_threads. unfold bind at 1. simpl.
  unfold bind, glob_conversations, gets. simpl.
  fold (journal_files (files (w_fs w))). rewrite Hfs.
  apply (get_all_threads_loop_fold fs _ _ []); [by rewrite <- Hfs |].
  by rewrite sorted_reverse_perm.
Qed.

Lemma nodup_keys_history fs : nodup_keys (map fst (history fs)) = true.
Proof. by apply nodup_keys_add_rows. Qed.

(** Where [set_active_thread] leaves the session. *)
Definition opened (t : string) (ms : list (string * string)) (label : string)
    (w : world) : world :=
  set_dir_exists true
    (set_session
       {| ss_messages := ms; ss_selected_chat := label;
          ss_log_messages := ss_log_messages (w_session w);
          ss_thread_id := Some t |} w).

Lemma set_active_thread_run t w d msgs ms label :
  Forall (fun p => journal_wf (load_of (files (w_fs w)) p) = true)
    (journal_files (files (w_fs w))) ->
  load_of (files (w_fs w)) (journal_path t) = PDict d ->
  py_get (PDict d) "messages" (PList []) = Ok (PList msgs) ->
  Forall2 entry_texts msgs ms ->
  default (PStr "--- Start a new chat ---") (dict_get (history (files (w_fs w))) t)
    = PStr label ->
  StreamlitApp.set_active_thread (PStr t) w = (Ok (Some tt), opened t ms label w).
Proof.
  intros Hwf Hd Hmsgs Hms Hlabel.
  unfold StreamlitApp.set_active_thread. cbn [StreamlitApp.as_text].
  unfold bind at 1. unfold modify at 1.
  unfold bind at 1. rewrite _memory_path_for_thread_run.
  unfold bind at 1. rewrite _load_memory_run.
  cbn [w_fs set_dir_exists files StreamlitApp.session_set_thread set_session].
  rewrite Hd.
  unfold bind at 1. unfold lift at 1. rewrite Hmsgs.
  unfold bind at 1. unfold lift at 1. cbn [py_iter].
  unfold bind at 1. unfold lift at 1. rewrite (role_and_content_texts msgs ms Hms).
  rewrite as_texts_texts.
  unfold bind at 1. unfold modify at 1.
  unfold bind at 1.
  rewrite (get_all_threads_history (files (w_fs w))); [| done | done].
  unfold bind at 1. unfold lift at 1. unfold StreamlitApp.tdict_get.
  cbn [py_hash_key]. rewrite tdict_get_key_row.
  change (match dict_get ?L t with Some v => v | None => ?dflt end)
    with (default dflt (dict_get L t)).
  rewrite Hlabel. cbn [StreamlitApp.as_text].
  unfold bind, modify, ret. unfold opened.
  destruct w as [[dir fs lim und] clock ticks rem [smsgs sel logs stid] ui].
  reflexivity.
Qed.

(** Picking a conversation in the chat history.  The session holds the
    label that was picked, not the thread; the callback looks the label up
    in the listing and opens the first thread listed with it, so of two
    conversations that begin with the same user message only the one listed
    first can ever be opened.  Opening sets the thread of the session and
    replaces the messages of the session by the roles and texts of the
    journal stored under the name of that thread id (which need not be the
    file the listing read the id from); the label stays selected, and no
    file changes. *)
Theorem picking_a_chat_opens_the_first_thread_with_its_label w t lab d msgs ms :
  Forall (fun p => journal_wf (load_of (files (w_fs w)) p) = true)
    (journal_files (files (w_fs w))) ->
  ss_selected_chat (w_session w) <> "--- Start a new chat ---" ->
  List.find (fun r => py_eq_str (snd r) (ss_selected_chat (w_session w)))
    (history (files (w_fs w))) = Some (t, lab) ->
  _load_memory (journal_path t) w = (Ok (PDict d), w) ->
  py_get (PDict d) "messages" (PList []) = Ok (PList msgs) ->
  Forall2 entry_texts msgs ms ->
  exists w',
    StreamlitApp.handle_chat_selection w = (Ok (inr (Some tt)), w') /\
    ss_thread_id (w_session w') = Some t /\
    ss_messages (w_session w') = ms /\
    ss_selected_chat (w_session w') = ss_selected_chat (w_session w) /\
    files (w_fs w') = files (w_fs w).
Proof.
  intros Hwf Hsel Hfind Hload Hmsgs Hms.
  rewrite _load_memory_run in Hload.
  assert (Hd : load_of (files (w_fs w)) (journal_path t) = PDict d) by congruence.
  clear Hload.
  set (sel := ss_selected_chat (w_session w)) in *.
  assert (Hlab : lab = PStr sel).
  { apply find_some in Hfind as [_ Hp]. simpl in Hp.
    destruct lab; try done. simpl in Hp. by apply string_eqb_true in Hp as ->. }
  subst lab.
  assert (Hget : dict_get (history (files (w_fs w))) t = Some (PStr sel)).
  { eapply find_is_dict_get; [apply nodup_keys_history | exact Hfind]. }
  unfold StreamlitApp.handle_chat_selection.
  unfold bind at 1. unfold gets at 1. cbv beta. fold sel.
  apply string_eqb_false in Hsel. rewrite Hsel.
  unfold bind at 1.
  rewrite (get_all_threads_history (files (w_fs w))) by done.
  pose proof (thread_ids_labelled_find (map row_pair (history (files (w_fs w)))) sel)
    as Hhead.
  rewrite (find_row_pair (fun v => py_eq_str v sel)), Hfind in Hhead.
  destruct (StreamlitApp.thread_ids_labelled _ sel) as [|k ks]; [done |].
  simpl in Hhead. injection Hhead as ->.
  unfold bind at 1.
  rewrite (set_active_thread_run t (set_dir_exists true w) d msgs ms sel);
    try done.
  - eexists. split; [reflexivity |]. by destruct w as [[] ? ? ? [] ?].
  - cbn [w_fs set_dir_exists files]. by rewrite Hget.
Qed.

End OpenChat.

(** The second of two conversations with one label is picked; the first is
    opened. *)
Lemma picking_a_chat_witness :
  exists w',
    StreamlitApp.handle_chat_selection world_same_label = (Ok (inr (Some tt)), w') /\
    ss_thread_id (w_session w') = Some "t5" /\
    ss_messages (w_session w') = [("user", "Hello"); ("assistant", "Good morning")] /\
    ss_selected_chat (w_session w') = ss_selected_chat (w_session world_same_label) /\
    files (w_fs w') = files (w_fs world_same_label).
Proof.
  apply (picking_a_chat_opens_the_first_thread_with_its_label world_same_label "t5"
           (PStr "Hello")
           [("thread_id", PStr "t5");
            ("messages",
             PList [journal_entry "2025-01-05T09:00:00.000001Z" "user" "Hello"
                      (Some "m7");
                    journal_entry "2025-01-05T09:00:05.000002Z" "assistant"
                      "Good morning" (Some "m8")])]
           [journal_entry "2025-01-05T09:00:00.000001Z" "user" "Hello" (Some "m7");
            journal_entry "2025-01-05T09:00:05.000002Z" "assistant" "Good morning"
              (Some "m8")]).
  - apply (bool_decide_unpack _). vm_compute. exact I.
  - vm_compute. discriminate.
  - vm_compute. reflexivity.
  - vm_compute. reflexivity.
  - reflexivity.
  - repeat constructor.
Defined.

(** ** Answering the resume menu *)

Section Menu.
Context `{JsonCodec} `{PyText}.

(** The thread the menu resumes for the cleaned answer [choice]: the one of
    the row whose number the answer is, none for [n], for an empty answer,
    for what is no number and for a number that is no row's. *)
Definition chosen (saved : list ClientPython.saved_thread) (choice : string)
  : option pyval :=
  if string_eqb choice "n" || string_eqb choice EmptyString then None
  else match py_int choice with
       | Some n =>
           if (1 <=? n)%Z && (n <=? Z.of_nat (length saved))%Z
           then ClientPython.st_tid <$> saved !! Z.to_nat (n - 1)
           else None
       | None => None
       end.

(** A row whose role the menu can print: a string, or nothing. *)
Definition role_printable (x : ClientPython.saved_thread) : Prop :=
  exists role, ClientPython.py_or (ClientPython.st_last_role x) "?" = PStr role.

Lemma print_menu_prints saved : forall i w,
  Forall role_printable saved ->
  exists evs, ClientPython.print_menu i saved w = (Ok tt, with_ui (w_ui w ++ evs) w).
Proof.
  induction saved as [|x saved IH]; intros i w Hall; simpl.
  - apply only_prints_ret.
  - apply Forall_cons in Hall as [[role Hrole] Hall].
    unfold bind at 1, lift, ClientPython.menu_line. rewrite Hrole.
    apply only_prints_bind; [apply only_prints_print |].
    intros w'. by apply IH.
Qed.

Ltac compare_cases :=
  repeat match goal with
         | |- context [(?a <=? ?b)%Z] => destruct (Z.leb_spec a b)
         | |- context [(?a <? ?b)%Z] => destruct (Z.ltb_spec a b)
         end;
  simpl; try done; try lia.

Lemma chosen_nil choice : chosen [] choice = None.
Proof.
  unfold chosen. destruct (_ || _); [done |].
  destruct (py_int choice) as [n|]; [| done]. simpl length. compare_cases.
Qed.

(** The menu resumes only what it lists.  Whatever the user answers, the
    menu returns no thread or the thread of one of its rows, and raises
    nothing: the answer is taken without the blanks around it and without
    regard to case; [n] and the empty answer start a new conversation; a
    number resumes the row it counts, the first row being 1; zero, a negative
    number, a number past the last row and every other text are refused
    with a notice.  Without saved conversations the menu is not shown and
    nothing is printed.  No file is touched. *)
Theorem choose_thread_resumes_only_a_listed_thread answer w saved w1 :
  ClientPython._list_saved_threads w = (Ok saved, w1) ->
  Forall role_printable saved ->
  exists w2,
    ClientPython._choose_thread_interactive answer w
      = (Ok (chosen saved (str_lower (str_strip answer))), w2) /\
    files (w_fs w2) = files (w_fs w1) /\
    (saved = [] -> w2 = w1) /\
    (saved <> [] ->
     str_lower (str_strip answer) <> "n" ->
     str_lower (str_strip answer) <> EmptyString ->
     chosen saved (str_lower (str_strip answer)) = None ->
     last (w_ui w2) = Some (UiPrint "Invalid choice; starting a new conversation.")) /\
    (forall tid, chosen saved (str_lower (str_strip answer)) = Some tid ->
       exists x, x ∈ saved /\ ClientPython.st_tid x = tid) /\
    (forall n, py_int (str_lower (str_strip answer)) = Some n ->
       (n <= 0)%Z \/ (Z.of_nat (length saved) < n)%Z ->
       chosen saved (str_lower (str_strip answer)) = None) /\
    (forall k x,
       str_lower (str_strip answer) <> "n" ->
       str_lower (str_strip answer) <> EmptyString ->
       py_int (str_lower (str_strip answer)) = Some (Z.of_nat (S k)) ->
       saved !! k = Some x ->
       chosen saved (str_lower (str_strip answer)) = Some (ClientPython.st_tid x)).
Proof.
  intros Hlist Hroles.
  set (choice := str_lower (str_strip answer)).
  assert (Hrun : exists w2,
    ClientPython._choose_thread_interactive answer w = (Ok (chosen saved choice), w2) /\
    files (w_fs w2) = files (w_fs w1) /\ (saved = [] -> w2 = w1) /\
    (saved <> [] -> choice <> "n" -> choice <> EmptyString ->
     chosen saved choice = None ->
     last (w_ui w2) = Some (UiPrint "Invalid choice; starting a new conversation."))).
  { unfold ClientPython._choose_thread_interactive. unfold bind at 1. rewrite Hlist.
    destruct saved as [|x0 saved0] eqn:Es.
    { exists w1. simpl. by rewrite chosen_nil. }
    rewrite <- Es in *. assert (Hlen : Nat.eqb (length saved) 0 = false) by by rewrite Es.
    rewrite Hlen. fold choice.
    unfold bind at 1. unfold print at 1, modify at 1.
    unfold bind at 1.
    destruct (print_menu_prints saved 1 (add_ui
                 (UiPrint (String "010"%char "Saved conversations:")) w1) Hroles)
      as [evs ->].
    unfold bind at 1. unfold print at 1, modify at 1.
    unfold chosen.
    destruct (string_eqb choice "n" || string_eqb choice EmptyString) eqn:Eq.
    { eexists. split; [reflexivity |]. split; [done |]. split; [by rewrite Es |].
      intros _ Hn He _. apply string_eqb_false in Hn, He. by rewrite Hn, He in Eq. }
    destruct (py_int choice) as [n|].
    2: { eexists. split; [reflexivity |]. split; [done |]. split; [by rewrite Es |].
         intros _ _ _ _. simpl. by rewrite last_snoc. }
    cbv zeta.
    replace ((0 <=? n - 1)%Z && (n - 1 <? Z.of_nat (length saved))%Z)
      with ((1 <=? n)%Z && (n <=? Z.of_nat (length saved))%Z).
    2: { compare_cases. }
    destruct ((1 <=? n)%Z && (n <=? Z.of_nat (length saved))%Z) eqn:Eb.
    2: { eexists. split; [reflexivity |]. split; [done |]. split; [by rewrite Es |].
         intros _ _ _ _. simpl. by rewrite last_snoc. }
    apply andb_true_iff in Eb as [E1 E2]. apply Z.leb_le in E1, E2.
    destruct (saved !! Z.to_nat (n - 1)) as [x|] eqn:Ex.
    - eexists. split; [reflexivity |]. split; [done |]. split; [by rewrite Es | done].
    - apply lookup_ge_None in Ex. lia. }
  destruct Hrun as (w2 & Hrun & Hfiles & Hnil & Hnote).
  exists w2. split; [exact Hrun |]. split; [exact Hfiles |]. split; [exact Hnil |].
  split; [exact Hnote |].
  split; [| split].
  - intros tid. unfold chosen. destruct (_ || _); [done |].
    destruct (py_int choice) as [n|]; [| done].
    destruct (_ && _); [| done].
    destruct (saved !! Z.to_nat (n - 1)) as [x|] eqn:Ex; [| done].
    intros [= <-]. exists x. split; [by eapply list_elem_of_lookup_2 | done].
  - intros n Hn Hout. unfold chosen. destruct (_ || _); [done |]. rewrite Hn.
    compare_cases.
  - intros k x Hn He Hint Hx. unfold chosen.
    apply string_eqb_false in Hn, He. rewrite Hn, He, Hint. simpl orb. cbv iota.
    assert (Hk : k < length saved) by by eapply lookup_lt_Some.
    replace (Z.to_nat (Z.of_nat (S k) - 1)) with k by lia.
    rewrite Hx. compare_cases.
Qed.

End Menu.

(** ** Python's text functions over characters below 256 *)

(** A model of [str], [upper], [strip], [lower] and [int] for texts whose
    characters are the first 256 of Unicode, one [ascii] each.  [upper]
    leaves the three letters alone whose capital is no such character. *)
Module PlainText.

Definition code (c : ascii) : nat := nat_of_ascii c.

Definition between (lo n hi : nat) : bool := Nat.leb lo n && Nat.leb n hi.

(** [str.isspace] of a character. *)
Definition is_space (c : ascii) : bool :=
  between 9 (code c) 13 || between 28 (code c) 32
  || Nat.eqb (code c) 133 || Nat.eqb (code c) 160.

Fixpoint lstrip (s : string) : string :=
  match s with
  | EmptyString => EmptyString
  | String c s' => if is_space c then lstrip s' else s
  end.

Fixpoint rstrip (s : string) : string :=
  match s with
  | EmptyString => EmptyString
  | String c s' =>
      match rstrip s' with
      | EmptyString => if is_space c then EmptyString else String c EmptyString
      | r => String c r
      end
  end.

Definition strip (s : string) : string := rstrip (lstrip s).

Fixpoint map_chars (f : ascii -> ascii) (s : string) : string :=
  match s with
  | EmptyString => EmptyString
  | String c s' => String (f c) (map_chars f s')
  end.

Definition lower_char (c : ascii) : ascii :=
  if between 65 (code c) 90
     || (between 192 (code c) 222 && negb (Nat.eqb (code c) 215))
  then ascii_of_nat (code c + 32) else c.

Definition upper_char (c : ascii) : ascii :=
  if between 97 (code c) 122
     || (between 224 (code c) 254 && negb (Nat.eqb (code c) 247))
  then ascii_of_nat (code c - 32) else c.

Definition lower : string -> string := map_chars lower_char.
Definition upper : string -> string := map_chars upper_char.

Definition digit_val (c : ascii) : option Z :=
  if between 48 (code c) 57 then Some (Z.of_nat (code c - 48)) else None.

(** The digits of a numeral, single underscores allowed between two of
    them. *)
Fixpoint int_digits (acc : Z) (after_digit : bool) (s : string) : option Z :=
  match s with
  | EmptyString => if after_digit then Some acc else None
  | String c s' =>
      match digit_val c with
      | Some d => int_digits (10 * acc + d) true s'
      | None =>
          if Ascii.eqb c "_"%char && after_digit then int_digits acc false s'
          else None
      end
  end.

Definition int_of_text (s : string) : option Z :=
  match strip s with
  | String c r =>
      if Ascii.eqb c "+"%char then int_digits 0 false r
      else if Ascii.eqb c "-"%char then Z.opp <$> int_digits 0 false r
      else int_digits 0 false (String c r)
  | EmptyString => None
  end.

(** [repr] of a string. *)
Definition printable (c : ascii) : bool :=
  between 32 (code c) 126 || (between 161 (code c) 255 && negb (Nat.eqb (code c) 173)).

Definition hex2 (n : nat) : string :=
  String (PyJson.hex_char (n / 16)) (String (PyJson.hex_char (n mod 16)) EmptyString).

Definition repr_char (q c : ascii) : string :=
  if Ascii.eqb c PyJson.bslash then String PyJson.bslash (String PyJson.bslash EmptyString)
  else if Ascii.eqb c q then String PyJson.bslash (String q EmptyString)
  else if Ascii.eqb c "010"%char then String PyJson.bslash "n"
  else if Ascii.eqb c "013"%char then String PyJson.bslash "r"
  else if Ascii.eqb c "009"%char then String PyJson.bslash "t"
  else if printable c then String c EmptyString
  else String PyJson.bslash (String "x"%char (hex2 (code c))).

Definition has (c : ascii) (s : string) : bool :=
  existsb (Ascii.eqb c) (list_ascii_of_string s).

Fixpoint repr_chars (q : ascii) (s : string) : string :=
  match s with
  | EmptyString => EmptyString
  | String c s' => repr_char q c +:+ repr_chars q s'
  end.

Definition repr_str (s : string) : string :=
  let q := if has "'"%char s && negb (has PyJson.dquote s)
           then PyJson.dquote else "'"%char in
  String q (repr_chars q s +:+ String q EmptyString).

Fixpoint join (sep : string) (l : list string) : string :=
  match l with
  | [] => EmptyString
  | [x] => x
  | x :: l' => x +:+ sep +:+ join sep l'
  end.

Fixpoint repr (v : pyval) : string :=
  match v with
  | PNone => "None"
  | PBool b => if b then "True" else "False"
  | PInt z => PyJson.encode_int z
  | PStr s => repr_str s
  | PList l => "[" +:+ join ", " (map repr l) +:+ "]"
  | PDict d =>
      "{" +:+ join ", " (map (fun kv => repr_str (fst kv) +:+ ": " +:+ repr (snd kv)) d)
      +:+ "}"
  end.

Definition str (v : pyval) : string :=
  match v with
  | PStr s => s
  | _ => repr v
  end.

End PlainText.

#[global] Instance plain_text : PyText := {|
  py_str := PlainText.str;
  str_upper := PlainText.upper;
  str_strip := PlainText.strip;
  str_lower := PlainText.lower;
  py_int := PlainText.int_of_text
|}.

Definition menu_rows : list ClientPython.saved_thread :=
  match fst (ClientPython._list_saved_threads world_listing) with
  | Ok rows => rows
  | Raise _ => []
  end.

(** The user answers the menu of three saved conversations with the number
    of the second row. *)
Lemma choose_thread_witness :
  exists w2,
    ClientPython._choose_thread_interactive " 2 " world_listing
      = (Ok (chosen menu_rows (str_lower (str_strip " 2 "))), w2) /\
    files (w_fs w2) = files (w_fs (set_dir_exists true world_listing)) /\
    (menu_rows = [] -> w2 = set_dir_exists true world_listing) /\
    (menu_rows <> [] ->
     str_lower (str_strip " 2 ") <> "n" ->
     str_lower (str_strip " 2 ") <> EmptyString ->
     chosen menu_rows (str_lower (str_strip " 2 ")) = None ->
     last (w_ui w2) = Some (UiPrint "Invalid choice; starting a new conversation.")) /\
    (forall tid, chosen menu_rows (str_lower (str_strip " 2 ")) = Some tid ->
       exists x, x ∈ menu_rows /\ ClientPython.st_tid x = tid) /\
    (forall n, py_int (str_lower (str_strip " 2 ")) = Some n ->
       (n <= 0)%Z \/ (Z.of_nat (length menu_rows) < n)%Z ->
       chosen menu_rows (str_lower (str_strip " 2 ")) = None) /\
    (forall k x,
       str_lower (str_strip " 2 ") <> "n" ->
       str_lower (str_strip " 2 ") <> EmptyString ->
       py_int (str_lower (str_strip " 2 ")) = Some (Z.of_nat (S k)) ->
       menu_rows !! k = Some x ->
       chosen menu_rows (str_lower (str_strip " 2 ")) = Some (ClientPython.st_tid x)).
Proof.
  apply (choose_thread_resumes_only_a_listed_thread " 2 " world_listing menu_rows
           (set_dir_exists true world_listing)).
  - vm_compute. reflexivity.
  - vm_compute. repeat (constructor; [eexists; reflexivity |]). constructor.
Defined.

Example choose_thread_second_row :
  chosen menu_rows (str_lower (str_strip " 2 ")) = Some (PStr "t1").
Proof. vm_compute. reflexivity. Qed.
